(** * EmprendeVentaPos: the Netlify functions, embedded and verified

    The repository ships three serverless handlers
    ([create-seller], [manage-seller] and the insight generator).  Each is a
    sequential adapter: it inspects the inbound event, reads the process
    environment, issues [fetch] calls one after the other and answers with
    a status code and a JSON body.

    The development has four parts.
    - [Text] and [JS]: the fragment of the JavaScript runtime the handlers
      lean on (strings, values obtained from [JSON.parse], truthiness,
      property reads, string conversion, [JSON.stringify],
      [encodeURIComponent]).
    - [Netlify]: events, responses, the effect monad (exceptions plus the
      chronological trace of outbound requests), the three handlers
      transcribed statement by statement, and the vocabulary in which
      their properties are stated.
    - [Sample]: one concrete deployment, for the examples.
    - The properties of the handlers, then the examples. *)

From Stdlib Require Import ZArith Ascii String List Bool Lia DecimalString.
From stdpp Require Import gmap strings.

Local Open Scope Z_scope.

(** ** Strings

    A JavaScript string is kept as the byte string of its UTF-8 encoding.
    An unpaired surrogate, which UTF-8 proper cannot hold, is kept as the
    three bytes its code unit would take (0xED, then a byte of at least
    0xA0, then a continuation byte); a surrogate pair is always the four
    bytes of the code point it denotes. *)

Module Text.

Definition byte (c : ascii) : N := N_of_ascii c.
Definition chr (n : N) : ascii := ascii_of_N n.

Definition dquote : ascii := chr 34.
Definition backslash : ascii := chr 92.

Definition str1 (c : ascii) : string := String c EmptyString.

Fixpoint join (sep : string) (l : list string) : string :=
  match l with
  | [] => EmptyString
  | [x] => x
  | x :: rest => x +:+ sep +:+ join sep rest
  end.

(** A literal in which the apostrophe stands for the double quote. *)
Fixpoint lit (s : string) : string :=
  match s with
  | EmptyString => EmptyString
  | String c r => String (if Ascii.eqb c "'" then dquote else c) (lit r)
  end.

Definition newline : string := str1 (chr 10).

(** UTF-8 encoding of a code point or of a lone UTF-16 code unit. *)
Definition utf8 (cp : N) : string :=
  (if cp <? 128 then str1 (chr cp)
   else if cp <? 2048 then
     String (chr (192 + cp / 64)) (str1 (chr (128 + cp mod 64)))
   else if cp <? 65536 then
     String (chr (224 + cp / 4096))
       (String (chr (128 + (cp / 64) mod 64)) (str1 (chr (128 + cp mod 64))))
   else
     String (chr (240 + cp / 262144))
       (String (chr (128 + (cp / 4096) mod 64))
          (String (chr (128 + (cp / 64) mod 64))
             (str1 (chr (128 + cp mod 64))))))%N.

(** Number of bytes announced by a leading byte. *)
Definition seq_len (c : ascii) : nat :=
  let b := byte c in
  if (b <? 192)%N then 1%nat
  else if (b <? 224)%N then 2%nat
  else if (b <? 240)%N then 3%nat
  else 4%nat.

Fixpoint take (n : nat) (s : string) : string :=
  match n, s with
  | S k, String c r => String c (take k r)
  | _, _ => EmptyString
  end.

Fixpoint drop (n : nat) (s : string) : string :=
  match n, s with
  | S k, String _ r => drop k r
  | _, _ => s
  end.

(** The code points of a string, each as the string of its bytes: what
    iterating a string with [for ... of] yields. *)
Fixpoint code_points_aux (fuel : nat) (s : string) : list string :=
  match fuel, s with
  | S f, String c _ =>
      let n := seq_len c in
      take n s :: code_points_aux f (drop n s)
  | _, _ => []
  end.

Definition code_points (s : string) : list string :=
  code_points_aux (String.length s) s.

(** The value of a four-byte sequence. *)
Definition astral (p : string) : N :=
  match p with
  | String a (String b (String c (String d EmptyString))) =>
      ((byte a mod 8) * 262144 + (byte b mod 64) * 4096
       + (byte c mod 64) * 64 + byte d mod 64)%N
  | _ => 0%N
  end.

(** The UTF-16 code units of a string, each as a string: an astral code
    point contributes its two surrogates. *)
Definition code_units (s : string) : list string :=
  flat_map
    (fun p =>
       if (String.length p =? 4)%nat then
         let v := (astral p - 65536)%N in
         [utf8 (55296 + v / 1024)%N; utf8 (56320 + v mod 1024)%N]
       else [p])
    (code_points s).

(** A three-byte sequence that encodes a surrogate code unit. *)
Definition is_surrogate (p : string) : bool :=
  match p with
  | String a (String b (String _ EmptyString)) =>
      ((byte a =? 237) && (160 <=? byte b))%N
  | _ => false
  end.

Definition well_formed (s : string) : bool :=
  forallb (fun p => negb (is_surrogate p)) (code_points s).

End Text.

(** ** The JavaScript values the handlers see *)

Module JS.

(** A number is the binary64 value nearest to [mantissa * 10 ^ exponent10],
    the form in which [JSON.parse] reads it.  Only three facts about that
    double are ever needed: whether it is zero, whether it is finite, and
    its decimal rendering, which belongs to the engine. *)
Record number := Num { mantissa : Z; exponent10 : Z }.

(** Magnitudes up to half the least subnormal, 2^-1075, round to zero. *)
Definition num_is_zero (n : number) : bool :=
  (mantissa n =? 0)
  || ((exponent10 n <? 0)
      && (Z.abs (mantissa n) * 2 ^ 1075 <=? 10 ^ (- exponent10 n))).

(** Magnitudes from 2^1024 - 2^970 on round to an infinity. *)
Definition num_is_finite (n : number) : bool :=
  let top := 2 ^ 1024 - 2 ^ 970 in
  if exponent10 n <? 0
  then Z.abs (mantissa n) <? top * 10 ^ (- exponent10 n)
  else Z.abs (mantissa n) * 10 ^ exponent10 n <? top.

(** Objects list their own properties in enumeration order. *)
#[warnings="-register-all"]
Inductive value :=
| VUndef
| VNull
| VBool (b : bool)
| VNum (n : number)
| VStr (s : string)
| VArr (items : list value)
| VObj (fields : list (string * value)).

Definition obj0 : value := VObj [].

(** What can be thrown. *)
Inductive exn :=
| SyntaxError (text : string)
    (* JSON.parse rejected [text] *)
| TypeError_nullish (prop : string)
    (* property [prop] read, or destructured, from null or undefined *)
| TypeError_primitive
    (* an object has no primitive value to convert to a string *)
| TypeError_not_iterable
| URIError
    (* encodeURIComponent met an unpaired surrogate *)
| TypeError_fetch.
    (* fetch rejected: the request never got a response *)

Inductive Result (A : Type) :=
| Ok (a : A)
| Throw (e : exn).
Arguments Ok {A} a.
Arguments Throw {A} e.

Definition rbind {A B} (r : Result A) (k : A -> Result B) : Result B :=
  match r with
  | Ok a => k a
  | Throw e => Throw e
  end.

(** [ToBoolean]: undefined, null, false, zero and the empty string are
    falsy, everything else is truthy. *)
Definition ToBoolean (v : value) : bool :=
  match v with
  | VUndef | VNull => false
  | VBool b => b
  | VNum n => negb (num_is_zero n)
  | VStr s => negb (String.eqb s EmptyString)
  | VArr _ | VObj _ => true
  end.

(** [a || b] *)
Definition or_else (a b : value) : value :=
  if ToBoolean a then a else b.

Definition is_nullish (v : value) : bool :=
  match v with
  | VUndef | VNull => true
  | _ => false
  end.

(** Decimal digits of an array index: no sign, no leading zero. *)
Fixpoint digits_value (acc : N) (s : string) : option N :=
  match s with
  | EmptyString => Some acc
  | String c r =>
      let b := Text.byte c in
      if ((48 <=? b) && (b <=? 57))%N
      then digits_value (acc * 10 + (b - 48))%N r
      else None
  end.

Definition array_index (k : string) : option N :=
  match k with
  | EmptyString => None
  | String c r =>
      if Ascii.eqb c "0" && negb (String.eqb r EmptyString) then None
      else match digits_value 0 k with
           | Some n => if (n <? 4294967295)%N then Some n else None
           | None => None
           end
  end.

Fixpoint lookup_field (k : string) (fs : list (string * value)) : value :=
  match fs with
  | [] => VUndef
  | (k', v) :: rest => if String.eqb k k' then v else lookup_field k rest
  end.

(** [v.k] and [v[k]] for a key [k] that no built-in prototype defines and
    that is not [length]; every key the handlers read is of that kind.
    Reading from null or undefined throws. *)
Definition Get (v : value) (k : string) : Result value :=
  match v with
  | VUndef | VNull => Throw (TypeError_nullish k)
  | VBool _ | VNum _ => Ok VUndef
  | VStr s =>
      match array_index k with
      | Some i =>
          match nth_error (Text.code_units s) (N.to_nat i) with
          | Some u => Ok (VStr u)
          | None => Ok VUndef
          end
      | None => Ok VUndef
      end
  | VArr items =>
      match array_index k with
      | Some i => Ok (nth (N.to_nat i) items VUndef)
      | None => Ok VUndef
      end
  | VObj fs => Ok (lookup_field k fs)
  end.

(** [v?.k]: undefined when [v] is null or undefined. *)
Definition GetOpt (v : value) (k : string) : value :=
  match Get v k with
  | Ok x => x
  | Throw _ => VUndef
  end.

(** *** String conversion and serialisation *)

Section Rendering.

(** [Number::toString] on a finite, non-zero double. *)
Variable Number_toString : number -> string.

Definition number_text (n : number) : string :=
  if num_is_zero n then "0"
  else if num_is_finite n then Number_toString n
  else if mantissa n <? 0 then "-Infinity" else "Infinity".

Definition has_field (k : string) (fs : list (string * value)) : bool :=
  existsb (fun kv => String.eqb k (fst kv)) fs.

(** [ToString], as a template literal applies it.  An array joins its
    elements with commas, null and undefined elements counting as empty.
    A plain object answers through [Object.prototype.toString] unless it
    carries an own [toString] property: a parsed value is never callable,
    [valueOf] then returns the object itself, and the conversion throws. *)
Fixpoint ToString (v : value) : Result string :=
  match v with
  | VUndef => Ok "undefined"
  | VNull => Ok "null"
  | VBool b => Ok (if b then "true" else "false")
  | VNum n => Ok (number_text n)
  | VStr s => Ok s
  | VArr items =>
      rbind
        ((fix each (xs : list value) : Result (list string) :=
            match xs with
            | [] => Ok []
            | x :: rest =>
                rbind (if is_nullish x then Ok EmptyString else ToString x)
                  (fun t => rbind (each rest) (fun ts => Ok (t :: ts)))
            end) items)
        (fun ts => Ok (Text.join "," ts))
  | VObj fs =>
      if has_field "toString" fs then Throw TypeError_primitive
      else Ok "[object Object]"
  end.

Definition hex_digit (n : N) : ascii :=
  if (n <? 10)%N then Text.chr (48 + n) else Text.chr (87 + n).

Definition hex4 (n : N) : string :=
  String (hex_digit (n / 4096))
    (String (hex_digit ((n / 256) mod 16))
       (String (hex_digit ((n / 16) mod 16))
          (Text.str1 (hex_digit (n mod 16))))).

(** The code unit held by a three-byte sequence. *)
Definition unit_value (p : string) : N :=
  match p with
  | String a (String b (String c EmptyString)) =>
      ((Text.byte a mod 16) * 4096 + (Text.byte b mod 64) * 64
       + Text.byte c mod 64)%N
  | _ => 0%N
  end.

Definition escape (p : string) : string :=
  let u := String Text.backslash "u" in
  match p with
  | String c EmptyString =>
      let b := Text.byte c in
      if (b =? 34)%N then String Text.backslash (Text.str1 Text.dquote)
      else if (b =? 92)%N then String Text.backslash (Text.str1 Text.backslash)
      else if (b =? 8)%N then String Text.backslash "b"
      else if (b =? 12)%N then String Text.backslash "f"
      else if (b =? 10)%N then String Text.backslash "n"
      else if (b =? 13)%N then String Text.backslash "r"
      else if (b =? 9)%N then String Text.backslash "t"
      else if (b <? 32)%N then u +:+ hex4 b
      else p
  | _ => if Text.is_surrogate p then u +:+ hex4 (unit_value p) else p
  end.

(** [QuoteJSONString] *)
Definition quote (s : string) : string :=
  Text.str1 Text.dquote
  +:+ String.concat EmptyString (map escape (Text.code_points s))
  +:+ Text.str1 Text.dquote.

(** [JSON.stringify] without replacer or indentation; [None] is the
    undefined it returns for undefined.  A property whose value is
    undefined is left out, an undefined array element reads null, a
    number that is not finite reads null. *)
Fixpoint stringify (v : value) : option string :=
  match v with
  | VUndef => None
  | VNull => Some "null"
  | VBool b => Some (if b then "true" else "false")
  | VNum n => Some (if num_is_finite n then number_text n else "null")
  | VStr s => Some (quote s)
  | VArr items =>
      Some ("[" +:+
            Text.join ","
              (map (fun x => match stringify x with
                             | Some t => t
                             | None => "null"
                             end) items)
            +:+ "]")
  | VObj fs =>
      Some ("{" +:+
            Text.join ","
              (flat_map (fun kv => match stringify (snd kv) with
                                   | Some t => [quote (fst kv) +:+ ":" +:+ t]
                                   | None => []
                                   end) fs)
            +:+ "}")
  end.

(** [JSON.stringify] of an object or array literal is always a string. *)
Definition JSON_stringify (v : value) : string :=
  match stringify v with
  | Some t => t
  | None => "undefined"
  end.

(** [encodeURIComponent]: the argument is converted to a string, an
    unpaired surrogate is a [URIError], and every byte outside
    [A-Z a-z 0-9 - _ . ! ~ * ' ( )] is percent-encoded. *)
Definition unreserved (c : ascii) : bool :=
  let b := Text.byte c in
  (((65 <=? b) && (b <=? 90)) || ((97 <=? b) && (b <=? 122))
   || ((48 <=? b) && (b <=? 57))
   || existsb (N.eqb b) [45; 95; 46; 33; 126; 42; 39; 40; 41])%N.

Definition HEX_digit (n : N) : ascii :=
  if (n <? 10)%N then Text.chr (48 + n) else Text.chr (55 + n).

Fixpoint percent_encode (s : string) : string :=
  match s with
  | EmptyString => EmptyString
  | String c r =>
      if unreserved c then String c (percent_encode r)
      else String "%" (String (HEX_digit (Text.byte c / 16))
                         (String (HEX_digit (Text.byte c mod 16))
                            (percent_encode r)))
  end.

Definition encodeURIComponent (v : value) : Result string :=
  rbind (ToString v)
    (fun s => if Text.well_formed s then Ok (percent_encode s)
              else Throw URIError).

End Rendering.

(** *** [JSON.parse] *)

Definition is_ws (c : ascii) : bool :=
  existsb (N.eqb (Text.byte c)) [32; 9; 10; 13]%N.

Definition is_digit (c : ascii) : bool :=
  ((48 <=? Text.byte c) && (Text.byte c <=? 57))%N.

Definition digit_value (c : ascii) : Z := Z.of_N (Text.byte c) - 48.

Fixpoint skip_ws (s : string) : string :=
  match s with
  | String c r => if is_ws c then skip_ws r else s
  | EmptyString => s
  end.

(** Reads a run of digits onto [acc]; also counts them. *)
Fixpoint digits (s : string) (acc count : Z) : Z * Z * string :=
  match s with
  | String c r =>
      if is_digit c then digits r (acc * 10 + digit_value c) (count + 1)
      else (acc, count, s)
  | EmptyString => (acc, count, s)
  end.

Definition parse_exponent (s : string) : option (Z * string) :=
  match s with
  | String c r =>
      if Ascii.eqb c "e" || Ascii.eqb c "E" then
        let '(neg, r1) :=
          match r with
          | String sg r' =>
              if Ascii.eqb sg "-" then (true, r')
              else if Ascii.eqb sg "+" then (false, r')
              else (false, r)
          | EmptyString => (false, r)
          end in
        let '(x, n, r2) := digits r1 0 0 in
        if n =? 0 then None else Some (if neg then - x else x, r2)
      else Some (0, s)
  | EmptyString => Some (0, s)
  end.

Definition parse_fraction (int : Z) (s : string) : option (Z * Z * string) :=
  match s with
  | String c r =>
      if Ascii.eqb c "." then
        let '(m, n, r1) := digits r int 0 in
        if n =? 0 then None else Some (m, n, r1)
      else Some (int, 0, s)
  | EmptyString => Some (int, 0, s)
  end.

(** An optional minus sign; then a lone zero, or a digit other than zero
    followed by digits; then an optional fraction (a point and at least
    one digit) and an optional exponent (e or E, an optional sign, at
    least one digit). *)
Definition parse_number (s : string) : option (number * string) :=
  let '(neg, s1) :=
    match s with
    | String c r => if Ascii.eqb c "-" then (true, r) else (false, s)
    | EmptyString => (false, s)
    end in
  match s1 with
  | String c r =>
      if is_digit c then
        let '(int, _, r1) :=
          if Ascii.eqb c "0" then (0, 1, r) else digits s1 0 0 in
        match parse_fraction int r1 with
        | Some (m, n, r2) =>
            match parse_exponent r2 with
            | Some (x, r3) => Some (Num (if neg then - m else m) (x - n), r3)
            | None => None
            end
        | None => None
        end
      else None
  | EmptyString => None
  end.

Definition hex_value (c : ascii) : option N :=
  let b := Text.byte c in
  if ((48 <=? b) && (b <=? 57))%N then Some (b - 48)%N
  else if ((65 <=? b) && (b <=? 70))%N then Some (b - 55)%N
  else if ((97 <=? b) && (b <=? 102))%N then Some (b - 87)%N
  else None.

Definition hex4_value (a b c d : ascii) : option N :=
  match hex_value a, hex_value b, hex_value c, hex_value d with
  | Some x, Some y, Some z, Some w => Some (x * 4096 + y * 256 + z * 16 + w)%N
  | _, _, _, _ => None
  end.

Definition is_high (u : N) : bool := ((55296 <=? u) && (u <? 56320))%N.
Definition is_low (u : N) : bool := ((56320 <=? u) && (u <? 57344))%N.

Definition simple_escape (e : ascii) : option ascii :=
  let b := Text.byte e in
  if existsb (N.eqb b) [34; 92; 47]%N then Some e
  else if Ascii.eqb e "b" then Some (Text.chr 8)
  else if Ascii.eqb e "f" then Some (Text.chr 12)
  else if Ascii.eqb e "n" then Some (Text.chr 10)
  else if Ascii.eqb e "r" then Some (Text.chr 13)
  else if Ascii.eqb e "t" then Some (Text.chr 9)
  else None.

Definition prepend (t : string) (r : option (string * string))
  : option (string * string) :=
  match r with
  | Some (body, rest) => Some (t +:+ body, rest)
  | None => None
  end.

(** The low surrogate that an escape at the head of [s] denotes. *)
Definition low_escape (s : string) : option N :=
  match s with
  | String b (String u (String g1 (String g2 (String g3 (String g4 _))))) =>
      if Ascii.eqb b Text.backslash && Ascii.eqb u "u" then
        match hex4_value g1 g2 g3 g4 with
        | Some lo => if is_low lo then Some lo else None
        | None => None
        end
      else None
  | _ => None
  end.

(** The characters of a string literal after its opening quote, up to and
    including the closing quote. *)
Fixpoint string_body (s : string) : option (string * string) :=
  match s with
  | EmptyString => None
  | String c r =>
      if Ascii.eqb c Text.dquote then Some (EmptyString, r)
      else if (Text.byte c <? 32)%N then None
      else if Ascii.eqb c Text.backslash then
        match r with
        | EmptyString => None
        | String e r1 =>
            if Ascii.eqb e "u" then
              match r1 with
              | String h1 (String h2 (String h3 (String h4 r2))) =>
                  match hex4_value h1 h2 h3 h4 with
                  | Some hi =>
                      match (if is_high hi then low_escape r2 else None), r2 with
                      | Some lo, String _ (String _ (String _ (String _
                                   (String _ (String _ r3))))) =>
                          prepend
                            (Text.utf8 (65536 + (hi - 55296) * 1024
                                        + (lo - 56320))%N)
                            (string_body r3)
                      | _, _ => prepend (Text.utf8 hi) (string_body r2)
                      end
                  | None => None
                  end
              | _ => None
              end
            else
              match simple_escape e with
              | Some x => prepend (Text.str1 x) (string_body r1)
              | None => None
              end
        end
      else prepend (Text.str1 c) (string_body r)
  end.

(** Defining a property: a key already present keeps its place and takes
    the new value, a new key goes last. *)
Fixpoint define (fs : list (string * value)) (k : string) (v : value)
  : list (string * value) :=
  match fs with
  | [] => [(k, v)]
  | (k', v') :: rest =>
      if String.eqb k k' then (k, v) :: rest else (k', v') :: define rest k v
  end.

Fixpoint insert_index (i : N) (kv : string * value)
  (l : list (N * (string * value))) : list (N * (string * value)) :=
  match l with
  | [] => [(i, kv)]
  | (j, x) :: rest =>
      if (i <? j)%N then (i, kv) :: l else (j, x) :: insert_index i kv rest
  end.

(** Enumeration order of own properties: array indices in ascending
    order, then the other keys in order of creation. *)
Definition property_order (fs : list (string * value))
  : list (string * value) :=
  let indexed :=
    fold_left
      (fun acc kv => match array_index (fst kv) with
                     | Some i => insert_index i kv acc
                     | None => acc
                     end) fs [] in
  map snd indexed
  ++ List.filter (fun kv => match array_index (fst kv) with
                       | Some _ => false
                       | None => true
                       end) fs.

Definition expect (word : string) (v : value) (s : string)
  : option (value * string) :=
  if String.prefix word s then Some (v, Text.drop (String.length word) s)
  else None.

(** A string, a literal name or a number at the head of [s]. *)
Definition parse_scalar (s : string) : option (value * string) :=
  match s with
  | EmptyString => None
  | String c r =>
      if Ascii.eqb c Text.dquote then
        match string_body r with
        | Some (t, r') => Some (VStr t, r')
        | None => None
        end
      else if Ascii.eqb c "t" then expect "true" (VBool true) s
      else if Ascii.eqb c "f" then expect "false" (VBool false) s
      else if Ascii.eqb c "n" then expect "null" VNull s
      else
        match parse_number s with
        | Some (n, r') => Some (VNum n, r')
        | None => None
        end
  end.

(** What the recursive descent makes of a text: a value and the text
    after it, a syntax error, or no verdict for want of fuel. *)
Inductive outcome :=
| Parsed (v : value) (rest : string)
| Invalid
| Exhausted.

(** Every call spends one unit of fuel.  [parse_items] reads the elements
    of an array after its opening bracket, [parse_members] the members of
    an object after its opening brace. *)
Fixpoint parse_value (fuel : nat) (s : string) : outcome :=
  match fuel with
  | O => Exhausted
  | S f =>
      match skip_ws s with
      | EmptyString => Invalid
      | String c r as s' =>
          if Ascii.eqb c "{" then
            match skip_ws r with
            | String c' r' as m =>
                if Ascii.eqb c' "}" then Parsed (VObj []) r'
                else parse_members f m []
            | EmptyString => Invalid
            end
          else if Ascii.eqb c "[" then
            match skip_ws r with
            | String c' r' as m =>
                if Ascii.eqb c' "]" then Parsed (VArr []) r'
                else parse_items f m []
            | EmptyString => Invalid
            end
          else
            match parse_scalar s' with
            | Some (v, r') => Parsed v r'
            | None => Invalid
            end
      end
  end
with parse_items (fuel : nat) (s : string) (acc : list value) : outcome :=
  match fuel with
  | O => Exhausted
  | S f =>
      match parse_value f s with
      | Parsed v r =>
          match skip_ws r with
          | String c r' =>
              if Ascii.eqb c "," then parse_items f r' (v :: acc)
              else if Ascii.eqb c "]" then Parsed (VArr (rev (v :: acc))) r'
              else Invalid
          | EmptyString => Invalid
          end
      | Invalid => Invalid
      | Exhausted => Exhausted
      end
  end
with parse_members (fuel : nat) (s : string) (acc : list (string * value))
  : outcome :=
  match fuel with
  | O => Exhausted
  | S f =>
      match skip_ws s with
      | String q r =>
          if Ascii.eqb q Text.dquote then
            match string_body r with
            | Some (k, r1) =>
                match skip_ws r1 with
                | String c r2 =>
                    if Ascii.eqb c ":" then
                      match parse_value f r2 with
                      | Parsed v r3 =>
                          match skip_ws r3 with
                          | String c' r4 =>
                              if Ascii.eqb c' "," then
                                parse_members f r4 (define acc k v)
                              else if Ascii.eqb c' "}" then
                                Parsed (VObj (property_order (define acc k v))) r4
                              else Invalid
                          | EmptyString => Invalid
                          end
                      | Invalid => Invalid
                      | Exhausted => Exhausted
                      end
                    else Invalid
                | EmptyString => Invalid
                end
            | None => Invalid
            end
          else Invalid
      | EmptyString => Invalid
      end
  end.

(** A parse that succeeds leaves less text than it was given. *)
Definition consumes (f : nat) : Prop :=
  (forall s v r, parse_value f s = Parsed v r ->
                 (String.length r < String.length s)%nat)
  /\ (forall s acc v r, parse_items f s acc = Parsed v r ->
                        (String.length r < String.length s)%nat)
  /\ (forall s acc v r, parse_members f s acc = Parsed v r ->
                        (String.length r < String.length s)%nat).

(** Fuel that no text of this length can use up: see [parse_fuel]. *)
Definition fuel_for (text : string) : nat := 2 * String.length text + 2.

(** [JSON.parse text]: one value, white space around it, nothing else. *)
Definition JSON_parse (text : string) : Result value :=
  match parse_value (fuel_for text) text with
  | Parsed v rest =>
      match skip_ws rest with
      | EmptyString => Ok v
      | String _ _ => Throw (SyntaxError text)
      end
  | Invalid | Exhausted => Throw (SyntaxError text)
  end.

End JS.


(** ** The serverless runtime *)

Module Netlify.
Import JS.

(** The inbound request.  [body] is null when the request has none. *)
Module Event.
Record t := make {
  httpMethod : string;
  body : option string;
  queryStringParameters : option (gmap string string)
}.
End Event.

(** What a handler returns. *)
Module Reply.
Record t := make {
  statusCode : Z;
  headers : option (list (string * string));
  body : string
}.
End Reply.

(** [fetch(url, options)] and the response it resolves to.  [ok] is the
    status range 200-299; the body is read once, as text or as JSON. *)
Module Fetch.
Record Request := request {
  url : string;
  method : option string;
  headers : list (string * value);
  body : option string
}.
Record Response := response {
  status : Z;
  text : string
}.
Definition ok (r : Response) : bool :=
  (200 <=? status r) && (status r <=? 299).
Definition json (r : Response) : Result value := JSON_parse (text r).
End Fetch.

(** What the [requestSupabase] helper of manage-seller resolves to. *)
Module Answer.
Record t := make { status : Z; ok : bool; data : value }.
End Answer.

(** The outbound requests of one invocation, oldest first. *)
Definition trace := list Fetch.Request.

(** Everything outside the handler: the engine's renderings and the
    network.  The network answers a request in view of the requests made
    before it, or gives no response at all (the server is unreachable, or
    [fetch] itself turns the request down); either way the request
    counts as attempted. *)
Record Host := {
  Number_toString : number -> string;
  message : exn -> string;
  network : trace -> Fetch.Request -> option Fetch.Response
}.

(** A computation may throw and may add to the trace. *)
Definition M (A : Type) : Type := trace -> Result A * trace.

Definition ret {A} (a : A) : M A := fun tr => (Ok a, tr).

Definition bind {A B} (m : M A) (k : A -> M B) : M B :=
  fun tr =>
    match m tr with
    | (Ok a, tr') => k a tr'
    | (Throw e, tr') => (Throw e, tr')
    end.

Definition lift {A} (r : Result A) : M A := fun tr => (r, tr).

(** [try { m } catch (e) { handler e }] *)
Definition try_catch {A} (m : M A) (handler : exn -> M A) : M A :=
  fun tr =>
    match m tr with
    | (Ok a, tr') => (Ok a, tr')
    | (Throw e, tr') => handler e tr'
    end.

Notation "x <- m ;; k" := (bind m (fun x => k))
  (at level 100, m at next level, right associativity).

(** Template literals: the pieces are converted and joined left to right. *)
Inductive piece :=
| Lit (s : string)
| Sub (v : value).

Section Handlers.

Variable host : Host.
Variable process_env : gmap string string.

Definition env (name : string) : value :=
  match process_env !! name with
  | Some s => VStr s
  | None => VUndef
  end.

Definition fetch (req : Fetch.Request) : M Fetch.Response :=
  fun tr =>
    match network host tr req with
    | Some res => (Ok res, tr ++ [req])
    | None => (Throw TypeError_fetch, tr ++ [req])
    end.

Definition stringify (v : value) : string :=
  JSON_stringify (Number_toString host) v.

Fixpoint template (ps : list piece) : Result string :=
  match ps with
  | [] => Ok EmptyString
  | Lit s :: rest => rbind (template rest) (fun t => Ok (s +:+ t))
  | Sub v :: rest =>
      rbind (ToString (Number_toString host) v)
        (fun s => rbind (template rest) (fun t => Ok (s +:+ t)))
  end.

(** [event.body || fallback] *)
Definition body_or (event : Event.t) (fallback : string) : string :=
  match Event.body event with
  | Some s => if String.eqb s EmptyString then fallback else s
  | None => fallback
  end.

Definition reply (code : Z) (v : value) : Reply.t :=
  Reply.make code None (stringify v).

(** *** create-seller.js *)

Definition create_seller (event : Event.t) : M Reply.t :=
  if negb (String.eqb (Event.httpMethod event) "POST") then
    ret (reply 405 (VObj [("error", VStr "Method not allowed")]))
  else
    try_catch
      (parsed <- lift (JSON_parse (body_or event "{}")) ;;
       email <- lift (Get parsed "email") ;;
       password <- lift (Get parsed "password") ;;
       if negb (ToBoolean email) || negb (ToBoolean password) then
         ret (reply 400
                (VObj [("error", VStr "Email y contraseña son obligatorios")]))
       else
         let SUPABASE_URL := env "SUPABASE_URL" in
         let SERVICE_KEY := env "SUPABASE_SERVICE_ROLE_KEY" in
         if negb (ToBoolean SUPABASE_URL) || negb (ToBoolean SERVICE_KEY) then
           ret (reply 500 (VObj [("error", VStr "Variables de entorno faltantes")]))
         else
           (* 1. create the user *)
           createUrl <- lift (template [Sub SUPABASE_URL;
                                        Lit "/auth/v1/admin/users"]) ;;
           bearer <- lift (template [Lit "Bearer "; Sub SERVICE_KEY]) ;;
           createRes <- fetch
             (Fetch.request createUrl (Some "POST")
                [("apikey", SERVICE_KEY); ("Authorization", VStr bearer);
                 ("Content-Type", VStr "application/json")]
                (Some (stringify (VObj [("email", email);
                                        ("password", password);
                                        ("email_confirm", VBool true)])))) ;;
           createJson <- try_catch (lift (Fetch.json createRes))
                           (fun _ => ret obj0) ;;
           let userId :=
             or_else (or_else (GetOpt (GetOpt createJson "user") "id")
                        (GetOpt createJson "id")) VNull in
           (* 2. no id, or a 422: look the user up by email *)
           resolved <-
             (if (Fetch.status createRes =? 422) || negb (ToBoolean userId)
              then
                encoded <- lift (encodeURIComponent (Number_toString host) email) ;;
                lookupUrl <- lift (template [Sub SUPABASE_URL;
                                             Lit "/auth/v1/admin/users?email=";
                                             Lit encoded]) ;;
                bearer <- lift (template [Lit "Bearer "; Sub SERVICE_KEY]) ;;
                lookupRes <- fetch
                  (Fetch.request lookupUrl None
                     [("apikey", SERVICE_KEY); ("Authorization", VStr bearer)]
                     None) ;;
                lookupJson <- lift (Fetch.json lookupRes) ;;
                let userId :=
                  or_else (or_else (GetOpt (GetOpt lookupJson "0") "id")
                             (GetOpt (GetOpt lookupJson "user") "id")) VNull in
                if negb (ToBoolean userId) then
                  ret (inl (reply 422
                              (VObj [("error",
                                      VStr "No se pudo obtener ID de usuario")])))
                else ret (inr userId)
              else ret (inr userId)) ;;
           match resolved with
           | inl early => ret early
           | inr userId =>
               (* 3. upsert the profile with role seller *)
               upsertUrl <- lift (template [Sub SUPABASE_URL;
                                            Lit "/rest/v1/profiles"]) ;;
               bearer <- lift (template [Lit "Bearer "; Sub SERVICE_KEY]) ;;
               upsertRes <- fetch
                 (Fetch.request upsertUrl (Some "POST")
                    [("apikey", SERVICE_KEY); ("Authorization", VStr bearer);
                     ("Content-Type", VStr "application/json");
                     ("Prefer", VStr "resolution=merge-duplicates")]
                    (Some (stringify (VObj [("id", userId);
                                            ("role", VStr "seller")])))) ;;
               if negb (Fetch.ok upsertRes) then
                 let errText := Fetch.text upsertRes in
                 ret (reply 500
                        (VObj [("error", VStr "Falló al asignar rol seller");
                               ("detail", VStr errText)]))
               else
                 ret (reply 200 (VObj [("message", VStr "Vendedor creado");
                                       ("userId", userId)]))
           end)
      (fun err => ret (reply 500 (VObj [("error", VStr (message host err))]))).

(** *** manage-seller.js *)

(** The helper reads the body as text and keeps the text itself when it
    is not JSON. *)
Definition requestSupabase (url : string) (method : string)
  (headers : list (string * value)) (body : option string) : M Answer.t :=
  res <- fetch (Fetch.request url (Some method) headers body) ;;
  let txt := Fetch.text res in
  data <- try_catch (lift (JSON_parse txt)) (fun _ => ret (VStr txt)) ;;
  ret (Answer.make (Fetch.status res) (Fetch.ok res) data).

(** [for (const x of v)]: an array yields its elements, a string its code
    points, nothing else obtained from JSON can be iterated. *)
Definition iterate (v : value) : Result (list value) :=
  match v with
  | VArr items => Ok items
  | VStr s => Ok (map VStr (Text.code_points s))
  | _ => Throw TypeError_not_iterable
  end.

(** The body of the listing loop, run over the remaining sellers. *)
Fixpoint list_sellers (SUPABASE_URL SERVICE_ROLE_KEY : value)
  (sellers result : list value) : M (list value) :=
  match sellers with
  | [] => ret result
  | seller :: rest =>
      uid <- lift (Get seller "id") ;;
      userUrl <- lift (template [Sub SUPABASE_URL;
                                 Lit "/auth/v1/admin/users/"; Sub uid]) ;;
      bearer <- lift (template [Lit "Bearer "; Sub SERVICE_ROLE_KEY]) ;;
      userRes <- requestSupabase userUrl "GET"
                   [("apikey", SERVICE_ROLE_KEY); ("Authorization", VStr bearer);
                    ("Content-Type", VStr "application/json")] None ;;
      result' <-
        (if Answer.ok userRes && ToBoolean (Answer.data userRes) then
           email <- lift (Get (Answer.data userRes) "email") ;;
           ret (result ++ [VObj [("id", uid); ("email", email)]])
         else ret result) ;;
      list_sellers SUPABASE_URL SERVICE_ROLE_KEY rest result'
  end.

(** [new URLSearchParams(event.queryStringParameters || {}).get(name)] *)
Definition query_param (event : Event.t) (name : string) : value :=
  match Event.queryStringParameters event with
  | Some params =>
      match params !! name with
      | Some s => VStr s
      | None => VNull
      end
  | None => VNull
  end.

Definition manage_seller (event : Event.t) : M Reply.t :=
  let SUPABASE_URL := env "SUPABASE_URL" in
  let SERVICE_ROLE_KEY := env "SUPABASE_SERVICE_ROLE_KEY" in
  if negb (ToBoolean SUPABASE_URL) || negb (ToBoolean SERVICE_ROLE_KEY) then
    ret (reply 500
           (VObj [("message",
                   VStr "Faltan variables de entorno SUPABASE_URL o SERVICE_ROLE_KEY")]))
  else if String.eqb (Event.httpMethod event) "GET" then
    profilesUrl <- lift (template [Sub SUPABASE_URL;
                                   Lit "/rest/v1/profiles?role=eq.seller&select=id"]) ;;
    bearer <- lift (template [Lit "Bearer "; Sub SERVICE_ROLE_KEY]) ;;
    profilesRes <- requestSupabase profilesUrl "GET"
                     [("apikey", SERVICE_ROLE_KEY); ("Authorization", VStr bearer);
                      ("Content-Type", VStr "application/json")] None ;;
    if negb (Answer.ok profilesRes) then
      ret (reply (Answer.status profilesRes)
             (VObj [("message", VStr "Error obteniendo perfiles");
                    ("detail", Answer.data profilesRes)]))
    else
      sellers <- lift (iterate (Answer.data profilesRes)) ;;
      result <- list_sellers SUPABASE_URL SERVICE_ROLE_KEY sellers [] ;;
      ret (reply 200 (VArr result))
  else if String.eqb (Event.httpMethod event) "PUT"
          || String.eqb (Event.httpMethod event) "PATCH" then
    (* JSON.parse(null) reads the text null *)
    parsed <- try_catch
                (lift (JSON_parse (match Event.body event with
                                   | Some s => s
                                   | None => "null"
                                   end)))
                (fun _ => ret obj0) ;;
    id <- lift (Get parsed "id") ;;
    password <- lift (Get parsed "password") ;;
    if negb (ToBoolean id) || negb (ToBoolean password) then
      ret (reply 400 (VObj [("message", VStr "id y password son obligatorios")]))
    else
      updateUrl <- lift (template [Sub SUPABASE_URL;
                                   Lit "/auth/v1/admin/users/"; Sub id]) ;;
      bearer <- lift (template [Lit "Bearer "; Sub SERVICE_ROLE_KEY]) ;;
      updateRes <- requestSupabase updateUrl "PATCH"
                     [("apikey", SERVICE_ROLE_KEY); ("Authorization", VStr bearer);
                      ("Content-Type", VStr "application/json")]
                     (Some (stringify (VObj [("password", password)]))) ;;
      if negb (Answer.ok updateRes) then
        ret (reply (Answer.status updateRes)
               (VObj [("message", VStr "Error actualizando contraseña");
                      ("detail", Answer.data updateRes)]))
      else ret (reply 200 (VObj [("message", VStr "Contraseña actualizada")]))
  else if String.eqb (Event.httpMethod event) "DELETE" then
    let id := query_param event "id" in
    if negb (ToBoolean id) then
      ret (reply 400 (VObj [("message", VStr "id es obligatorio para eliminar")]))
    else
      deleteUrl <- lift (template [Sub SUPABASE_URL;
                                   Lit "/auth/v1/admin/users/"; Sub id]) ;;
      bearer <- lift (template [Lit "Bearer "; Sub SERVICE_ROLE_KEY]) ;;
      deleteRes <- requestSupabase deleteUrl "DELETE"
                     [("apikey", SERVICE_ROLE_KEY); ("Authorization", VStr bearer);
                      ("Content-Type", VStr "application/json")] None ;;
      if negb (Answer.ok deleteRes) then
        ret (reply (Answer.status deleteRes)
               (VObj [("message", VStr "Error eliminando usuario");
                      ("detail", Answer.data deleteRes)]))
      else ret (reply 200 (VObj [("message", VStr "Vendedor eliminado")]))
  else ret (reply 405 (VObj [("message", VStr "Método no permitido")])).

(** *** The insight generator *)

Definition cors_headers : list (string * string) :=
  [("Content-Type", "application/json");
   ("Access-Control-Allow-Origin", "*");
   ("Access-Control-Allow-Methods", "GET,POST,OPTIONS");
   ("Access-Control-Allow-Headers", "Content-Type, Authorization")].

Definition cors_reply (code : Z) (body : string) : Reply.t :=
  Reply.make code (Some cors_headers) body.

Definition mock_analysis (name category description salesSummary : value)
  : Result string :=
  template
    [Lit (Text.lit "Resumen (MOCK) para '");
     Sub (or_else name (VStr "Producto"));
     Lit (Text.lit "' (");
     Sub (or_else category (VStr "N/D"));
     Lit ("):" +:+ Text.newline);
     Lit "- ";
     Sub (or_else description (VStr "Descripción no provista"));
     Lit Text.newline;
     Lit "- Ventas del día: ";
     Sub (or_else salesSummary (VStr "N/D"));
     Lit Text.newline;
     Lit "Sugerencia: Optimiza títulos e imágenes para mejorar conversión."].

Definition templated_prompt (name category description salesSummary : value)
  : Result string :=
  template
    [Lit ("Analiza estas ventas y redacta insights:" +:+ Text.newline);
     Sub (or_else salesSummary (VStr EmptyString));
     Lit Text.newline;
     Lit "Producto: ";
     Sub (or_else name (VStr EmptyString));
     Lit " | Categoría: ";
     Sub (or_else category (VStr EmptyString));
     Lit " | Desc: ";
     Sub (or_else description (VStr EmptyString))].

Definition generate_insight (event : Event.t) : M Reply.t :=
  if String.eqb (Event.httpMethod event) "OPTIONS" then
    ret (cors_reply 200 EmptyString)
  else
    try_catch
      (parsed <- lift (JSON_parse (body_or event "{}")) ;;
       prompt <- lift (Get parsed "prompt") ;;
       name <- lift (Get parsed "name") ;;
       category <- lift (Get parsed "category") ;;
       description <- lift (Get parsed "description") ;;
       salesSummary <- lift (Get parsed "salesSummary") ;;
       let API_KEY := env "GEMINI_API_KEY" in
       if negb (ToBoolean API_KEY) then
         (* no key: canned answer *)
         analysis <- lift (mock_analysis name category description salesSummary) ;;
         ret (cors_reply 200
                (stringify (VObj [("analysis", VStr analysis);
                                  ("mode", VStr "mock")])))
       else
         url <- lift (template
                        [Lit "https://generativelanguage.googleapis.com/v1beta/models/gemini-1.5-flash:generateContent?key=";
                         Sub API_KEY]) ;;
         userText <-
           (if ToBoolean prompt then ret prompt
            else
              t <- lift (templated_prompt name category description salesSummary) ;;
              ret (VStr t)) ;;
         resp <- fetch
           (Fetch.request url (Some "POST")
              [("Content-Type", VStr "application/json")]
              (Some (stringify
                       (VObj [("contents",
                               VArr [VObj [("parts",
                                            VArr [VObj [("text", userText)]])]])])))) ;;
         if negb (Fetch.ok resp) then
           let err := Fetch.text resp in
           ret (cors_reply (Fetch.status resp)
                  (stringify (VObj [("error", VStr err)])))
         else
           data <- lift (Fetch.json resp) ;;
           let text :=
             or_else
               (GetOpt (GetOpt (GetOpt (GetOpt (GetOpt (GetOpt data
                  "candidates") "0") "content") "parts") "0") "text")
               (match JS.stringify (Number_toString host) data with
                | Some t => VStr t
                | None => VUndef
                end) in
           ret (cors_reply 200
                  (stringify (VObj [("analysis", text);
                                    ("mode", VStr "gemini")]))))
      (fun e => ret (cors_reply 500
                       (stringify (VObj [("error", VStr (message host e))])))).

End Handlers.

(** Running a handler: its outcome and the requests it attempted. *)
Definition run {A} (m : M A) : Result A * trace := m [].

(** *** Vocabulary of the statements *)

(** An environment variable counts as configured when it is set to a
    string that is not empty: the handlers test it with [!]. *)
Definition configured (process_env : gmap string string) (name s : string)
  : Prop :=
  process_env !! name = Some s /\ s <> EmptyString.

Definition unconfigured (process_env : gmap string string) (name : string)
  : Prop :=
  process_env !! name = None \/ process_env !! name = Some EmptyString.

(** A parsed body lacks a field when reading it gives a falsy value:
    the field is absent, or empty, or otherwise void.  The literal null
    has no fields to read: it neither lacks nor carries any. *)
Definition lacks (parsed : value) (field : string) : Prop :=
  exists x, Get parsed field = Ok x /\ ToBoolean x = false.

(** A parsed body carries a field when reading it gives a truthy value. *)
Definition carries (parsed : value) (field : string) (x : value) : Prop :=
  Get parsed field = Ok x /\ ToBoolean x = true.

(** The [id] query parameter, when the request has one. *)
Definition query_id (event : Event.t) : option string :=
  match Event.queryStringParameters event with
  | Some params => params !! "id"
  | None => None
  end.

(** [ensures m Q]: whenever [m] returns, what it returns satisfies [Q]. *)
Definition ensures {A} (m : M A) (Q : A -> Prop) : Prop :=
  forall tr a tr', m tr = (Ok a, tr') -> Q a.

(** A computation is silent when it attempts no request. *)
Definition silent {A} (m : M A) : Prop := forall tr, snd (m tr) = tr.

(** A value is printable when a template literal can convert it. *)
Definition printable (host : Host) (v : value) : Prop :=
  exists s, ToString (Number_toString host) v = Ok s.

(** **** create-seller: the requests it sends and the identifiers it reads *)

Definition create_request (host : Host) (url key : string)
  (email password : value) : Fetch.Request :=
  Fetch.request (url +:+ "/auth/v1/admin/users") (Some "POST")
    [("apikey", VStr key); ("Authorization", VStr ("Bearer " +:+ key));
     ("Content-Type", VStr "application/json")]
    (Some (stringify host (VObj [("email", email); ("password", password);
                                 ("email_confirm", VBool true)]))).

Definition lookup_request (url key encoded : string) : Fetch.Request :=
  Fetch.request (url +:+ "/auth/v1/admin/users?email=" +:+ encoded) None
    [("apikey", VStr key); ("Authorization", VStr ("Bearer " +:+ key))]
    None.

(** [createJson?.user?.id || createJson?.id || null], where [createJson]
    is the body of the creation response, or the empty object when that
    body is not JSON. *)
Definition created_id (createRes : Fetch.Response) : value :=
  let createJson :=
    match Fetch.json createRes with
    | Ok v => v
    | Throw _ => obj0
    end in
  or_else (or_else (GetOpt (GetOpt createJson "user") "id")
             (GetOpt createJson "id")) VNull.

(** [lookupJson?.[0]?.id || lookupJson?.user?.id || null] *)
Definition found_id (lookupJson : value) : value :=
  or_else (or_else (GetOpt (GetOpt lookupJson "0") "id")
             (GetOpt (GetOpt lookupJson "user") "id")) VNull.

(** **** manage-seller: the requests of the listing and their answers *)

Definition supabase_headers (key : string) : list (string * value) :=
  [("apikey", VStr key); ("Authorization", VStr ("Bearer " +:+ key));
   ("Content-Type", VStr "application/json")].

Definition profiles_request (url key : string) : Fetch.Request :=
  Fetch.request (url +:+ "/rest/v1/profiles?role=eq.seller&select=id")
    (Some "GET") (supabase_headers key) None.

(** The text of a profile's identifier inside the lookup URL. *)
Definition id_text (host : Host) (seller : value) : string :=
  match ToString (Number_toString host) (GetOpt seller "id") with
  | Ok s => s
  | Throw _ => EmptyString
  end.

Definition user_request (host : Host) (url key : string) (seller : value)
  : Fetch.Request :=
  Fetch.request (url +:+ "/auth/v1/admin/users/" +:+ id_text host seller)
    (Some "GET") (supabase_headers key) None.

(** The [data] that [requestSupabase] makes of a response. *)
Definition answer_data (res : Fetch.Response) : value :=
  match JSON_parse (Fetch.text res) with
  | Ok v => v
  | Throw _ => VStr (Fetch.text res)
  end.

(** The account lookup of the listing succeeded: the loop keeps the
    profile exactly then. *)
Definition lookup_succeeded (res : Fetch.Response) : bool :=
  Fetch.ok res && ToBoolean (answer_data res).

(** A profile record: anything but null whose [id] can be printed into
    the lookup URL. *)
Definition profile_record (host : Host) (seller : value) : Prop :=
  is_nullish seller = false /\ printable host (GetOpt seller "id").

(** [answered host hist reqs ress]: after [hist], the network answers the
    requests [reqs], made one after the other, with the responses
    [ress]. *)
Inductive answered (host : Host)
  : trace -> list Fetch.Request -> list Fetch.Response -> Prop :=
| answered_nil hist : answered host hist [] []
| answered_cons hist req res reqs ress :
    network host hist req = Some res ->
    answered host (hist ++ [req]) reqs ress ->
    answered host hist (req :: reqs) (res :: ress).

(** The join of the listing: one pair per profile whose lookup succeeded,
    in the order of the profiles. *)
Definition joined (sellers : list value) (answers : list Fetch.Response)
  : list value :=
  flat_map
    (fun p =>
       if lookup_succeeded (snd p)
       then [VObj [("id", GetOpt (fst p) "id");
                   ("email", GetOpt (answer_data (snd p)) "email")]]
       else [])
    (combine sellers answers).

(** **** Counting the requests of a computation *)

(** [attempts n m]: whatever the requests made so far, [m] adds at most
    [n] to them and removes none. *)
Definition attempts {A} (n : nat) (m : M A) : Prop :=
  forall tr, exists more, snd (m tr) = tr ++ more /\ (length more <= n)%nat.

(** **** create-seller: the upsert *)

Definition upsert_request (host : Host) (url key : string) (userId : value)
  : Fetch.Request :=
  Fetch.request (url +:+ "/rest/v1/profiles") (Some "POST")
    [("apikey", VStr key); ("Authorization", VStr ("Bearer " +:+ key));
     ("Content-Type", VStr "application/json");
     ("Prefer", VStr "resolution=merge-duplicates")]
    (Some (stringify host (VObj [("id", userId); ("role", VStr "seller")]))).

(** **** manage-seller: update and delete *)

(** What the update branch makes of the request body: [JSON.parse] reads
    an absent body as the text null, and a body that is not JSON counts
    as the empty object. *)
Definition update_body (event : Event.t) : value :=
  match JSON_parse (match Event.body event with
                    | Some s => s
                    | None => "null"
                    end) with
  | Ok v => v
  | Throw _ => obj0
  end.

Definition update_request (host : Host) (url key id : string)
  (password : value) : Fetch.Request :=
  Fetch.request (url +:+ "/auth/v1/admin/users/" +:+ id) (Some "PATCH")
    (supabase_headers key)
    (Some (stringify host (VObj [("password", password)]))).

Definition delete_request (url key id : string) : Fetch.Request :=
  Fetch.request (url +:+ "/auth/v1/admin/users/" +:+ id) (Some "DELETE")
    (supabase_headers key) None.

(** **** The insight generator: the live request and its answer *)

(** [prompt || `Analiza estas ventas ...`]: the caller's prompt when it is
    truthy, else the templated one. *)
Definition user_text (host : Host) (parsed : value) : Result value :=
  if ToBoolean (GetOpt parsed "prompt") then Ok (GetOpt parsed "prompt")
  else
    rbind (templated_prompt host (GetOpt parsed "name")
             (GetOpt parsed "category") (GetOpt parsed "description")
             (GetOpt parsed "salesSummary"))
      (fun t => Ok (VStr t)).

Definition gemini_request (host : Host) (key : string) (userText : value)
  : Fetch.Request :=
  Fetch.request
    ("https://generativelanguage.googleapis.com/v1beta/models/gemini-1.5-flash:generateContent?key="
     +:+ key)
    (Some "POST")
    [("Content-Type", VStr "application/json")]
    (Some (stringify host
             (VObj [("contents",
                     VArr [VObj [("parts",
                                  VArr [VObj [("text", userText)]])]])]))).

(** [data?.candidates?.[0]?.content?.parts?.[0]?.text] *)
Definition candidate_text (data : value) : value :=
  GetOpt (GetOpt (GetOpt (GetOpt (GetOpt (GetOpt data
    "candidates") "0") "content") "parts") "0") "text".

(** **** Replies that depend on the answer of the backend *)

(** create-seller after the upsert. *)
Definition upsert_reply (host : Host) (userId : value)
  (upsertRes : Fetch.Response) : Reply.t :=
  if Fetch.ok upsertRes
  then Reply.make 200 None
         (stringify host (VObj [("message", VStr "Vendedor creado");
                                ("userId", userId)]))
  else Reply.make 500 None
         (stringify host (VObj [("error", VStr "Falló al asignar rol seller");
                                ("detail", VStr (Fetch.text upsertRes))])).

(** The update branch serves PUT and PATCH alike. *)
Definition is_update (event : Event.t) : Prop :=
  Event.httpMethod event = "PUT" \/ Event.httpMethod event = "PATCH".

(** manage-seller after the password update. *)
Definition update_reply (host : Host) (res : Fetch.Response) : Reply.t :=
  if Fetch.ok res
  then Reply.make 200 None (Text.lit "{'message':'Contraseña actualizada'}")
  else Reply.make (Fetch.status res) None
         (stringify host
            (VObj [("message", VStr "Error actualizando contraseña");
                   ("detail", answer_data res)])).

(** manage-seller after the deletion. *)
Definition delete_reply (host : Host) (res : Fetch.Response) : Reply.t :=
  if Fetch.ok res
  then Reply.make 200 None (Text.lit "{'message':'Vendedor eliminado'}")
  else Reply.make (Fetch.status res) None
         (stringify host
            (VObj [("message", VStr "Error eliminando usuario");
                   ("detail", answer_data res)])).

End Netlify.


(** ** A sample deployment

    Renderings as Node 18 gives them on the inputs used in the examples,
    one backend configuration, and three networks: none at all, a backend
    where the account already exists and cannot be found, and a backend
    with three sellers of which the second has lost its account. *)

Module Sample.
Import JS Netlify.

(** Decimal rendering of integers.  For a number with fraction digits it
    gives a literal of the same value where the engine would move the
    point; no example prints one. *)
Definition render (n : number) : string :=
  if 0 <=? exponent10 n
  then NilZero.string_of_int (Z.to_int (mantissa n * 10 ^ exponent10 n))
  else NilZero.string_of_int (Z.to_int (mantissa n))
       +:+ "e" +:+ NilZero.string_of_int (Z.to_int (exponent10 n)).

Definition message (e : exn) : string :=
  match e with
  | SyntaxError _ => "Unexpected end of JSON input"
  | TypeError_nullish prop =>
      "Cannot destructure property '" +:+ prop +:+ "' of 'JSON.parse(...)' as it is null."
  | TypeError_primitive => "Cannot convert object to primitive value"
  | TypeError_not_iterable => "sellers is not iterable"
  | URIError => "URI malformed"
  | TypeError_fetch => "fetch failed"
  end.

Definition host (network : trace -> Fetch.Request -> option Fetch.Response)
  : Host :=
  Build_Host render message network.

Definition offline : Host := host (fun _ _ => None).

Definition no_env : gmap string string := empty.

Definition base : string := "https://demo.supabase.co".
Definition service_key : string := "service-role-key".

Definition backend : gmap string string :=
  <["SUPABASE_URL" := base]>
    (<["SUPABASE_SERVICE_ROLE_KEY" := service_key]> empty).

Definition half_backend : gmap string string :=
  <["SUPABASE_URL" := base]> empty.

Definition post (body : string) : Event.t :=
  Event.make "POST" (Some (Text.lit body)) None.

Definition registration : Event.t :=
  post "{'email':'a@b.com','password':'x12345'}".

Definition answer (status : Z) (body : string) : option Fetch.Response :=
  Some (Fetch.response status (Text.lit body)).

(** The account exists already, and the lookup finds nobody. *)
Definition conflict : Host :=
  host (fun _ req =>
          let url := Fetch.url req in
          if String.eqb url (base +:+ "/auth/v1/admin/users")
          then answer 422 "{'code':422,'msg':'User already registered'}"
          else if String.prefix (base +:+ "/auth/v1/admin/users?email=") url
          then answer 200 "{'users':[]}"
          else None).

(** Three sellers; the account of the second is gone. *)
Definition listing : Host :=
  host (fun _ req =>
          let url := Fetch.url req in
          if String.eqb url (base +:+ "/rest/v1/profiles?role=eq.seller&select=id")
          then answer 200 "[{'id':'u1'},{'id':'u2'},{'id':'u3'}]"
          else if String.eqb url (base +:+ "/auth/v1/admin/users/u1")
          then answer 200 "{'id':'u1','email':'ana@example.com'}"
          else if String.eqb url (base +:+ "/auth/v1/admin/users/u2")
          then answer 404 "{'code':404,'msg':'User not found'}"
          else if String.eqb url (base +:+ "/auth/v1/admin/users/u3")
          then answer 200 "{'id':'u3','email':'luis@example.com'}"
          else None).

Definition seller (id : string) : value := VObj [("id", VStr id)].

End Sample.

(** ** The offline cache script (sw.js) *)

Module ServiceWorker.
Import JS Netlify.

Definition CACHE_NAME : string := "emprende-venta-pos-cache-v-final2".

Definition urlsToCache : list string :=
  ["./"; "./index.html"; "./manifest.webmanifest"; "./logo.png";
   "./icons/icon-192.png"; "./icons/icon-512.png"].

(** A request as the page makes it. *)
Record Request := request { url : string; method : string }.

(** The URL of a path written relative to the script: [scope] is the
    directory the script is served from, ending in a slash, and every
    path of the script starts with a dot and a slash. *)
Definition resolve (scope path : string) : string :=
  scope +:+ Text.drop 2 path.

(** The request that [fetch] or [match] makes of a URL string. *)
Definition get (u : string) : Request := request u "GET".

(** The network at the time of an event: the response to a request, or
    none when [fetch] rejects. *)
Definition Network := Request -> option Fetch.Response.

(** A cache maps the URL of a request to the stored response; the cache
    storage lists the caches by name, in order of creation.  Responses
    carry no [Vary] header. *)
Abbreviation Cache := (gmap string Fetch.Response).
Abbreviation CacheStorage := (list (string * Cache)).

(** [caches.keys()] *)
Definition keys (st : CacheStorage) : list string := map fst st.

(** The cache of a name, when the storage has one. *)
Fixpoint cache_of (name : string) (st : CacheStorage) : option Cache :=
  match st with
  | [] => None
  | (k, c) :: rest => if String.eqb k name then Some c else cache_of name rest
  end.

(** [caches.open(name)] creates the cache when it is missing. *)
Definition open (name : string) (st : CacheStorage) : CacheStorage :=
  match cache_of name st with
  | Some _ => st
  | None => st ++ [(name, empty)]
  end.

(** Writing a cache back under its name. *)
Fixpoint store (name : string) (c : Cache) (st : CacheStorage)
  : CacheStorage :=
  match st with
  | [] => []
  | (k, c') :: rest =>
      if String.eqb k name then (k, c) :: rest
      else (k, c') :: store name c rest
  end.

(** [caches.delete(name)] *)
Fixpoint delete (name : string) (st : CacheStorage) : CacheStorage :=
  match st with
  | [] => []
  | (k, c) :: rest =>
      if String.eqb k name then delete name rest else (k, c) :: delete name rest
  end.

(** [cache.match(req)]: only a GET request can match. *)
Definition cache_match (c : Cache) (req : Request) : option Fetch.Response :=
  if String.eqb (method req) "GET" then c !! url req else None.

(** [caches.match(req)]: the first cache, in order of creation, that holds
    the request. *)
Fixpoint caches_match (st : CacheStorage) (req : Request)
  : option Fetch.Response :=
  match st with
  | [] => None
  | (_, c) :: rest =>
      match cache_match c req with
      | Some r => Some r
      | None => caches_match rest req
      end
  end.

Fixpoint distinct (l : list string) : bool :=
  match l with
  | [] => true
  | x :: rest => negb (existsb (String.eqb x) rest) && distinct rest
  end.

(** A response that [addAll] accepts: an ok status other than 206. *)
Definition storable (r : Fetch.Response) : bool :=
  Fetch.ok r && negb (Fetch.status r =? 206).

(** The responses to a list of URLs, when every one is storable. *)
Fixpoint fetch_all (net : Network) (urls : list string)
  : option (list (string * Fetch.Response)) :=
  match urls with
  | [] => Some []
  | u :: rest =>
      match net (get u) with
      | Some r =>
          if storable r then
            match fetch_all net rest with
            | Some rs => Some ((u, r) :: rs)
            | None => None
            end
          else None
      | None => None
      end
  end.

(** [cache.addAll(urls)]: every URL is fetched and, when all the responses
    are storable and no URL comes twice, all are stored; otherwise the
    promise rejects and the cache is as before. *)
Definition addAll (net : Network) (urls : list string) (c : Cache)
  : option Cache :=
  if distinct urls then
    match fetch_all net urls with
    | Some rs => Some (fold_left (fun acc ur => <[fst ur := snd ur]> acc) rs c)
    | None => None
    end
  else None.

(** The install listener: open the cache, add the assets, swallow a
    failure. *)
Definition install (scope : string) (net : Network) (st : CacheStorage)
  : CacheStorage :=
  let st1 := open CACHE_NAME st in
  match cache_of CACHE_NAME st1 with
  | Some cache =>
      match addAll net (map (resolve scope) urlsToCache) cache with
      | Some cache' => store CACHE_NAME cache' st1
      | None => st1
      end
  | None => st1
  end.

(** The activate listener: one [caches.delete] for every key that is not
    the current name. *)
Definition activate (st : CacheStorage) : CacheStorage :=
  fold_left
    (fun acc k => if negb (String.eqb k CACHE_NAME) then delete k acc else acc)
    (keys st) st.

(** The fetch listener: the cached response, else the network, else the
    cached main document.  The second component lists the requests that
    went to the network. *)
Definition on_fetch (scope : string) (net : Network) (st : CacheStorage)
  (req : Request) : option Fetch.Response * list Request :=
  match caches_match st req with
  | Some cached => (Some cached, [])
  | None =>
      match net req with
      | Some r => (Some r, [req])
      | None => (caches_match st (get (resolve scope "./index.html")), [req])
      end
  end.

(** What a run of deletions over the keys [ks] keeps: the current name,
    and what [ks] does not list. *)
Definition kept (ks : list string) (kc : string * Cache) : bool :=
  String.eqb (fst kc) CACHE_NAME || negb (existsb (String.eqb (fst kc)) ks).

(** Cache names are unique. *)
Definition well_formed (st : CacheStorage) : Prop := List.NoDup (keys st).

(** Every asset of the script can be fetched and stored. *)
Definition available (scope : string) (net : Network) : Prop :=
  forall u, In u urlsToCache ->
    exists r, net (get (resolve scope u)) = Some r /\ storable r = true.

(** The network is down. *)
Definition offline : Network := fun _ => None.

(** A URL without fragment.  The cache looks a request up by its URL less
    the fragment, and [cache_match] by the URL as it is: on these URLs the
    two agree. *)
Definition fragment_free (u : string) : bool :=
  negb (existsb (Ascii.eqb "#") (list_ascii_of_string u)).

End ServiceWorker.

(** ** More of the sample deployment

    A backend on which a new account is created, one on which the account
    exists and is found, an administration backend, an outage, two
    answers of the generative API, and a site with an older cache. *)

Module Demo.
Import JS Netlify.

Definition ends_with (suffix s : string) : bool :=
  String.eqb suffix
    (Text.drop (String.length s - String.length suffix) s).

Definition is_method (m : string) (req : Fetch.Request) : bool :=
  match Fetch.method req with
  | Some m' => String.eqb m m'
  | None => String.eqb m "GET"
  end.

(** The account is new: creation returns it, the upsert answers 201. *)
Definition fresh : Host :=
  Sample.host (fun _ req =>
    if ends_with "/auth/v1/admin/users" (Fetch.url req)
    then Sample.answer 200 "{'id':'u9','email':'a@b.com'}"
    else if ends_with "/rest/v1/profiles" (Fetch.url req)
    then Sample.answer 201 EmptyString
    else None).

(** The account exists: creation answers 422, the lookup finds it. *)
Definition existing : Host :=
  Sample.host (fun _ req =>
    if ends_with "/auth/v1/admin/users" (Fetch.url req)
    then Sample.answer 422 "{'code':422,'msg':'User already registered'}"
    else if ends_with "?email=a%40b.com" (Fetch.url req)
    then Sample.answer 200 "[{'id':'u7','email':'a@b.com'}]"
    else if ends_with "/rest/v1/profiles" (Fetch.url req)
    then Sample.answer 201 EmptyString
    else None).

(** The account of u1 can be patched and deleted, nobody else's. *)
Definition admin : Host :=
  Sample.host (fun _ req =>
    if ends_with "/auth/v1/admin/users/u1" (Fetch.url req)
    then if is_method "PATCH" req then Sample.answer 200 "{'id':'u1'}"
         else if is_method "DELETE" req then Sample.answer 200 "{}"
         else None
    else Sample.answer 404 "{'code':404,'msg':'User not found'}").

(** Every request is answered 503. *)
Definition outage : Host :=
  Sample.host (fun _ _ => Sample.answer 503 "Service Unavailable").

(** The generative API answers with one candidate. *)
Definition gemini : Host :=
  Sample.host (fun _ _ =>
    Sample.answer 200
      "{'candidates':[{'content':{'parts':[{'text':'Sube el precio.'}]}}]}").

(** The generative API answers without candidates. *)
Definition gemini_blocked : Host :=
  Sample.host (fun _ _ =>
    Sample.answer 200 "{'promptFeedback':{'blockReason':'SAFETY'}}").

(** Three sellers; the lookup of the second gets no response. *)
Definition cut_off : Host :=
  Sample.host (fun _ req =>
    let url := Fetch.url req in
    if String.eqb url
         (Sample.base +:+ "/rest/v1/profiles?role=eq.seller&select=id")
    then Sample.answer 200 "[{'id':'u1'},{'id':'u2'},{'id':'u3'}]"
    else if String.eqb url (Sample.base +:+ "/auth/v1/admin/users/u1")
    then Sample.answer 200 "{'id':'u1','email':'ana@example.com'}"
    else None).

(** Every request is answered 200 with an object. *)
Definition misrouted : Host :=
  Sample.host (fun _ _ => Sample.answer 200 "{'message':'ok'}").

Definition with_key : gmap string string :=
  <["GEMINI_API_KEY" := "k-123"]> empty.

Definition put (body : string) : Event.t :=
  Event.make "PUT" (Some (Text.lit body)) None.

Definition delete (id : string) : Event.t :=
  Event.make "DELETE" None (Some (<["id" := id]> empty)).

(** The site, its network, and a storage that holds an older version. *)
Definition scope : string := "https://pos.example/".

Definition site : ServiceWorker.Network :=
  fun req =>
    if String.prefix scope (ServiceWorker.url req)
       && String.eqb (ServiceWorker.method req) "GET"
    then Some (Fetch.response 200 (ServiceWorker.url req))
    else None.

Definition old_storage : list (string * gmap string Fetch.Response) :=
  [("emprende-venta-pos-cache-v1",
    <["https://pos.example/index.html" := Fetch.response 200 "old page"]>
      empty)].

End Demo.

(** * Properties of the handlers *)

Import JS Netlify.

(** ** The JSON reader has fuel to spare

    The descent is driven by fuel; the lemmas below show that the fuel
    [JSON_parse] hands out is never used up, so that a [SyntaxError] of
    the model is always a verdict about the text. *)

Section ParserFuel.
Local Open Scope nat_scope.

Lemma skip_ws_length s : String.length (skip_ws s) <= String.length s.
Proof.
  induction s as [| c s IH]; simpl; [lia |].
  destruct (is_ws c); simpl; lia.
Qed.

Lemma prepend_Some t x b r :
  prepend t x = Some (b, r) -> exists b', x = Some (b', r).
Proof.
  destruct x as [[b' r'] |]; simpl; [| discriminate].
  intros H. inversion H. subst. eauto.
Qed.

Lemma string_body_length_aux n :
  forall s t r,
    String.length s <= n -> string_body s = Some (t, r) ->
    String.length r < String.length s.
Proof.
  induction n as [| n IH]; intros s t r Hn H.
  - destruct s; simpl in *; [discriminate | lia].
  - destruct s as [| c s]; [discriminate |].
    simpl in Hn. simpl in H.
    repeat match type of H with
           | context [if ?b then _ else _] => destruct b
           | context [match ?x with _ => _ end] => destruct x eqn:?
           end;
      try discriminate;
      try (inversion H; subst; simpl; lia);
      try (apply prepend_Some in H as [b' H]; apply IH in H;
           simpl in *; lia).
Qed.

Lemma string_body_length s t r :
  string_body s = Some (t, r) -> String.length r < String.length s.
Proof. apply (string_body_length_aux (String.length s)). lia. Qed.

Lemma digits_length s :
  forall acc count v n r,
    digits s acc count = (v, n, r) -> String.length r <= String.length s.
Proof.
  induction s as [| c s IH]; intros acc count v n r H; simpl in H.
  - inversion H. subst. simpl. lia.
  - destruct (is_digit c).
    + apply IH in H. simpl. lia.
    + inversion H. subst. simpl. lia.
Qed.

Lemma parse_fraction_length int s m n r :
  parse_fraction int s = Some (m, n, r) -> String.length r <= String.length s.
Proof.
  unfold parse_fraction. destruct s as [| c s]; [intros H; inversion H; subst; simpl; lia |].
  destruct (Ascii.eqb c ".").
  - destruct (digits s int 0) as [[m' n'] r'] eqn:D.
    destruct (Z.eqb n' 0); [discriminate |].
    intros H. inversion H. subst. apply digits_length in D. simpl. lia.
  - intros H. inversion H. subst. simpl. lia.
Qed.

Lemma parse_exponent_length s x r :
  parse_exponent s = Some (x, r) -> String.length r <= String.length s.
Proof.
  unfold parse_exponent. destruct s as [| c s]; [intros H; inversion H; subst; simpl; lia |].
  destruct (Ascii.eqb c "e" || Ascii.eqb c "E").
  - set (sign := match s with
                 | String sg r' =>
                     if Ascii.eqb sg "-" then (true, r')
                     else if Ascii.eqb sg "+" then (false, r')
                     else (false, s)
                 | EmptyString => (false, s)
                 end).
    assert (String.length (snd sign) <= String.length s) as Hr1.
    { subst sign. destruct s as [| sg s']; [simpl; lia |].
      destruct (Ascii.eqb sg "-"); [simpl; lia |].
      destruct (Ascii.eqb sg "+"); simpl; lia. }
    destruct sign as [neg r1]. simpl in Hr1. cbv beta iota.
    destruct (digits r1 0 0) as [[x' n'] r2] eqn:D.
    destruct (Z.eqb n' 0); [discriminate |].
    intros H. inversion H. subst. apply digits_length in D. simpl. lia.
  - intros H. inversion H. subst. simpl. lia.
Qed.

Lemma parse_number_length s n r :
  parse_number s = Some (n, r) -> String.length r < String.length s.
Proof.
  unfold parse_number.
  set (sign := match s with
               | String c r => if Ascii.eqb c "-" then (true, r) else (false, s)
               | EmptyString => (false, s)
               end).
  assert (String.length (snd sign) <= String.length s) as Hs1.
  { subst sign. destruct s as [| c s']; [simpl; lia |].
    destruct (Ascii.eqb c "-"); simpl; lia. }
  destruct sign as [neg s1]. simpl in Hs1. cbv beta iota.
  destruct s1 as [| c r0]; cbv beta iota; [discriminate |].
  destruct (is_digit c) eqn:Dc; cbv beta iota; [| discriminate].
  set (int := if Ascii.eqb c "0" then (0%Z, 1%Z, r0)
              else digits (String c r0) 0 0).
  assert (String.length (snd int) <= String.length r0) as Hr1.
  { subst int. destruct (Ascii.eqb c "0"); [simpl; lia |].
    simpl. rewrite Dc.
    destruct (digits r0 (0 * 10 + digit_value c) (0 + 1)) as [[a b] r'] eqn:Di.
    apply digits_length in Di. exact Di. }
  destruct int as [[i k] r1]. simpl in Hr1. cbv beta iota.
  destruct (parse_fraction i r1) as [[[m k'] r2] |] eqn:F; [| discriminate].
  destruct (parse_exponent r2) as [[x r3] |] eqn:E; [| discriminate].
  intros H. inversion H. subst.
  apply parse_fraction_length in F. apply parse_exponent_length in E.
  simpl in *. lia.
Qed.

Lemma drop_length n s :
  n <= String.length s -> String.length (Text.drop n s) = String.length s - n.
Proof.
  revert s. induction n as [| n IH]; intros s H; simpl.
  - lia.
  - destruct s as [| c s]; simpl in *; [lia |]. apply IH. lia.
Qed.

Lemma prefix_length w s :
  String.prefix w s = true -> String.length w <= String.length s.
Proof.
  revert s. induction w as [| a w IH]; intros s H; [simpl; lia |].
  destruct s as [| b s]; simpl in H; [discriminate |].
  destruct (ascii_dec a b); [| discriminate].
  apply IH in H. simpl. lia.
Qed.

Lemma expect_length w v s v' r :
  0 < String.length w ->
  expect w v s = Some (v', r) -> String.length r < String.length s.
Proof.
  unfold expect. intros Hw. destruct (String.prefix w s) eqn:P; [| discriminate].
  intros H. inversion H. subst. apply prefix_length in P.
  rewrite drop_length; lia.
Qed.

Lemma parse_scalar_length s v r :
  parse_scalar s = Some (v, r) -> String.length r < String.length s.
Proof.
  unfold parse_scalar. destruct s as [| c s']; [discriminate |].
  destruct (Ascii.eqb c Text.dquote).
  { destruct (string_body s') as [[t r'] |] eqn:B; [| discriminate].
    intros H. inversion H. subst. apply string_body_length in B. simpl. lia. }
  destruct (Ascii.eqb c "t"); [apply expect_length; simpl; lia |].
  destruct (Ascii.eqb c "f"); [apply expect_length; simpl; lia |].
  destruct (Ascii.eqb c "n"); [apply expect_length; simpl; lia |].
  destruct (parse_number (String c s')) as [[n r'] |] eqn:N; [| discriminate].
  intros H. inversion H. subst. apply parse_number_length in N. exact N.
Qed.

Ltac split_parse H :=
  repeat match type of H with
         | context [match skip_ws ?s with _ => _ end] =>
             let E := fresh "W" in
             pose proof (skip_ws_length s);
             destruct (skip_ws s) eqn:E
         | context [match string_body ?s with _ => _ end] =>
             let E := fresh "B" in
             destruct (string_body s) as [[? ?] |] eqn:E;
             [apply string_body_length in E |]
         | context [match parse_scalar ?s with _ => _ end] =>
             let E := fresh "P" in
             destruct (parse_scalar s) as [[? ?] |] eqn:E;
             [apply parse_scalar_length in E |]
         | context [if ?b then _ else _] => destruct b
         end.

Lemma parse_consumes f : consumes f.
Proof.
  induction f as [| f (IHv & IHi & IHm)].
  - repeat split; intros; discriminate.
  - repeat split.
    + intros s v r H. cbn [parse_value] in H. split_parse H;
        try discriminate;
        try (inversion H; subst; simpl in *; lia);
        try (apply IHm in H; simpl in *; lia);
        try (apply IHi in H; simpl in *; lia).
    + intros s acc v r H. cbn [parse_items] in H.
      destruct (parse_value f s) as [v' r' | |] eqn:V; try discriminate.
      apply IHv in V. split_parse H;
        try discriminate;
        try (inversion H; subst; simpl in *; lia);
        try (apply IHi in H; simpl in *; lia).
    + intros s acc v r H. cbn [parse_members] in H. split_parse H;
        try discriminate.
      all: match type of H with
           | context [match parse_value ?g ?t with _ => _ end] =>
               destruct (parse_value g t) as [v' r' | |] eqn:V;
                 try discriminate; apply IHv in V
           end.
      all: split_parse H; try discriminate;
        try (inversion H; subst; simpl in *; lia);
        try (apply IHm in H; simpl in *; lia).
Qed.

(** Fuel from twice the length of the text is never used up. *)
Lemma parse_fuel_enough f :
  (forall s, 2 * String.length s + 1 <= f -> parse_value f s <> Exhausted)
  /\ (forall s acc, 2 * String.length s + 2 <= f ->
                    parse_items f s acc <> Exhausted)
  /\ (forall s acc, 2 * String.length s + 2 <= f ->
                    parse_members f s acc <> Exhausted).
Proof.
  induction f as [| f (IHv & IHi & IHm)].
  - repeat split; intros; lia.
  - destruct (parse_consumes f) as (Cv & _ & _).
    repeat split.
    + intros s Hf H. cbn [parse_value] in H. split_parse H;
        try discriminate.
      all: try solve [apply IHm in H; [exact H | simpl in *; lia]].
      all: try solve [apply IHi in H; [exact H | simpl in *; lia]].
    + intros s acc Hf H. cbn [parse_items] in H.
      destruct (parse_value f s) as [v' r' | |] eqn:V; try discriminate.
      * apply Cv in V. split_parse H; try discriminate.
        all: try solve [apply IHi in H; [exact H | simpl in *; lia]].
      * apply IHv in V; [exact V | lia].
    + intros s acc Hf H. cbn [parse_members] in H. split_parse H;
        try discriminate.
      all: match type of H with
           | context [match parse_value ?g ?t with _ => _ end] =>
               destruct (parse_value g t) as [v' r' | |] eqn:V;
                 try discriminate
           end.
      all: try solve [apply IHv in V; [exact V | simpl in *; lia]].
      all: apply Cv in V; split_parse H; try discriminate.
      all: try solve [apply IHm in H; [exact H | simpl in *; lia]].
Qed.

(** [JSON_parse] never gives up for want of fuel. *)
Lemma parse_fuel text : parse_value (fuel_for text) text <> Exhausted.
Proof. apply parse_fuel_enough. unfold fuel_for. lia. Qed.

(** A [SyntaxError] always has a syntactic cause: no value at the head of
    the text, or something other than white space after it. *)
Lemma JSON_parse_rejects text e :
  JSON_parse text = Throw e ->
  parse_value (fuel_for text) text = Invalid
  \/ exists v rest,
       parse_value (fuel_for text) text = Parsed v rest
       /\ skip_ws rest <> EmptyString.
Proof.
  unfold JSON_parse. pose proof (parse_fuel text) as F.
  destruct (parse_value (fuel_for text) text) as [v rest | |];
    [| auto | contradiction].
  destruct (skip_ws rest) eqn:W; [discriminate |].
  intros _. right. exists v, rest. split; [reflexivity | congruence].
Qed.

End ParserFuel.

(** [JSON.parse] throws nothing but a [SyntaxError] about its argument. *)
Lemma JSON_parse_throws text e :
  JSON_parse text = Throw e -> e = SyntaxError text.
Proof.
  unfold JSON_parse.
  destruct (parse_value _ text) as [v rest | |]; [| congruence | congruence].
  destruct (skip_ws rest); congruence.
Qed.

(** ** Values, fields and the environment *)

Lemma append_empty_r s : s +:+ EmptyString = s.
Proof.
  induction s as [| c s IH]; [reflexivity |].
  change (String c (s +:+ EmptyString) = String c s). now rewrite IH.
Qed.

Lemma truthy_not_nullish v : ToBoolean v = true -> is_nullish v = false.
Proof. destruct v; simpl; congruence. Qed.

Lemma Get_not_nullish v k :
  is_nullish v = false -> Get v k = Ok (GetOpt v k).
Proof.
  unfold GetOpt. destruct v; simpl; try discriminate; intros _;
    repeat match goal with |- context [match ?x with _ => _ end] =>
             destruct x end; reflexivity.
Qed.

Lemma Get_Ok_not_nullish v k x : Get v k = Ok x -> is_nullish v = false.
Proof. destruct v; simpl; intros H; congruence. Qed.

(** Anything but an array or an object can be printed. *)
Lemma printable_scalar host v :
  match v with VArr _ | VObj _ => False | _ => True end -> printable host v.
Proof.
  destruct v; simpl; intros H; try contradiction; eexists; reflexivity.
Qed.

Lemma printable_or_else host v d :
  printable host v -> printable host (or_else v (VStr d)).
Proof.
  unfold or_else. destruct (ToBoolean v); [auto |].
  intros _. exists d. reflexivity.
Qed.

(** A string without unpaired surrogates is always encoded. *)
Lemma encodeURIComponent_string ntos s :
  Text.well_formed s = true ->
  encodeURIComponent ntos (VStr s) = Ok (percent_encode s).
Proof. intros H. unfold encodeURIComponent. simpl. now rewrite H. Qed.

Lemma lacks_not_nullish parsed field :
  lacks parsed field -> is_nullish parsed = false.
Proof. intros (x & E & _). exact (Get_Ok_not_nullish _ _ _ E). Qed.

Lemma lacks_falsy parsed field :
  lacks parsed field -> ToBoolean (GetOpt parsed field) = false.
Proof.
  intros (x & E & F). unfold GetOpt. rewrite E. exact F.
Qed.

(** The two ways of lacking a field that the contract names: the field
    is absent, or it is the empty string. *)
Lemma lacks_absent fields field :
  lookup_field field fields = VUndef -> lacks (VObj fields) field.
Proof. intros H. exists VUndef. simpl. rewrite H. split; reflexivity. Qed.

Lemma lacks_empty parsed field :
  Get parsed field = Ok (VStr EmptyString) -> lacks parsed field.
Proof. intros H. exists (VStr EmptyString). split; [exact H | reflexivity]. Qed.

Lemma carries_GetOpt parsed field x :
  carries parsed field x ->
  is_nullish parsed = false /\ GetOpt parsed field = x.
Proof.
  intros [E _]. split.
  - exact (Get_Ok_not_nullish _ _ _ E).
  - unfold GetOpt. rewrite E. reflexivity.
Qed.

Lemma env_unconfigured pe name :
  unconfigured pe name -> ToBoolean (env pe name) = false.
Proof.
  unfold env. intros [H | H]; rewrite H; reflexivity.
Qed.

Lemma env_configured pe name s :
  configured pe name s -> env pe name = VStr s /\ ToBoolean (env pe name) = true.
Proof.
  unfold env. intros [H Hs]. rewrite H. split; [reflexivity |].
  simpl. destruct (String.eqb_spec s EmptyString); [contradiction | reflexivity].
Qed.

Lemma body_or_absent ev fallback :
  Event.body ev = None -> body_or ev fallback = fallback.
Proof. unfold body_or. intros H. rewrite H. reflexivity. Qed.

Lemma body_or_present ev fallback s :
  Event.body ev = Some s -> s <> EmptyString -> body_or ev fallback = s.
Proof.
  unfold body_or. intros H Hs. rewrite H.
  destruct (String.eqb_spec s EmptyString); [contradiction | reflexivity].
Qed.

(** ** Postconditions through the monad

    The rules for [ensures] follow the shape of the handlers: sequencing
    and branching. *)

Lemma ensures_ret {A} (a : A) (Q : A -> Prop) : Q a -> ensures (ret a) Q.
Proof. intros H tr a' tr' E. inversion E. subst. exact H. Qed.

Lemma ensures_bind {A B} (m : M A) (k : A -> M B) (Q : B -> Prop) :
  (forall a, ensures (k a) Q) -> ensures (bind m k) Q.
Proof.
  intros H tr b tr'. unfold bind.
  destruct (m tr) as [[a | e] tr1]; [apply H | discriminate].
Qed.

Lemma ensures_if {A} (c : bool) (m1 m2 : M A) (Q : A -> Prop) :
  ensures m1 Q -> ensures m2 Q -> ensures (if c then m1 else m2) Q.
Proof. destruct c; auto. Qed.

Create HintDb ensures.
#[local] Hint Resolve ensures_ret ensures_if : ensures.
#[local] Hint Extern 2 (ensures (bind _ _) _) =>
  apply ensures_bind; intros : ensures.

(** A [try] whose handler always answers is total, and a postcondition of
    both the body and the handler holds of its result. *)
Lemma try_catch_total {A} (m : M A) (h : exn -> A) (Q : A -> Prop) tr :
  ensures m Q -> (forall e, Q (h e)) ->
  exists a tr', try_catch m (fun e => ret (h e)) tr = (Ok a, tr') /\ Q a.
Proof.
  intros Hm Hh. unfold try_catch.
  destruct (m tr) as [[a | e] tr1] eqn:E.
  - exists a, tr1. split; [reflexivity | exact (Hm _ _ _ E)].
  - exists (h e), tr1. split; [reflexivity | apply Hh].
Qed.

(** ** Computations that make no outbound call *)

Lemma silent_ret {A} (a : A) : silent (ret a).
Proof. intros tr. reflexivity. Qed.

Lemma silent_lift {A} (r : Result A) : silent (lift r).
Proof. intros tr. reflexivity. Qed.

Lemma silent_bind {A B} (m : M A) (k : A -> M B) :
  silent m -> (forall a, silent (k a)) -> silent (bind m k).
Proof.
  intros Hm Hk tr. unfold bind. specialize (Hm tr).
  destruct (m tr) as [[a | e] tr1]; simpl in Hm; subst tr1.
  - apply Hk.
  - reflexivity.
Qed.

Lemma silent_try_catch {A} (m : M A) (h : exn -> M A) :
  silent m -> (forall e, silent (h e)) -> silent (try_catch m h).
Proof.
  intros Hm Hh tr. unfold try_catch. specialize (Hm tr).
  destruct (m tr) as [[a | e] tr1]; simpl in Hm; subst tr1.
  - reflexivity.
  - apply Hh.
Qed.

Lemma silent_if {A} (c : bool) (m1 m2 : M A) :
  silent m1 -> silent m2 -> silent (if c then m1 else m2).
Proof. destruct c; auto. Qed.

Create HintDb silent.
#[local] Hint Resolve silent_ret silent_lift silent_if : silent.
#[local] Hint Extern 2 (silent (bind _ _)) =>
  apply silent_bind; [| intros] : silent.
#[local] Hint Extern 2 (silent (try_catch _ _)) =>
  apply silent_try_catch; [| intros] : silent.

(** ** create-seller *)

(** C3: a POST whose parsed body holds no email or no password, the
    field absent, empty or otherwise falsy, makes no request.  It is
    answered 400, unless the body is the literal null: null has no
    fields to read, destructuring it throws, and the catch-all answers
    500 with the message of the exception. *)
Theorem create_seller_missing_fields host pe ev parsed :
  Event.httpMethod ev = "POST" ->
  JSON_parse (body_or ev "{}") = Ok parsed ->
  ToBoolean (GetOpt parsed "email") = false
  \/ ToBoolean (GetOpt parsed "password") = false ->
  run (create_seller host pe ev)
  = (Ok (if is_nullish parsed
         then Reply.make 500 None
                (stringify host
                   (VObj [("error",
                           VStr (message host (TypeError_nullish "email")))]))
         else Reply.make 400 None
                (Text.lit "{'error':'Email y contraseña son obligatorios'}")),
     []).
Proof.
  intros Hm Hp Hl.
  unfold run, create_seller, try_catch, bind, lift. rewrite Hm, Hp.
  cbn [String.eqb Ascii.eqb Bool.eqb negb].
  destruct (is_nullish parsed) eqn:Hn.
  - destruct parsed; try discriminate Hn; reflexivity.
  - rewrite !(Get_not_nullish _ _ Hn).
    assert (negb (ToBoolean (GetOpt parsed "email"))
            || negb (ToBoolean (GetOpt parsed "password")) = true) as ->
      by (destruct Hl as [-> | ->]; [reflexivity | apply orb_true_r]).
    reflexivity.
Qed.

(** The JSON literal null has no fields: destructuring it throws, and the
    catch-all answers 500 before any request goes out. *)
Lemma create_seller_null_body host pe ev :
  Event.httpMethod ev = "POST" ->
  JSON_parse (body_or ev "{}") = Ok VNull ->
  run (create_seller host pe ev)
  = (Ok (Reply.make 500 None
           (stringify host
              (VObj [("error", VStr (message host (TypeError_nullish "email")))]))),
     []).
Proof.
  intros Hm Hp. unfold run, create_seller, try_catch, bind, lift.
  rewrite Hm, Hp. reflexivity.
Qed.

(** C8: a POST whose body is present and is not JSON is answered with the
    500 of the catch-all, carrying the message of the syntax error that
    [JSON.parse] threw; it is not the 400 of the missing fields. *)
Theorem create_seller_malformed_body host pe ev text e :
  Event.httpMethod ev = "POST" ->
  Event.body ev = Some text ->
  text <> EmptyString ->
  JSON_parse text = Throw e ->
  run (create_seller host pe ev)
  = (Ok (Reply.make 500 None
           (stringify host (VObj [("error", VStr (message host e))]))),
     [])
  /\ e = SyntaxError text.
Proof.
  intros Hm Hb Hne He. split; [| exact (JSON_parse_throws _ _ He)].
  unfold run, create_seller, try_catch, bind, lift.
  rewrite Hm, (body_or_present _ _ _ Hb Hne), He. reflexivity.
Qed.

(** C2, as the code has it: a POST that carries both email and password
    while the base URL or the service key is not configured is answered
    500 ("Variables de entorno faltantes"), and no request goes out. *)
Theorem create_seller_unconfigured host pe ev parsed email password :
  Event.httpMethod ev = "POST" ->
  JSON_parse (body_or ev "{}") = Ok parsed ->
  carries parsed "email" email ->
  carries parsed "password" password ->
  unconfigured pe "SUPABASE_URL" \/ unconfigured pe "SUPABASE_SERVICE_ROLE_KEY" ->
  run (create_seller host pe ev)
  = (Ok (Reply.make 500 None
           (Text.lit "{'error':'Variables de entorno faltantes'}")),
     []).
Proof.
  intros Hm Hp He Hw Hu.
  destruct He as [He Te], Hw as [Hw Tw].
  assert (negb (ToBoolean (env pe "SUPABASE_URL"))
          || negb (ToBoolean (env pe "SUPABASE_SERVICE_ROLE_KEY")) = true) as Hf.
  { destruct Hu as [H | H]; apply env_unconfigured in H; rewrite H.
    - reflexivity.
    - apply orb_true_r. }
  unfold run, create_seller, try_catch, bind, lift.
  rewrite Hm, Hp, He, Hw, Te, Tw. cbn [String.eqb Ascii.eqb Bool.eqb negb orb].
  rewrite Hf. reflexivity.
Qed.

(** The steps of a run up to the lookup. *)
Ltac up_to_lookup :=
  match goal with
  | Hm : Event.httpMethod _ = "POST",
    Hp : JSON_parse _ = Ok _,
    He : carries _ "email" _, Hw : carries _ "password" _,
    Hu : configured _ "SUPABASE_URL" _,
    Hk : configured _ "SUPABASE_SERVICE_ROLE_KEY" _,
    Hc : network _ [] (create_request _ _ _ _ _) = Some ?createRes,
    Hcond : _ \/ _,
    Henc : encodeURIComponent _ _ = Ok _ |- _ =>
      destruct He as [He Te]; destruct Hw as [Hw Tw];
      apply env_configured in Hu as [Eu Tu];
      apply env_configured in Hk as [Ek Tk];
      assert ((Fetch.status createRes =? 422)
              || negb (ToBoolean (created_id createRes)) = true) as Hlook
        by (destruct Hcond as [H | H]; rewrite H;
            [reflexivity | apply orb_true_r]);
      unfold created_id in Hlook; unfold create_request in Hc;
      unfold run, create_seller, try_catch, bind, lift, fetch, ret;
      rewrite Hm, Hp, He, Hw, Te, Tw, Tu, Tk, Eu, Ek;
      cbn [String.eqb Ascii.eqb Bool.eqb negb orb template rbind ToString];
      rewrite !append_empty_r, Hc;
      unfold create_request, lookup_request;
      destruct (Fetch.json createRes) as [createJson | ?];
      cbv iota in Hlook; rewrite Hlook, Henc; cbn [app];
      rewrite ?append_empty_r
  end.

(** A lookup that gets no response, or one whose body is not JSON,
    throws: the catch-all answers 500 with the message of the exception,
    and the run ends at the lookup all the same. *)
Lemma create_seller_lookup_unreadable host pe ev parsed email password url key
  createRes encoded :
  Event.httpMethod ev = "POST" ->
  JSON_parse (body_or ev "{}") = Ok parsed ->
  carries parsed "email" email ->
  carries parsed "password" password ->
  configured pe "SUPABASE_URL" url ->
  configured pe "SUPABASE_SERVICE_ROLE_KEY" key ->
  network host [] (create_request host url key email password) = Some createRes ->
  Fetch.status createRes = 422 \/ ToBoolean (created_id createRes) = false ->
  encodeURIComponent (Number_toString host) email = Ok encoded ->
  forall e,
    match network host [create_request host url key email password]
            (lookup_request url key encoded) with
    | Some lookupRes => Fetch.json lookupRes = Throw e
    | None => e = TypeError_fetch
    end ->
    run (create_seller host pe ev)
    = (Ok (Reply.make 500 None
             (stringify host (VObj [("error", VStr (message host e))]))),
       [create_request host url key email password;
        lookup_request url key encoded]).
Proof.
  intros Hm Hp He Hw Hu Hk Hc Hcond Henc e Hl.
  unfold create_request, lookup_request in Hl.
  up_to_lookup.
  all: match goal with
       | |- context [match network ?h ?t ?r with _ => _ end] =>
           destruct (network h t r) as [lookupRes |]
       end; [rewrite Hl | subst e]; reflexivity.
Qed.

(** A creation that calls for the lookup, with an email that cannot be
    encoded into the lookup URL: the exception is caught, after the one
    request. *)
Lemma create_seller_lookup_unencodable host pe ev parsed email password url key
  createRes e :
  Event.httpMethod ev = "POST" ->
  JSON_parse (body_or ev "{}") = Ok parsed ->
  carries parsed "email" email ->
  carries parsed "password" password ->
  configured pe "SUPABASE_URL" url ->
  configured pe "SUPABASE_SERVICE_ROLE_KEY" key ->
  network host [] (create_request host url key email password) = Some createRes ->
  Fetch.status createRes = 422 \/ ToBoolean (created_id createRes) = false ->
  encodeURIComponent (Number_toString host) email = Throw e ->
  run (create_seller host pe ev)
  = (Ok (Reply.make 500 None
           (stringify host (VObj [("error", VStr (message host e))]))),
     [create_request host url key email password]).
Proof.
  intros Hm Hp [He Te] [Hw Tw] Hu Hk Hc Hcond Henc.
  apply env_configured in Hu as [Eu Tu]. apply env_configured in Hk as [Ek Tk].
  assert ((Fetch.status createRes =? 422)
          || negb (ToBoolean (created_id createRes)) = true) as Hlook
    by (destruct Hcond as [H | H]; rewrite H;
        [reflexivity | apply orb_true_r]).
  unfold created_id in Hlook. unfold create_request in Hc.
  unfold run, create_seller, try_catch, bind, lift, fetch, ret.
  rewrite Hm, Hp, He, Hw, Te, Tw, Tu, Tk, Eu, Ek.
  cbn [String.eqb Ascii.eqb Bool.eqb negb orb template rbind ToString].
  rewrite !append_empty_r, Hc.
  unfold create_request.
  destruct (Fetch.json createRes) as [createJson | ?];
    cbv iota in Hlook; rewrite Hlook, Henc; reflexivity.
Qed.

(** The lookup is answered with JSON that holds no identifier. *)
Lemma create_seller_lookup_nobody host pe ev parsed email password url key
  createRes encoded lookupRes lookupJson :
  Event.httpMethod ev = "POST" ->
  JSON_parse (body_or ev "{}") = Ok parsed ->
  carries parsed "email" email ->
  carries parsed "password" password ->
  configured pe "SUPABASE_URL" url ->
  configured pe "SUPABASE_SERVICE_ROLE_KEY" key ->
  network host [] (create_request host url key email password) = Some createRes ->
  Fetch.status createRes = 422 \/ ToBoolean (created_id createRes) = false ->
  encodeURIComponent (Number_toString host) email = Ok encoded ->
  network host [create_request host url key email password]
    (lookup_request url key encoded) = Some lookupRes ->
  Fetch.json lookupRes = Ok lookupJson ->
  ToBoolean (found_id lookupJson) = false ->
  run (create_seller host pe ev)
  = (Ok (Reply.make 422 None
           (Text.lit "{'error':'No se pudo obtener ID de usuario'}")),
     [create_request host url key email password;
      lookup_request url key encoded]).
Proof.
  intros Hm Hp He Hw Hu Hk Hc Hcond Henc Hl Hj Hf.
  unfold create_request, lookup_request in Hl. unfold found_id in Hf.
  up_to_lookup.
  all: rewrite Hl, Hj, Hf; reflexivity.
Qed.

(** Whenever the email can be encoded, the lookup is the second request
    of the run. *)
Lemma create_seller_lookup_made host pe ev parsed email password url key
  createRes encoded :
  Event.httpMethod ev = "POST" ->
  JSON_parse (body_or ev "{}") = Ok parsed ->
  carries parsed "email" email ->
  carries parsed "password" password ->
  configured pe "SUPABASE_URL" url ->
  configured pe "SUPABASE_SERVICE_ROLE_KEY" key ->
  network host [] (create_request host url key email password) = Some createRes ->
  Fetch.status createRes = 422 \/ ToBoolean (created_id createRes) = false ->
  encodeURIComponent (Number_toString host) email = Ok encoded ->
  exists rest,
    snd (run (create_seller host pe ev))
    = create_request host url key email password
      :: lookup_request url key encoded :: rest.
Proof.
  intros Hm Hp He Hw Hu Hk Hc Hcond Henc.
  up_to_lookup.
  all: repeat match goal with
         | |- context [match network ?h ?t ?r with _ => _ end] =>
             destruct (network h t r)
         | |- context [match Fetch.json ?r with _ => _ end] =>
             destruct (Fetch.json r)
         | |- context [if ?c then _ else _] => destruct c
         end; cbn [app snd]; eexists; reflexivity.
Qed.

(** C4: when the account-creation call is answered with status 422, or
    its response yields no identifier, the handler goes on to look the
    account up by email.  When the email can be encoded into the lookup
    URL, the lookup is the second request of the run; answered with
    JSON that holds no identifier, it ends the run with 422 ("No se pudo
    obtener ID de usuario").  A lookup that gets no response, or a body
    that is not JSON, and an email that cannot be encoded, end the run
    with the 500 of the catch-all.  None of these runs reaches the
    profile upsert. *)
Theorem create_seller_lookup host pe ev parsed email password url key
  createRes :
  Event.httpMethod ev = "POST" ->
  JSON_parse (body_or ev "{}") = Ok parsed ->
  carries parsed "email" email ->
  carries parsed "password" password ->
  configured pe "SUPABASE_URL" url ->
  configured pe "SUPABASE_SERVICE_ROLE_KEY" key ->
  network host [] (create_request host url key email password) = Some createRes ->
  Fetch.status createRes = 422 \/ ToBoolean (created_id createRes) = false ->
  match encodeURIComponent (Number_toString host) email with
  | Ok encoded =>
      (exists rest,
         snd (run (create_seller host pe ev))
         = create_request host url key email password
           :: lookup_request url key encoded :: rest)
      /\ match network host [create_request host url key email password]
                 (lookup_request url key encoded) with
         | Some lookupRes =>
             match Fetch.json lookupRes with
             | Ok lookupJson =>
                 ToBoolean (found_id lookupJson) = false ->
                 run (create_seller host pe ev)
                 = (Ok (Reply.make 422 None
                          (Text.lit "{'error':'No se pudo obtener ID de usuario'}")),
                    [create_request host url key email password;
                     lookup_request url key encoded])
             | Throw e =>
                 run (create_seller host pe ev)
                 = (Ok (Reply.make 500 None
                          (stringify host
                             (VObj [("error", VStr (message host e))]))),
                    [create_request host url key email password;
                     lookup_request url key encoded])
             end
         | None =>
             run (create_seller host pe ev)
             = (Ok (Reply.make 500 None
                      (stringify host
                         (VObj [("error",
                                 VStr (message host TypeError_fetch))]))),
                [create_request host url key email password;
                 lookup_request url key encoded])
         end
  | Throw e =>
      run (create_seller host pe ev)
      = (Ok (Reply.make 500 None
               (stringify host (VObj [("error", VStr (message host e))]))),
         [create_request host url key email password])
  end.
Proof.
  intros Hm Hp He Hw Hu Hk Hc Hcond.
  destruct (encodeURIComponent (Number_toString host) email)
    as [encoded | e] eqn:Henc.
  - split; [exact (create_seller_lookup_made _ _ _ _ _ _ _ _ _ _
                     Hm Hp He Hw Hu Hk Hc Hcond Henc) |].
    destruct (network host [create_request host url key email password]
                (lookup_request url key encoded)) as [lookupRes |] eqn:Hl.
    + destruct (Fetch.json lookupRes) as [lookupJson | e] eqn:Hj.
      * intros Hf.
        exact (create_seller_lookup_nobody _ _ _ _ _ _ _ _ _ _ _ _
                 Hm Hp He Hw Hu Hk Hc Hcond Henc Hl Hj Hf).
      * apply (create_seller_lookup_unreadable _ _ _ _ _ _ _ _ _ _
                 Hm Hp He Hw Hu Hk Hc Hcond Henc).
        rewrite Hl. exact Hj.
    + apply (create_seller_lookup_unreadable _ _ _ _ _ _ _ _ _ _
               Hm Hp He Hw Hu Hk Hc Hcond Henc).
      rewrite Hl. reflexivity.
  - exact (create_seller_lookup_unencodable _ _ _ _ _ _ _ _ _ _
             Hm Hp He Hw Hu Hk Hc Hcond Henc).
Qed.

(** ** manage-seller *)

(** C9: when the base URL or the service key is not configured, the
    seller-management handler answers 500 whatever the method is, also one
    that would otherwise be refused with 405, and no request goes out. *)
Theorem manage_seller_unconfigured host pe ev :
  unconfigured pe "SUPABASE_URL" \/ unconfigured pe "SUPABASE_SERVICE_ROLE_KEY" ->
  run (manage_seller host pe ev)
  = (Ok (Reply.make 500 None
           (Text.lit "{'message':'Faltan variables de entorno SUPABASE_URL o SERVICE_ROLE_KEY'}")),
     []).
Proof.
  intros H. unfold run, manage_seller.
  destruct H as [H | H]; apply env_unconfigured in H; rewrite H.
  - reflexivity.
  - rewrite orb_true_r. reflexivity.
Qed.

(** C6: with the backend configured, a DELETE request whose query string
    has no [id], or an empty one, is answered 400 with the message
    "id es obligatorio para eliminar", and no request goes out. *)
Theorem manage_seller_delete_without_id host pe ev url key :
  configured pe "SUPABASE_URL" url ->
  configured pe "SUPABASE_SERVICE_ROLE_KEY" key ->
  Event.httpMethod ev = "DELETE" ->
  query_id ev = None \/ query_id ev = Some EmptyString ->
  run (manage_seller host pe ev)
  = (Ok (Reply.make 400 None
           (Text.lit "{'message':'id es obligatorio para eliminar'}")),
     []).
Proof.
  intros Hu Hk Hm Hid. unfold run, manage_seller.
  apply env_configured in Hu as [_ ->]. apply env_configured in Hk as [_ ->].
  rewrite Hm. simpl.
  assert (ToBoolean (query_param ev "id") = false) as ->; [| reflexivity].
  revert Hid. unfold query_id, query_param.
  destruct (Event.queryStringParameters ev) as [params |]; [| reflexivity].
  intros [-> | ->]; reflexivity.
Qed.

Lemma requestSupabase_answered host hist url m hs b res :
  network host hist (Fetch.request url (Some m) hs b) = Some res ->
  requestSupabase host url m hs b hist
  = (Ok (Answer.make (Fetch.status res) (Fetch.ok res) (answer_data res)),
     hist ++ [Fetch.request url (Some m) hs b]).
Proof.
  intros H. unfold requestSupabase, bind, fetch, try_catch, lift, ret, answer_data.
  rewrite H. destruct (JSON_parse (Fetch.text res)); reflexivity.
Qed.

Lemma list_sellers_spec host url key sellers :
  forall answers hist result,
    Forall (profile_record host) sellers ->
    answered host hist (map (user_request host url key) sellers) answers ->
    list_sellers host (VStr url) (VStr key) sellers result hist
    = (Ok (result ++ joined sellers answers),
       hist ++ map (user_request host url key) sellers).
Proof.
  induction sellers as [| seller rest IH]; intros answers hist result Hrec Hans.
  - inversion Hans; subst. simpl. unfold ret. now rewrite !app_nil_r.
  - inversion Hans as [| ? ? res ? ress Hnet Hrest]; subst.
    inversion Hrec as [| ? ? [Hn [s Hs]] Hrec']; subst.
    cbn [list_sellers]. unfold bind, lift.
    rewrite (Get_not_nullish _ _ Hn).
    cbn [template rbind ToString]. rewrite Hs. cbn [rbind].
    rewrite !append_empty_r.
    assert (user_request host url key seller
            = Fetch.request (url +:+ "/auth/v1/admin/users/" +:+ s) (Some "GET")
                [("apikey", VStr key);
                 ("Authorization", VStr ("Bearer " +:+ key));
                 ("Content-Type", VStr "application/json")] None) as Hreq
      by (unfold user_request, id_text; now rewrite Hs).
    pose proof Hnet as Hnet'. rewrite Hreq in Hnet'.
    rewrite (requestSupabase_answered _ _ _ _ _ _ _ Hnet'), <- Hreq.
    cbn [Answer.ok Answer.data].
    specialize (IH ress (hist ++ [user_request host url key seller])).
    assert (joined (seller :: rest) (res :: ress)
            = (if lookup_succeeded res
               then [VObj [("id", GetOpt seller "id");
                           ("email", GetOpt (answer_data res) "email")]]
               else []) ++ joined rest ress) as -> by reflexivity.
    cbn [map].
    unfold lookup_succeeded.
    destruct (Fetch.ok res && ToBoolean (answer_data res)) eqn:Hok.
    + apply andb_prop in Hok as [_ Ht].
      rewrite (Get_not_nullish _ _ (truthy_not_nullish _ Ht)).
      unfold ret. rewrite (IH _ Hrec' Hrest).
      now rewrite <- !app_assoc.
    + unfold ret. rewrite (IH _ Hrec' Hrest).
      now rewrite <- !app_assoc.
Qed.

(** A lookup that gets no response ends the listing with the rejection
    of [fetch]: manage-seller has no catch-all. *)
Lemma list_sellers_unanswered host url key seller rest hist result :
  profile_record host seller ->
  network host hist (user_request host url key seller) = None ->
  list_sellers host (VStr url) (VStr key) (seller :: rest) result hist
  = (Throw TypeError_fetch, hist ++ [user_request host url key seller]).
Proof.
  intros [Hn [s Hs]] Hnet.
  cbn [list_sellers]. unfold bind, lift.
  rewrite (Get_not_nullish _ _ Hn).
  cbn [template rbind ToString]. rewrite Hs. cbn [rbind].
  rewrite !append_empty_r.
  unfold user_request, id_text, supabase_headers in Hnet |- *.
  rewrite Hs in Hnet |- *.
  unfold requestSupabase, bind, fetch. rewrite Hnet. reflexivity.
Qed.

(** The join keeps, in order, exactly the profiles whose lookup
    succeeded. *)
Lemma joined_filter sellers answers :
  joined sellers answers
  = map (fun p => VObj [("id", GetOpt (fst p) "id");
                        ("email", GetOpt (answer_data (snd p)) "email")])
      (List.filter (fun p => lookup_succeeded (snd p))
         (combine sellers answers)).
Proof.
  unfold joined. induction (combine sellers answers) as [| p l IH];
    [reflexivity |].
  simpl. destruct (lookup_succeeded (snd p)); simpl; now rewrite IH.
Qed.

(** The loop stops at the first lookup that gets no response: the
    rejection leaves it, and the pairs gathered so far are lost. *)
Lemma list_sellers_stops host url key before seller rest :
  forall answers hist result,
    Forall (profile_record host) before ->
    profile_record host seller ->
    answered host hist (map (user_request host url key) before) answers ->
    network host (hist ++ map (user_request host url key) before)
      (user_request host url key seller) = None ->
    list_sellers host (VStr url) (VStr key) (before ++ seller :: rest)
      result hist
    = (Throw TypeError_fetch,
       hist ++ map (user_request host url key) before
       ++ [user_request host url key seller]).
Proof.
  induction before as [| first others IH];
    intros answers hist result Hrec Hs Hans Hnet.
  - simpl in Hnet |- *. rewrite app_nil_r in Hnet.
    exact (list_sellers_unanswered host url key seller rest hist result Hs Hnet).
  - inversion Hans as [| ? ? res ? ress Hfirst Hrest]; subst.
    inversion Hrec as [| ? ? [Hn [s Hid]] Hrec']; subst.
    cbn [app list_sellers]. unfold bind at 1. unfold lift at 1.
    rewrite (Get_not_nullish _ _ Hn).
    unfold bind at 1. unfold lift at 1.
    cbn [template rbind ToString]. rewrite Hid. cbn [rbind].
    unfold bind at 1. unfold lift at 1. cbn [template rbind ToString].
    rewrite !append_empty_r.
    assert (user_request host url key first
            = Fetch.request (url +:+ "/auth/v1/admin/users/" +:+ s) (Some "GET")
                [("apikey", VStr key);
                 ("Authorization", VStr ("Bearer " +:+ key));
                 ("Content-Type", VStr "application/json")] None) as Hreq
      by (unfold user_request, id_text; now rewrite Hid).
    pose proof Hfirst as Hfirst'. rewrite Hreq in Hfirst'.
    unfold bind at 1.
    rewrite (requestSupabase_answered _ _ _ _ _ _ _ Hfirst'), <- Hreq.
    cbn [Answer.ok Answer.data].
    assert (network host
              ((hist ++ [user_request host url key first])
               ++ map (user_request host url key) others)
              (user_request host url key seller) = None) as Hnet'
      by (rewrite <- app_assoc; exact Hnet).
    destruct (Fetch.ok res && ToBoolean (answer_data res)) eqn:Hok.
    + apply andb_prop in Hok as [_ Ht].
      unfold bind at 1. unfold bind at 1. unfold lift at 1.
      rewrite (Get_not_nullish _ _ (truthy_not_nullish _ Ht)).
      unfold ret at 1.
      rewrite (IH ress _ _ Hrec' Hs Hrest Hnet').
      now rewrite <- !app_assoc.
    + unfold bind at 1. unfold ret at 1.
      rewrite (IH ress _ _ Hrec' Hs Hrest Hnet').
      now rewrite <- !app_assoc.
Qed.

(** A listing whose profile query succeeded with an array is the loop
    over that array. *)
Lemma manage_seller_list_run host pe ev url key profilesRes sellers :
  configured pe "SUPABASE_URL" url ->
  configured pe "SUPABASE_SERVICE_ROLE_KEY" key ->
  Event.httpMethod ev = "GET" ->
  network host [] (profiles_request url key) = Some profilesRes ->
  Fetch.ok profilesRes = true ->
  JSON_parse (Fetch.text profilesRes) = Ok (VArr sellers) ->
  run (manage_seller host pe ev)
  = match list_sellers host (VStr url) (VStr key) sellers []
            [profiles_request url key] with
    | (Ok result, tr) =>
        (Ok (Reply.make 200 None (stringify host (VArr result))), tr)
    | (Throw e, tr) => (Throw e, tr)
    end.
Proof.
  intros Hu Hk Hm Hnet Hok Hparse.
  apply env_configured in Hu as [Eu Tu].
  apply env_configured in Hk as [Ek Tk].
  unfold run, manage_seller. rewrite Tu, Tk, Eu, Ek, Hm.
  cbn [String.eqb Ascii.eqb Bool.eqb negb orb].
  unfold bind at 1. unfold lift at 1. cbn [template rbind ToString].
  unfold bind at 1. unfold lift at 1. cbn [template rbind ToString].
  rewrite !append_empty_r.
  unfold bind at 1.
  unfold profiles_request, supabase_headers in Hnet |- *.
  rewrite (requestSupabase_answered _ _ _ _ _ _ _ Hnet).
  cbn [Answer.ok Answer.data Answer.status app]. rewrite Hok. cbn [negb].
  unfold answer_data. rewrite Hparse.
  unfold bind, lift. cbn [iterate].
  destruct (list_sellers _ _ _ _ _ _) as [[result | e] tr]; reflexivity.
Qed.

(** C5: a GET whose profile query succeeds with a sequence of profile
    records.  When every account lookup is answered, the reply is 200
    with the join of the listing: in the order of the profile query, one
    id/email pair for each profile whose lookup succeeded, and nothing
    for a profile whose lookup was answered with a failure.  With no
    profile at all the reply is the empty sequence.  When a lookup gets
    no response, the rejection leaves the handler, which has no
    try/catch: no reply, and the pairs gathered so far are lost. *)
Theorem manage_seller_list host pe ev url key profilesRes sellers :
  configured pe "SUPABASE_URL" url ->
  configured pe "SUPABASE_SERVICE_ROLE_KEY" key ->
  Event.httpMethod ev = "GET" ->
  network host [] (profiles_request url key) = Some profilesRes ->
  Fetch.ok profilesRes = true ->
  JSON_parse (Fetch.text profilesRes) = Ok (VArr sellers) ->
  Forall (profile_record host) sellers ->
  (forall answers,
     answered host [profiles_request url key]
       (map (user_request host url key) sellers) answers ->
     run (manage_seller host pe ev)
     = (Ok (Reply.make 200 None
              (stringify host (VArr (joined sellers answers)))),
        profiles_request url key :: map (user_request host url key) sellers))
  /\ (sellers = [] ->
      run (manage_seller host pe ev)
      = (Ok (Reply.make 200 None "[]"), [profiles_request url key]))
  /\ (forall before seller rest answers,
        sellers = before ++ seller :: rest ->
        answered host [profiles_request url key]
          (map (user_request host url key) before) answers ->
        network host
          (profiles_request url key :: map (user_request host url key) before)
          (user_request host url key seller) = None ->
        run (manage_seller host pe ev)
        = (Throw TypeError_fetch,
           profiles_request url key
           :: map (user_request host url key) before
           ++ [user_request host url key seller])).
Proof.
  intros Hu Hk Hm Hnet Hok Hparse Hrec.
  pose proof (manage_seller_list_run host pe ev url key profilesRes sellers
                Hu Hk Hm Hnet Hok Hparse) as E.
  assert (forall answers,
            answered host [profiles_request url key]
              (map (user_request host url key) sellers) answers ->
            run (manage_seller host pe ev)
            = (Ok (Reply.make 200 None
                     (stringify host (VArr (joined sellers answers)))),
               profiles_request url key
               :: map (user_request host url key) sellers)) as Hall.
  { intros answers Hans. rewrite E.
    rewrite (list_sellers_spec host url key sellers answers _ [] Hrec Hans).
    reflexivity. }
  split; [exact Hall |]. split.
  - intros ->. exact (Hall [] (answered_nil host _)).
  - intros before seller rest answers -> Hans Hnone.
    apply Forall_app in Hrec as [Hbefore Hlater].
    inversion Hlater as [| ? ? Hs _]; subst.
    rewrite E.
    rewrite (list_sellers_stops host url key before seller rest answers
               [profiles_request url key] [] Hbefore Hs Hans Hnone).
    reflexivity.
Qed.

(** ** The insight generator *)

(** C7: an OPTIONS request to the insight generator is answered with
    status 200, the CORS headers and an empty body, whatever the
    environment and the request body hold, and no request goes out. *)
Theorem insight_preflight host pe ev :
  Event.httpMethod ev = "OPTIONS" ->
  run (generate_insight host pe ev)
  = (Ok (Reply.make 200 (Some cors_headers) EmptyString), []).
Proof.
  intros H. unfold run, generate_insight. rewrite H. reflexivity.
Qed.

Lemma generate_insight_returns host pe ev :
  exists r tr,
    run (generate_insight host pe ev) = (Ok r, tr)
    /\ Reply.headers r = Some cors_headers.
Proof.
  unfold run, generate_insight.
  destruct (String.eqb (Event.httpMethod ev) "OPTIONS").
  - eexists _, _. split; reflexivity.
  - match goal with
    | |- context [try_catch ?m (fun e => ret (@?h e))] =>
        apply (try_catch_total m h
                 (fun r => Reply.headers r = Some cors_headers) [])
    end.
    + repeat (apply ensures_bind; intros).
      apply ensures_if.
      * auto with ensures.
      * repeat (apply ensures_bind; intros). auto with ensures.
    + reflexivity.
Qed.

(** C10: the insight generator always answers, and every answer, from
    whichever branch (preflight, canned, live, relayed upstream failure,
    caught exception), carries the one permissive CORS header set, with
    [Access-Control-Allow-Origin] set to the star. *)
Theorem insight_always_cors host pe ev :
  exists r tr,
    run (generate_insight host pe ev) = (Ok r, tr)
    /\ Reply.headers r = Some cors_headers
    /\ In ("Access-Control-Allow-Origin", "*") cors_headers.
Proof.
  destruct (generate_insight_returns host pe ev) as (r & tr & E & Hr).
  exists r, tr. split; [exact E | split; [exact Hr |]].
  simpl. auto.
Qed.

Lemma mock_analysis_ok host name category description salesSummary :
  printable host name -> printable host category ->
  printable host description -> printable host salesSummary ->
  exists analysis,
    mock_analysis host name category description salesSummary = Ok analysis.
Proof.
  intros H1 H2 H3 H4.
  apply (printable_or_else _ _ "Producto") in H1 as [s1 E1].
  apply (printable_or_else _ _ "N/D") in H2 as [s2 E2].
  apply (printable_or_else _ _ "Descripción no provista") in H3 as [s3 E3].
  apply (printable_or_else _ _ "N/D") in H4 as [s4 E4].
  unfold mock_analysis, template. rewrite E1, E2, E3, E4.
  simpl. eexists. reflexivity.
Qed.

Lemma insight_silent_without_key host pe ev :
  unconfigured pe "GEMINI_API_KEY" -> silent (generate_insight host pe ev).
Proof.
  intros H. apply env_unconfigured in H.
  unfold generate_insight. rewrite H. cbn [negb].
  auto 20 with silent.
Qed.

(** C1, as the code has it: without an API key the insight generator
    never makes an outbound call, whatever the request.  A request other
    than OPTIONS is answered 200 with mode "mock" when its body is absent
    or empty, or is JSON other than null, and the name, category,
    description and sales summary it gives can be printed; when the body
    is not JSON the answer is the 500 of the catch-all. *)
Theorem insight_without_key host pe ev :
  unconfigured pe "GEMINI_API_KEY" ->
  (exists r, run (generate_insight host pe ev) = (Ok r, []))
  /\ (Event.httpMethod ev <> "OPTIONS" ->
      forall parsed,
        JSON_parse (body_or ev "{}") = Ok parsed ->
        is_nullish parsed = false ->
        printable host (GetOpt parsed "name") ->
        printable host (GetOpt parsed "category") ->
        printable host (GetOpt parsed "description") ->
        printable host (GetOpt parsed "salesSummary") ->
        exists analysis,
          mock_analysis host (GetOpt parsed "name") (GetOpt parsed "category")
            (GetOpt parsed "description") (GetOpt parsed "salesSummary")
          = Ok analysis
          /\ run (generate_insight host pe ev)
             = (Ok (Reply.make 200 (Some cors_headers)
                      (stringify host (VObj [("analysis", VStr analysis);
                                             ("mode", VStr "mock")]))),
                []))
  /\ (Event.httpMethod ev <> "OPTIONS" ->
      forall e,
        JSON_parse (body_or ev "{}") = Throw e ->
        run (generate_insight host pe ev)
        = (Ok (Reply.make 500 (Some cors_headers)
                 (stringify host (VObj [("error", VStr (message host e))]))),
           [])).
Proof.
  intros Hkey. split; [| split].
  - destruct (generate_insight_returns host pe ev) as (r & tr & E & _).
    pose proof (insight_silent_without_key host pe ev Hkey []) as S.
    unfold run in *. rewrite E in S. simpl in S. subst tr.
    exists r. exact E.
  - intros Hm parsed Hp Hn P1 P2 P3 P4.
    destruct (mock_analysis_ok host _ _ _ _ P1 P2 P3 P4) as [analysis Ha].
    exists analysis. split; [exact Ha |].
    apply env_unconfigured in Hkey.
    apply String.eqb_neq in Hm.
    unfold run, generate_insight, try_catch, bind, lift.
    rewrite Hm, Hp, !(Get_not_nullish _ _ Hn), Hkey, Ha. reflexivity.
  - intros Hm e He.
    apply String.eqb_neq in Hm.
    unfold run, generate_insight, try_catch, bind, lift.
    rewrite Hm, He. reflexivity.
Qed.

(** * The statements at work on the sample deployment *)

(** ** The runtime *)

Example parse_registration :
  JSON_parse (Text.lit "{'email':'a@b.com','password':'x12345'}")
  = Ok (VObj [("email", VStr "a@b.com"); ("password", VStr "x12345")]).
Proof. reflexivity. Qed.

Example parse_rejects_open_brace : JSON_parse "{" = Throw (SyntaxError "{").
Proof. reflexivity. Qed.

Example parse_rejects_trailing_comma :
  JSON_parse "[1,]" = Throw (SyntaxError "[1,]").
Proof. reflexivity. Qed.

Example parse_null : JSON_parse "null" = Ok VNull.
Proof. reflexivity. Qed.

Example parse_nested :
  JSON_parse (Text.lit " [ {'a': [true, null, -2.5e3]}, 'x' ] ")
  = Ok (VArr [VObj [("a", VArr [VBool true; VNull; VNum (Num (-25) 2)])];
              VStr "x"]).
Proof. reflexivity. Qed.

Example parse_last_duplicate_wins :
  JSON_parse (Text.lit "{'b':1,'0':2,'b':3}")
  = Ok (VObj [("0", VNum (Num 2 0)); ("b", VNum (Num 3 0))]).
Proof. reflexivity. Qed.

Example underflow_is_falsy : ToBoolean (VNum (Num 1 (-400))) = false.
Proof. reflexivity. Qed.

Example encode_email :
  encodeURIComponent Sample.render (VStr "a+b@c.com") = Ok "a%2Bb%40c.com".
Proof. reflexivity. Qed.

Example encode_lone_surrogate :
  rbind (JSON_parse (Text.lit "'\ud800'"))
    (encodeURIComponent Sample.render) = Throw URIError.
Proof. reflexivity. Qed.

Example print_array :
  ToString Sample.render (VArr [VNum (Num 1 0); VNull; VArr [VStr "x"; VBool true]])
  = Ok "1,,x,true".
Proof. reflexivity. Qed.

Example print_object_with_own_toString :
  ToString Sample.render (VObj [("toString", VNum (Num 1 0))])
  = Throw TypeError_primitive.
Proof. reflexivity. Qed.

Example stringify_drops_undefined :
  JSON_stringify Sample.render
    (VObj [("id", VStr "u1"); ("email", VUndef); ("n", VNum (Num 12 0))])
  = Text.lit "{'id':'u1','n':12}".
Proof. reflexivity. Qed.

(** ** create-seller at work *)

(** The body null holds neither email nor password, and is answered 500,
    not 400. *)
Lemma create_seller_null_body_is_500 :
  JSON_parse (body_or (Sample.post "null") "{}") = Ok VNull
  /\ ToBoolean (GetOpt VNull "email") = false
  /\ exists r,
       run (create_seller Sample.offline Sample.backend (Sample.post "null"))
       = (Ok r, [])
       /\ Reply.statusCode r = 500.
Proof.
  split; [reflexivity |]. split; [reflexivity |].
  eexists. split; reflexivity.
Qed.

Lemma create_seller_missing_fields_witness :
  ToBoolean (GetOpt (VObj [("email", VStr "a@b.com");
                           ("password", VStr EmptyString)]) "password")
  = false
  /\ run (create_seller Sample.offline Sample.backend
            (Sample.post "{'email':'a@b.com','password':''}"))
     = (Ok (Reply.make 400 None
              (Text.lit "{'error':'Email y contraseña son obligatorios'}")),
        []).
Proof.
  split; [reflexivity |].
  apply (create_seller_missing_fields Sample.offline Sample.backend
           (Sample.post "{'email':'a@b.com','password':''}")
           (VObj [("email", VStr "a@b.com"); ("password", VStr EmptyString)])).
  - reflexivity.
  - reflexivity.
  - right. reflexivity.
Defined.

Lemma create_seller_malformed_body_witness :
  run (create_seller Sample.offline Sample.backend
         (Sample.post "{'email':'a@b.com',"))
  = (Ok (Reply.make 500 None
           (Text.lit "{'error':'Unexpected end of JSON input'}")),
     []).
Proof.
  destruct (create_seller_malformed_body Sample.offline Sample.backend
              (Sample.post "{'email':'a@b.com',")
              (Text.lit "{'email':'a@b.com',")
              (SyntaxError (Text.lit "{'email':'a@b.com',")))
    as [E _].
  - reflexivity.
  - reflexivity.
  - discriminate.
  - reflexivity.
  - rewrite E. reflexivity.
Defined.

(** With no backend configured, a complete registration is answered 500,
    which is not a client error. *)
Lemma create_seller_unconfigured_is_500 :
  unconfigured Sample.no_env "SUPABASE_URL"
  /\ run (create_seller Sample.offline Sample.no_env Sample.registration)
     = (Ok (Reply.make 500 None
              (Text.lit "{'error':'Variables de entorno faltantes'}")),
        [])
  /\ ~ (400 <= 500 <= 499).
Proof. split; [left; reflexivity | split; [reflexivity | lia]]. Qed.

Lemma create_seller_unconfigured_witness :
  unconfigured Sample.half_backend "SUPABASE_SERVICE_ROLE_KEY"
  /\ run (create_seller Sample.offline Sample.half_backend Sample.registration)
     = (Ok (Reply.make 500 None
              (Text.lit "{'error':'Variables de entorno faltantes'}")),
        []).
Proof.
  assert (unconfigured Sample.half_backend "SUPABASE_SERVICE_ROLE_KEY") as H
    by (left; reflexivity).
  split; [exact H |].
  apply (create_seller_unconfigured Sample.offline Sample.half_backend
           Sample.registration
           (VObj [("email", VStr "a@b.com"); ("password", VStr "x12345")])
           (VStr "a@b.com") (VStr "x12345")).
  - reflexivity.
  - reflexivity.
  - split; reflexivity.
  - split; reflexivity.
  - right. exact H.
Defined.

(** The account exists and the lookup finds nobody: creation, lookup, 422,
    and no upsert. *)
Lemma create_seller_lookup_witness :
  map Fetch.url
    (snd (run (create_seller Sample.conflict Sample.backend Sample.registration)))
  = ["https://demo.supabase.co/auth/v1/admin/users";
     "https://demo.supabase.co/auth/v1/admin/users?email=a%40b.com"]
  /\ fst (run (create_seller Sample.conflict Sample.backend Sample.registration))
     = Ok (Reply.make 422 None
             (Text.lit "{'error':'No se pudo obtener ID de usuario'}")).
Proof.
  pose proof (create_seller_lookup Sample.conflict Sample.backend
                Sample.registration
                (VObj [("email", VStr "a@b.com"); ("password", VStr "x12345")])
                (VStr "a@b.com") (VStr "x12345")
                Sample.base Sample.service_key
                (Fetch.response 422
                   (Text.lit "{'code':422,'msg':'User already registered'}")))
    as H.
  destruct H as [_ H].
  - reflexivity.
  - reflexivity.
  - split; reflexivity.
  - split; reflexivity.
  - split; [reflexivity | discriminate].
  - split; [reflexivity | discriminate].
  - reflexivity.
  - left. reflexivity.
  - rewrite (H eq_refl). split; reflexivity.
Defined.

(** During an outage nothing the backend says is JSON: the creation
    yields no identifier, the lookup yields none either, and the answer
    is 500, not 422. *)
Lemma create_seller_lookup_unreadable_is_500 :
  created_id (Fetch.response 503 "Service Unavailable") = VNull
  /\ map Fetch.url
       (snd (run (create_seller Demo.outage Sample.backend Sample.registration)))
     = ["https://demo.supabase.co/auth/v1/admin/users";
        "https://demo.supabase.co/auth/v1/admin/users?email=a%40b.com"]
  /\ exists r,
       fst (run (create_seller Demo.outage Sample.backend Sample.registration))
       = Ok r
       /\ Reply.statusCode r = 500.
Proof.
  split; [reflexivity |]. split; [reflexivity |].
  eexists. split; reflexivity.
Qed.

(** ** manage-seller at work *)

Lemma manage_seller_unconfigured_witness :
  unconfigured Sample.half_backend "SUPABASE_SERVICE_ROLE_KEY"
  /\ run (manage_seller Sample.offline Sample.half_backend
            (Event.make "TRACE" None None))
     = (Ok (Reply.make 500 None
              (Text.lit "{'message':'Faltan variables de entorno SUPABASE_URL o SERVICE_ROLE_KEY'}")),
        []).
Proof.
  assert (unconfigured Sample.half_backend "SUPABASE_SERVICE_ROLE_KEY") as H
    by (left; reflexivity).
  split; [exact H |].
  apply (manage_seller_unconfigured Sample.offline Sample.half_backend).
  right. exact H.
Defined.

Lemma manage_seller_delete_without_id_witness :
  run (manage_seller Sample.offline Sample.backend
         (Event.make "DELETE" None (Some (<["page" := "2"]> empty))))
  = (Ok (Reply.make 400 None
           (Text.lit "{'message':'id es obligatorio para eliminar'}")),
     []).
Proof.
  apply (manage_seller_delete_without_id Sample.offline Sample.backend
           (Event.make "DELETE" None (Some (<["page" := "2"]> empty)))
           Sample.base Sample.service_key).
  - split; [reflexivity | discriminate].
  - split; [reflexivity | discriminate].
  - reflexivity.
  - left. reflexivity.
Defined.

(** Three sellers, the second without an account: two pairs come back,
    in order, after four requests. *)
Lemma manage_seller_list_witness :
  fst (run (manage_seller Sample.listing Sample.backend
              (Event.make "GET" None None)))
  = Ok (Reply.make 200 None
          (Text.lit "[{'id':'u1','email':'ana@example.com'},{'id':'u3','email':'luis@example.com'}]"))
  /\ map Fetch.url
       (snd (run (manage_seller Sample.listing Sample.backend
                    (Event.make "GET" None None))))
     = ["https://demo.supabase.co/rest/v1/profiles?role=eq.seller&select=id";
        "https://demo.supabase.co/auth/v1/admin/users/u1";
        "https://demo.supabase.co/auth/v1/admin/users/u2";
        "https://demo.supabase.co/auth/v1/admin/users/u3"].
Proof.
  destruct (manage_seller_list Sample.listing Sample.backend
              (Event.make "GET" None None)
              Sample.base Sample.service_key
              (Fetch.response 200 (Text.lit "[{'id':'u1'},{'id':'u2'},{'id':'u3'}]"))
              [Sample.seller "u1"; Sample.seller "u2"; Sample.seller "u3"])
    as [E _].
  - split; [reflexivity | discriminate].
  - split; [reflexivity | discriminate].
  - reflexivity.
  - reflexivity.
  - reflexivity.
  - reflexivity.
  - repeat constructor; eexists; reflexivity.
  - rewrite (E [Fetch.response 200 (Text.lit "{'id':'u1','email':'ana@example.com'}");
               Fetch.response 404 (Text.lit "{'code':404,'msg':'User not found'}");
               Fetch.response 200 (Text.lit "{'id':'u3','email':'luis@example.com'}")]).
    + split; reflexivity.
    + repeat (apply answered_cons; [reflexivity |]). apply answered_nil.
Defined.

(** The lookup of the second of three sellers gets no response: the
    handler throws after it, and the pair of the first is lost. *)
Lemma manage_seller_list_unanswered_throws :
  run (manage_seller Demo.cut_off Sample.backend (Event.make "GET" None None))
  = (Throw TypeError_fetch,
     [profiles_request Sample.base Sample.service_key;
      user_request Demo.cut_off Sample.base Sample.service_key (Sample.seller "u1");
      user_request Demo.cut_off Sample.base Sample.service_key (Sample.seller "u2")]).
Proof. reflexivity. Qed.


(** ** The insight generator at work *)

Lemma insight_preflight_witness :
  run (generate_insight Sample.offline Sample.no_env
         (Event.make "OPTIONS" (Some "{") None))
  = (Ok (Reply.make 200 (Some cors_headers) EmptyString), []).
Proof. apply (insight_preflight Sample.offline Sample.no_env). reflexivity. Defined.

(** Without a key, a body that is not JSON is answered 500, not mock. *)
Lemma insight_malformed_body_is_500 :
  unconfigured Sample.no_env "GEMINI_API_KEY"
  /\ run (generate_insight Sample.offline Sample.no_env (Sample.post "{"))
     = (Ok (Reply.make 500 (Some cors_headers)
              (Text.lit "{'error':'Unexpected end of JSON input'}")),
        []).
Proof. split; [left |]; reflexivity. Qed.

(** Without a key, a request with no body gets the canned analysis. *)
Lemma insight_without_key_witness :
  unconfigured Sample.no_env "GEMINI_API_KEY"
  /\ run (generate_insight Sample.offline Sample.no_env
            (Event.make "POST" None None))
     = (Ok (Reply.make 200 (Some cors_headers)
              (Text.lit "{'analysis':'Resumen (MOCK) para \'Producto\' (N/D):\n- Descripción no provista\n- Ventas del día: N/D\nSugerencia: Optimiza títulos e imágenes para mejorar conversión.','mode':'mock'}")),
        []).
Proof.
  assert (unconfigured Sample.no_env "GEMINI_API_KEY") as Hkey
    by (left; reflexivity).
  split; [exact Hkey |].
  destruct (insight_without_key Sample.offline Sample.no_env
              (Event.make "POST" None None) Hkey) as (_ & Hmock & _).
  destruct Hmock with (parsed := obj0) as (analysis & Ha & E).
  - discriminate.
  - reflexivity.
  - reflexivity.
  - eexists; reflexivity.
  - eexists; reflexivity.
  - eexists; reflexivity.
  - eexists; reflexivity.
  - injection Ha as <-. exact E.
Defined.

(** * Further properties of the handlers *)

(** ** Reading a run backwards *)

Lemma bind_Ok {A B} (m : M A) (k : A -> M B) tr b tr' :
  bind m k tr = (Ok b, tr') ->
  exists a tr1, m tr = (Ok a, tr1) /\ k a tr1 = (Ok b, tr').
Proof.
  unfold bind. destruct (m tr) as [[a | e] tr1]; [eauto | discriminate].
Qed.

Lemma lift_Ok {A} (r : Result A) tr a tr' :
  lift r tr = (Ok a, tr') -> r = Ok a /\ tr' = tr.
Proof. unfold lift. intros H. inversion H. auto. Qed.

Lemma ret_Ok {A} (a b : A) tr tr' :
  ret a tr = (Ok b, tr') -> b = a /\ tr' = tr.
Proof. unfold ret. intros H. inversion H. auto. Qed.

Lemma fetch_Ok host req tr res tr' :
  fetch host req tr = (Ok res, tr') ->
  network host tr req = Some res /\ tr' = tr ++ [req].
Proof.
  unfold fetch. destruct (network host tr req); intros H; inversion H. auto.
Qed.

Lemma env_truthy pe name :
  ToBoolean (env pe name) = true ->
  exists s, configured pe name s /\ env pe name = VStr s.
Proof.
  unfold env, configured. destruct (pe !! name) as [s |]; simpl; [| discriminate].
  intros H. exists s. repeat split.
  intros ->. discriminate.
Qed.

Tactic Notation "bind_step" hyp(H) "as" ident(a) ident(t) ident(E) :=
  apply bind_Ok in H as (a & t & E & H).

(** A template over strings: the step computes the text. *)
Tactic Notation "template_step" hyp(H) :=
  let a := fresh "a" in let t := fresh "t" in let E := fresh "E" in
  apply bind_Ok in H as (a & t & E & H);
  apply lift_Ok in E as [E ->];
  cbn [template rbind ToString] in E; rewrite ?append_empty_r in E;
  injection E as <-.

Lemma ensures_seq {A B} (m : M A) (k : A -> M B) (P : A -> Prop)
  (Q : B -> Prop) :
  ensures m P -> (forall a, P a -> ensures (k a) Q) -> ensures (bind m k) Q.
Proof.
  intros Hm Hk tr b tr'. unfold bind.
  destruct (m tr) as [[a | e] tr1] eqn:E; [| discriminate].
  apply (Hk a (Hm _ _ _ E)).
Qed.

(** ** Counting requests *)

Lemma attempts_ret {A} (a : A) : attempts 0 (ret a).
Proof. intros tr. exists []. simpl. rewrite app_nil_r. split; [reflexivity | lia]. Qed.

Lemma attempts_lift {A} (r : Result A) : attempts 0 (lift r).
Proof. intros tr. exists []. simpl. rewrite app_nil_r. split; [reflexivity | lia]. Qed.

Lemma attempts_fetch host req : attempts 1 (fetch host req).
Proof.
  intros tr. exists [req]. unfold fetch.
  destruct (network host tr req); simpl; split; (reflexivity || lia).
Qed.

Lemma attempts_bind {A B} n k (m : M A) (f : A -> M B) :
  attempts n m -> (forall a, attempts k (f a)) -> attempts (n + k) (bind m f).
Proof.
  intros Hm Hf tr. unfold bind. destruct (Hm tr) as (more & E & L).
  destruct (m tr) as [[a | e] tr1]; simpl in E; subst tr1.
  - destruct (Hf a (tr ++ more)) as (more' & E' & L').
    exists (more ++ more'). rewrite E', app_assoc, length_app.
    split; [reflexivity | lia].
  - exists more. split; [reflexivity | lia].
Qed.

Lemma attempts_try_catch {A} n k (m : M A) (h : exn -> M A) :
  attempts n m -> (forall e, attempts k (h e)) ->
  attempts (n + k) (try_catch m h).
Proof.
  intros Hm Hh tr. unfold try_catch. destruct (Hm tr) as (more & E & L).
  destruct (m tr) as [[a | e] tr1]; simpl in E; subst tr1.
  - exists more. split; [reflexivity | lia].
  - destruct (Hh e (tr ++ more)) as (more' & E' & L').
    exists (more ++ more'). rewrite E', app_assoc, length_app.
    split; [reflexivity | lia].
Qed.

Lemma attempts_weaken {A} n n' (m : M A) :
  (n <= n')%nat -> attempts n m -> attempts n' m.
Proof.
  intros Hn Hm tr. destruct (Hm tr) as (more & E & L).
  exists more. split; [exact E | lia].
Qed.

Lemma attempts_if {A} n (c : bool) (m1 m2 : M A) :
  attempts n m1 -> attempts n m2 -> attempts n (if c then m1 else m2).
Proof. destruct c; auto. Qed.

(** Proves [attempts n m] for a stated [n], spending the budget where the
    requests are. *)
Ltac spend :=
  lazymatch goal with
  | |- attempts _ (ret _) => apply (attempts_weaken 0); [lia | apply attempts_ret]
  | |- attempts _ (lift _) => apply (attempts_weaken 0); [lia | apply attempts_lift]
  | |- attempts _ (fetch _ _) => apply (attempts_weaken 1); [lia | apply attempts_fetch]
  | |- attempts _ (if _ then _ else _) => apply attempts_if; spend
  | |- attempts _ (match ?x with inl _ => _ | inr _ => _ end) => destruct x; spend
  | |- attempts ?n (bind (fetch _ _) _) =>
      apply (attempts_weaken (1 + (n - 1))); [lia |];
      apply attempts_bind; [apply attempts_fetch | intros; spend]
  | |- attempts ?n (bind (lift _) _) =>
      apply (attempts_weaken (0 + n)); [lia |];
      apply attempts_bind; [apply attempts_lift | intros; spend]
  | |- attempts ?n (bind (try_catch (lift _) _) _) =>
      apply (attempts_weaken (0 + n)); [lia |];
      apply attempts_bind;
      [apply (attempts_try_catch 0 0); [apply attempts_lift | intros; apply attempts_ret]
      | intros; spend]
  end.

(** ** create-seller, beyond the contract *)

(** X1: create-seller answers every request, whatever the backend does:
    405 to a method other than POST, and to a POST one of 200, 400, 422
    and 500; no exception leaves the handler. *)
Theorem create_seller_always_answers host pe ev :
  exists r tr,
    run (create_seller host pe ev) = (Ok r, tr)
    /\ if String.eqb (Event.httpMethod ev) "POST"
       then In (Reply.statusCode r) [200; 400; 422; 500]
       else Reply.statusCode r = 405.
Proof.
  unfold run, create_seller.
  destruct (String.eqb (Event.httpMethod ev) "POST"); cbn [negb].
  2: { eexists _, _. split; reflexivity. }
  match goal with
  | |- context [try_catch ?m (fun e => ret (@?h e))] =>
      apply (try_catch_total m h
               (fun r => In (Reply.statusCode r) [200; 400; 422; 500]) [])
  end.
  2: { intros e. simpl. auto 6. }
  do 3 (apply ensures_bind; intros).
  apply ensures_if; [apply ensures_ret; simpl; auto |]. cbv zeta.
  apply ensures_if; [apply ensures_ret; simpl; auto 6 |].
  do 4 (apply ensures_bind; intros).
  apply (ensures_seq _ _
           (fun res => match res with
                       | inl early => Reply.statusCode early = 422
                       | inr _ => True
                       end)).
  - apply ensures_if.
    + do 5 (apply ensures_bind; intros).
      apply ensures_if; apply ensures_ret; [reflexivity | exact I].
    + apply ensures_ret. exact I.
  - intros [early | userId] Hres.
    + apply ensures_ret. rewrite Hres. simpl. auto 6.
    + do 3 (apply ensures_bind; intros).
      apply ensures_if; apply ensures_ret; simpl; auto 6.
Qed.

(** X2: whatever the request and whatever the backend answers,
    create-seller attempts at most three requests. *)
Theorem create_seller_at_most_three host pe ev :
  (length (snd (run (create_seller host pe ev))) <= 3)%nat.
Proof.
  assert (attempts 3 (create_seller host pe ev)) as H.
  { unfold create_seller. apply attempts_if; [spend |].
    apply (attempts_try_catch 3 0); [| intros; apply attempts_ret].
    do 3 (apply (attempts_weaken (0 + 3)); [lia |];
          apply attempts_bind; [apply attempts_lift | intros]).
    apply attempts_if; [spend |]. cbv zeta.
    apply attempts_if; [spend |].
    do 2 (apply (attempts_weaken (0 + 3)); [lia |];
          apply attempts_bind; [apply attempts_lift | intros]).
    apply (attempts_bind 1 2); [apply attempts_fetch | intros createRes].
    apply (attempts_bind 0 2).
    { apply (attempts_try_catch 0 0);
        [apply attempts_lift | intros; apply attempts_ret]. }
    intros createJson. cbv zeta.
    apply (attempts_bind 1 1); [apply attempts_if; spend | intros resolved].
    spend. }
  destruct (H []) as (more & E & L). unfold run. rewrite E. exact L.
Qed.

(** X3: a 200 from create-seller means that the profile upsert was made
    and answered with a success status: the last request of the run is
    the upsert of the identifier the reply reports, after the creation
    and, at most, the lookup. *)
Theorem create_seller_success host pe ev r tr :
  run (create_seller host pe ev) = (Ok r, tr) ->
  Reply.statusCode r = 200 ->
  exists url key email password userId hist res,
    configured pe "SUPABASE_URL" url
    /\ configured pe "SUPABASE_SERVICE_ROLE_KEY" key
    /\ (hist = [create_request host url key email password]
        \/ exists encoded,
             hist = [create_request host url key email password;
                     lookup_request url key encoded])
    /\ ToBoolean userId = true
    /\ tr = hist ++ [upsert_request host url key userId]
    /\ network host hist (upsert_request host url key userId) = Some res
    /\ Fetch.ok res = true
    /\ r = Reply.make 200 None
             (stringify host (VObj [("message", VStr "Vendedor creado");
                                    ("userId", userId)])).
Proof.
  unfold run, create_seller. intros H Hs.
  destruct (negb (String.eqb (Event.httpMethod ev) "POST")).
  { apply ret_Ok in H as [-> _]. discriminate. }
  unfold try_catch in H.
  match type of H with
  | (let (_, _) := ?m [] in _) = _ => destruct (m []) as [[r0 | e] tr0] eqn:B
  end.
  2: { apply ret_Ok in H as [-> _]. discriminate. }
  inversion H; subst r0 tr0; clear H.
  bind_step B as parsed t0 E. apply lift_Ok in E as [Hp ->].
  bind_step B as email t0 E. apply lift_Ok in E as [He ->].
  bind_step B as password t0 E. apply lift_Ok in E as [Hw ->].
  destruct (negb (ToBoolean email) || negb (ToBoolean password)) eqn:Hf.
  { apply ret_Ok in B as [-> _]. discriminate. }
  cbv zeta in B.
  destruct (negb (ToBoolean (env pe "SUPABASE_URL"))
            || negb (ToBoolean (env pe "SUPABASE_SERVICE_ROLE_KEY"))) eqn:Hc.
  { apply ret_Ok in B as [-> _]. discriminate. }
  apply orb_false_elim in Hc as [Hu Hk].
  apply negb_false_iff in Hu, Hk.
  apply env_truthy in Hu as (url & Cu & Eu), Hk as (key & Ck & Ek).
  rewrite Eu, Ek in B.
  template_step B. template_step B.
  bind_step B as createRes t0 E. apply fetch_Ok in E as [Hcreate ->].
  bind_step B as createJson t0 E. cbv beta in E. unfold lift, ret in E.
  assert (createJson
          = match Fetch.json createRes with Ok x => x | Throw _ => obj0 end
          /\ t0 = [create_request host url key email password]) as [-> ->].
  { destruct (Fetch.json createRes); inversion E; subst; split; reflexivity. }
  clear E. fold (created_id createRes) in B.
  bind_step B as resolved hist E.
  assert ((exists userId,
             resolved = inr userId /\ ToBoolean userId = true
             /\ (hist = [create_request host url key email password]
                 \/ exists encoded,
                      hist = [create_request host url key email password;
                              lookup_request url key encoded]))
          \/ exists early, resolved = inl early /\ Reply.statusCode early = 422)
    as Hres.
  { destruct ((Fetch.status createRes =? 422)
              || negb (ToBoolean (created_id createRes))) eqn:Hlook.
    - bind_step E as encoded t0 E0. apply lift_Ok in E0 as [Henc ->].
      template_step E. template_step E.
      bind_step E as lookupRes t0 E0. apply fetch_Ok in E0 as [Hlookup ->].
      bind_step E as lookupJson t0 E0. apply lift_Ok in E0 as [Hj ->].
      fold (found_id lookupJson) in E.
      destruct (negb (ToBoolean (found_id lookupJson))) eqn:Hfound;
        apply ret_Ok in E as [-> ->].
      + right. eexists. split; reflexivity.
      + left. exists (found_id lookupJson). repeat split.
        * now apply negb_false_iff in Hfound.
        * right. exists encoded. reflexivity.
    - apply ret_Ok in E as [-> ->].
      apply orb_false_elim in Hlook as [_ Hid].
      left. exists (created_id createRes). repeat split.
      + now apply negb_false_iff in Hid.
      + left. reflexivity. }
  clear E.
  destruct Hres as [(userId & -> & Hid & Hhist) | (early & -> & H422)].
  2: { apply ret_Ok in B as [-> _]. rewrite H422 in Hs. discriminate. }
  template_step B. template_step B.
  bind_step B as upsertRes t0 E. apply fetch_Ok in E as [Hupsert ->].
  destruct (negb (Fetch.ok upsertRes)) eqn:Hok; apply ret_Ok in B as [-> ->].
  { discriminate. }
  exists url, key, email, password, userId, hist, upsertRes.
  split; [exact Cu |]. split; [exact Ck |]. split; [exact Hhist |].
  split; [exact Hid |]. split; [reflexivity |]. split; [exact Hupsert |].
  split; [now apply negb_false_iff in Hok | reflexivity].
Qed.

(** X4: a creation answered with an identifier and a status other than
    422 goes straight to the upsert of that identifier, without lookup.
    The reply is 200 with the identifier when the upsert is answered
    with a success, 500 with the upstream text as detail when it is
    answered with a failure, and the 500 of the catch-all when it gets
    no response. *)
Theorem create_seller_new_account host pe ev parsed email password url key
  createRes :
  Event.httpMethod ev = "POST" ->
  JSON_parse (body_or ev "{}") = Ok parsed ->
  carries parsed "email" email ->
  carries parsed "password" password ->
  configured pe "SUPABASE_URL" url ->
  configured pe "SUPABASE_SERVICE_ROLE_KEY" key ->
  network host [] (create_request host url key email password) = Some createRes ->
  Fetch.status createRes <> 422 ->
  ToBoolean (created_id createRes) = true ->
  run (create_seller host pe ev)
  = (Ok match network host [create_request host url key email password]
                (upsert_request host url key (created_id createRes)) with
        | Some upsertRes => upsert_reply host (created_id createRes) upsertRes
        | None =>
            Reply.make 500 None
              (stringify host
                 (VObj [("error", VStr (message host TypeError_fetch))]))
        end,
     [create_request host url key email password;
      upsert_request host url key (created_id createRes)]).
Proof.
  intros Hm Hp [He Te] [Hw Tw] Hu Hk Hc Hs Hid.
  apply env_configured in Hu as [Eu Tu]. apply env_configured in Hk as [Ek Tk].
  apply Z.eqb_neq in Hs.
  unfold created_id in Hid. unfold create_request in Hc.
  unfold run, create_seller, try_catch, bind, lift, fetch, ret.
  rewrite Hm, Hp, He, Hw, Te, Tw, Tu, Tk, Eu, Ek.
  cbn [String.eqb Ascii.eqb Bool.eqb negb orb template rbind ToString].
  rewrite !append_empty_r, Hc.
  unfold create_request, upsert_request, upsert_reply, created_id.
  destruct (Fetch.json createRes) as [createJson | ?];
    cbv iota in Hid |- *; rewrite Hs, Hid; cbn [negb orb app];
    match goal with
    | |- context [match network ?h ?t ?r with _ => _ end] =>
        destruct (network h t r) as [upsertRes |]
    end; [destruct (Fetch.ok upsertRes) | | destruct (Fetch.ok upsertRes) |];
    reflexivity.
Qed.

(** X5: when the creation is a conflict or brings no identifier and the
    lookup finds one, the identifier of the lookup is the one upserted
    and reported, whatever the creation response held.  The reply is
    200 when the upsert is answered with a success, 500 with the
    upstream text as detail when it is answered with a failure, and the
    500 of the catch-all when it gets no response. *)
Theorem create_seller_existing_account host pe ev parsed email password url key
  createRes encoded lookupRes lookupJson :
  Event.httpMethod ev = "POST" ->
  JSON_parse (body_or ev "{}") = Ok parsed ->
  carries parsed "email" email ->
  carries parsed "password" password ->
  configured pe "SUPABASE_URL" url ->
  configured pe "SUPABASE_SERVICE_ROLE_KEY" key ->
  network host [] (create_request host url key email password) = Some createRes ->
  Fetch.status createRes = 422 \/ ToBoolean (created_id createRes) = false ->
  encodeURIComponent (Number_toString host) email = Ok encoded ->
  network host [create_request host url key email password]
    (lookup_request url key encoded) = Some lookupRes ->
  Fetch.json lookupRes = Ok lookupJson ->
  ToBoolean (found_id lookupJson) = true ->
  run (create_seller host pe ev)
  = (Ok match network host [create_request host url key email password;
                             lookup_request url key encoded]
                (upsert_request host url key (found_id lookupJson)) with
        | Some upsertRes => upsert_reply host (found_id lookupJson) upsertRes
        | None =>
            Reply.make 500 None
              (stringify host
                 (VObj [("error", VStr (message host TypeError_fetch))]))
        end,
     [create_request host url key email password;
      lookup_request url key encoded;
      upsert_request host url key (found_id lookupJson)]).
Proof.
  intros Hm Hp He Hw Hu Hk Hc Hcond Henc Hl Hj Hf.
  unfold create_request, lookup_request, found_id in Hl, Hf.
  up_to_lookup.
  all: rewrite Hl, Hj, Hf; cbn [negb app]; rewrite ?append_empty_r;
    unfold upsert_reply, upsert_request, found_id;
    match goal with
    | |- context [match network ?h ?t ?r with _ => _ end] =>
        destruct (network h t r) as [upsertRes |]
    end; [destruct (Fetch.ok upsertRes) |]; reflexivity.
Qed.

(** X6: when the backend gives no response to the creation, the
    catch-all answers 500 with the message of the failure, after that
    one attempt; manage-seller, with no catch-all, answers nothing
    there. *)
Theorem create_seller_backend_unreachable host pe ev parsed email password
  url key :
  Event.httpMethod ev = "POST" ->
  JSON_parse (body_or ev "{}") = Ok parsed ->
  carries parsed "email" email ->
  carries parsed "password" password ->
  configured pe "SUPABASE_URL" url ->
  configured pe "SUPABASE_SERVICE_ROLE_KEY" key ->
  network host [] (create_request host url key email password) = None ->
  run (create_seller host pe ev)
  = (Ok (Reply.make 500 None
           (stringify host
              (VObj [("error", VStr (message host TypeError_fetch))]))),
     [create_request host url key email password]).
Proof.
  intros Hm Hp [He Te] [Hw Tw] Hu Hk Hc.
  apply env_configured in Hu as [Eu Tu]. apply env_configured in Hk as [Ek Tk].
  unfold create_request in Hc.
  unfold run, create_seller, try_catch, bind, lift, fetch, ret.
  rewrite Hm, Hp, He, Hw, Te, Tw, Tu, Tk, Eu, Ek.
  cbn [String.eqb Ascii.eqb Bool.eqb negb orb template rbind ToString].
  rewrite !append_empty_r, Hc. reflexivity.
Qed.

(** ** manage-seller, beyond the contract *)

(** X7: with the backend configured, a method other than GET, PUT, PATCH
    and DELETE is answered 405, and no request goes out. *)
Theorem manage_seller_method_not_allowed host pe ev url key :
  configured pe "SUPABASE_URL" url ->
  configured pe "SUPABASE_SERVICE_ROLE_KEY" key ->
  ~ In (Event.httpMethod ev) ["GET"; "PUT"; "PATCH"; "DELETE"] ->
  run (manage_seller host pe ev)
  = (Ok (Reply.make 405 None (Text.lit "{'message':'Método no permitido'}")),
     []).
Proof.
  intros Hu Hk Hm. unfold run, manage_seller.
  apply env_configured in Hu as [_ ->]. apply env_configured in Hk as [_ ->].
  destruct (String.eqb_spec (Event.httpMethod ev) "GET") as [E | _];
    [exfalso; apply Hm; rewrite E; simpl; auto 6 |].
  destruct (String.eqb_spec (Event.httpMethod ev) "PUT") as [E | _];
    [exfalso; apply Hm; rewrite E; simpl; auto 6 |].
  destruct (String.eqb_spec (Event.httpMethod ev) "PATCH") as [E | _];
    [exfalso; apply Hm; rewrite E; simpl; auto 6 |].
  destruct (String.eqb_spec (Event.httpMethod ev) "DELETE") as [E | _];
    [exfalso; apply Hm; rewrite E; simpl; auto 6 |].
  reflexivity.
Qed.

Lemma update_dispatch ev :
  is_update ev ->
  String.eqb (Event.httpMethod ev) "GET" = false
  /\ String.eqb (Event.httpMethod ev) "PUT"
     || String.eqb (Event.httpMethod ev) "PATCH" = true.
Proof. intros [-> | ->]; split; reflexivity. Qed.

Lemma update_body_run ev tr :
  try_catch
    (lift (JSON_parse (match Event.body ev with
                       | Some s => s
                       | None => "null"
                       end)))
    (fun _ => ret obj0) tr
  = (Ok (update_body ev), tr).
Proof.
  unfold try_catch, lift, ret, update_body.
  destruct (JSON_parse _); reflexivity.
Qed.

(** An update whose body is an object or a scalar and reads a falsy id
    or password is refused before any request. *)
Lemma update_refused host pe ev url key :
  configured pe "SUPABASE_URL" url ->
  configured pe "SUPABASE_SERVICE_ROLE_KEY" key ->
  is_update ev ->
  is_nullish (update_body ev) = false ->
  negb (ToBoolean (GetOpt (update_body ev) "id"))
  || negb (ToBoolean (GetOpt (update_body ev) "password")) = true ->
  run (manage_seller host pe ev)
  = (Ok (Reply.make 400 None
           (Text.lit "{'message':'id y password son obligatorios'}")),
     []).
Proof.
  intros Hu Hk Hm Hn Hf. unfold run, manage_seller.
  apply env_configured in Hu as [_ ->]. apply env_configured in Hk as [_ ->].
  apply update_dispatch in Hm as [-> ->]. cbn [negb orb].
  unfold bind at 1. rewrite update_body_run.
  unfold bind, lift. rewrite !(Get_not_nullish _ _ Hn), Hf. reflexivity.
Qed.

(** X8: an update, by PUT or by PATCH, whose body lacks the id or the
    password is answered 400, and no request goes out. *)
Theorem manage_seller_update_missing_fields host pe ev url key :
  configured pe "SUPABASE_URL" url ->
  configured pe "SUPABASE_SERVICE_ROLE_KEY" key ->
  is_update ev ->
  lacks (update_body ev) "id" \/ lacks (update_body ev) "password" ->
  run (manage_seller host pe ev)
  = (Ok (Reply.make 400 None
           (Text.lit "{'message':'id y password son obligatorios'}")),
     []).
Proof.
  intros Hu Hk Hm Hl.
  apply (update_refused host pe ev url key Hu Hk Hm).
  - destruct Hl as [H | H]; exact (lacks_not_nullish _ _ H).
  - destruct Hl as [H | H]; apply lacks_falsy in H; rewrite H.
    + reflexivity.
    + apply orb_true_r.
Qed.

(** X9: an update whose body is not JSON is not an error of its own: the
    body counts as the empty object, and the answer is the 400 of the
    missing fields, where create-seller answers 500. *)
Theorem manage_seller_update_malformed_body host pe ev url key text e :
  configured pe "SUPABASE_URL" url ->
  configured pe "SUPABASE_SERVICE_ROLE_KEY" key ->
  is_update ev ->
  Event.body ev = Some text ->
  JSON_parse text = Throw e ->
  run (manage_seller host pe ev)
  = (Ok (Reply.make 400 None
           (Text.lit "{'message':'id y password son obligatorios'}")),
     []).
Proof.
  intros Hu Hk Hm Hb He.
  assert (update_body ev = obj0) as Hv
    by (unfold update_body; rewrite Hb, He; reflexivity).
  apply (update_refused host pe ev url key Hu Hk Hm); rewrite Hv; reflexivity.
Qed.

(** X10: an update request with no body, or with the body null, is not
    answered at all: [JSON.parse] gives null, destructuring it throws,
    and manage-seller has no catch-all.  No request goes out. *)
Theorem manage_seller_update_null_body host pe ev url key :
  configured pe "SUPABASE_URL" url ->
  configured pe "SUPABASE_SERVICE_ROLE_KEY" key ->
  is_update ev ->
  Event.body ev = None \/ Event.body ev = Some "null" ->
  run (manage_seller host pe ev) = (Throw (TypeError_nullish "id"), []).
Proof.
  intros Hu Hk Hm Hb. unfold run, manage_seller.
  apply env_configured in Hu as [_ ->]. apply env_configured in Hk as [_ ->].
  apply update_dispatch in Hm as [-> ->]. cbn [negb orb].
  unfold bind at 1. rewrite update_body_run.
  assert (update_body ev = VNull) as ->
    by (unfold update_body; destruct Hb as [-> | ->]; reflexivity).
  reflexivity.
Qed.

(** X11: an update that carries id and password, for PUT as for PATCH.
    When the id can be printed into the URL, the run makes one PATCH
    request to the account, with the password alone as body: the reply
    is 200 when the backend accepts, the status of the backend with its
    answer as detail when it refuses, and none at all when the backend
    gives no response.  When the id cannot be printed, the handler
    throws before any request. *)
Theorem manage_seller_update host pe ev url key id password :
  configured pe "SUPABASE_URL" url ->
  configured pe "SUPABASE_SERVICE_ROLE_KEY" key ->
  is_update ev ->
  carries (update_body ev) "id" id ->
  carries (update_body ev) "password" password ->
  run (manage_seller host pe ev)
  = match ToString (Number_toString host) id with
    | Ok idText =>
        match network host [] (update_request host url key idText password) with
        | Some res => (Ok (update_reply host res),
                       [update_request host url key idText password])
        | None => (Throw TypeError_fetch,
                   [update_request host url key idText password])
        end
    | Throw e => (Throw e, [])
    end.
Proof.
  intros Hu Hk Hm [Hi Ti] [Hp Tp]. unfold run, manage_seller.
  apply env_configured in Hu as [Eu ->]. apply env_configured in Hk as [Ek ->].
  apply update_dispatch in Hm as [-> ->]. cbn [negb orb].
  unfold bind at 1. rewrite update_body_run.
  unfold bind at 1. unfold lift at 1. rewrite Hi.
  unfold bind at 1. unfold lift at 1. rewrite Hp, Ti, Tp. cbn [negb orb].
  rewrite Eu, Ek.
  unfold bind at 1. unfold lift at 1.
  cbn [template rbind ToString].
  destruct (ToString (Number_toString host) id) as [idText | e];
    [| reflexivity].
  cbn [rbind].
  unfold bind at 1. unfold lift at 1. cbn [template rbind ToString].
  rewrite !append_empty_r.
  unfold update_request, supabase_headers.
  destruct (network host [] _) as [res |] eqn:Hnet.
  - unfold bind. rewrite (requestSupabase_answered _ _ _ _ _ _ _ Hnet).
    cbn [Answer.ok Answer.status Answer.data app].
    unfold update_reply. destruct (Fetch.ok res); reflexivity.
  - unfold bind, requestSupabase, bind, fetch. rewrite Hnet. reflexivity.
Qed.

(** X12: a DELETE with an id makes one DELETE request to the account;
    the reply is 200 when the backend accepts, and otherwise the status
    of the backend with its answer as detail. *)
Theorem manage_seller_delete host pe ev url key id res :
  configured pe "SUPABASE_URL" url ->
  configured pe "SUPABASE_SERVICE_ROLE_KEY" key ->
  Event.httpMethod ev = "DELETE" ->
  query_id ev = Some id ->
  id <> EmptyString ->
  network host [] (delete_request url key id) = Some res ->
  run (manage_seller host pe ev)
  = (Ok (delete_reply host res), [delete_request url key id]).
Proof.
  intros Hu Hk Hm Hq Hne Hnet. unfold run, manage_seller.
  apply env_configured in Hu as [Eu ->]. apply env_configured in Hk as [Ek ->].
  rewrite Hm. cbn [String.eqb Ascii.eqb Bool.eqb negb orb].
  assert (query_param ev "id" = VStr id) as ->.
  { revert Hq. unfold query_id, query_param.
    destruct (Event.queryStringParameters ev) as [params |]; [| discriminate].
    intros ->. reflexivity. }
  assert (ToBoolean (VStr id) = true) as ->.
  { simpl. destruct (String.eqb_spec id EmptyString); [contradiction | reflexivity]. }
  cbn [negb]. rewrite Eu, Ek.
  unfold bind at 1. unfold lift at 1. cbn [template rbind ToString].
  unfold bind at 1. unfold lift at 1. cbn [template rbind ToString].
  rewrite !append_empty_r.
  unfold delete_request, supabase_headers in Hnet.
  unfold bind. rewrite (requestSupabase_answered _ _ _ _ _ _ _ Hnet).
  cbn [Answer.ok Answer.status Answer.data app].
  unfold delete_reply, delete_request, supabase_headers.
  destruct (Fetch.ok res); reflexivity.
Qed.

(** X13: when the backend gives no response to the deletion, the handler
    does not answer: the rejection of [fetch] leaves it uncaught. *)
Theorem manage_seller_delete_unanswered host pe ev url key id :
  configured pe "SUPABASE_URL" url ->
  configured pe "SUPABASE_SERVICE_ROLE_KEY" key ->
  Event.httpMethod ev = "DELETE" ->
  query_id ev = Some id ->
  id <> EmptyString ->
  network host [] (delete_request url key id) = None ->
  run (manage_seller host pe ev)
  = (Throw TypeError_fetch, [delete_request url key id]).
Proof.
  intros Hu Hk Hm Hq Hne Hnet. unfold run, manage_seller.
  apply env_configured in Hu as [Eu ->]. apply env_configured in Hk as [Ek ->].
  rewrite Hm. cbn [String.eqb Ascii.eqb Bool.eqb negb orb].
  assert (query_param ev "id" = VStr id) as ->.
  { revert Hq. unfold query_id, query_param.
    destruct (Event.queryStringParameters ev) as [params |]; [| discriminate].
    intros ->. reflexivity. }
  assert (ToBoolean (VStr id) = true) as ->.
  { simpl. destruct (String.eqb_spec id EmptyString); [contradiction | reflexivity]. }
  cbn [negb]. rewrite Eu, Ek.
  unfold bind at 1. unfold lift at 1. cbn [template rbind ToString].
  unfold bind at 1. unfold lift at 1. cbn [template rbind ToString].
  rewrite !append_empty_r.
  unfold delete_request, supabase_headers in Hnet |- *.
  unfold bind, requestSupabase, bind, fetch. rewrite Hnet. reflexivity.
Qed.

(** X14: when the profile query of the listing is answered with a
    failure status, that status is relayed with the answer as detail,
    and no account is looked up. *)
Theorem manage_seller_list_upstream_failure host pe ev url key profilesRes :
  configured pe "SUPABASE_URL" url ->
  configured pe "SUPABASE_SERVICE_ROLE_KEY" key ->
  Event.httpMethod ev = "GET" ->
  network host [] (profiles_request url key) = Some profilesRes ->
  Fetch.ok profilesRes = false ->
  run (manage_seller host pe ev)
  = (Ok (Reply.make (Fetch.status profilesRes) None
           (stringify host
              (VObj [("message", VStr "Error obteniendo perfiles");
                     ("detail", answer_data profilesRes)]))),
     [profiles_request url key]).
Proof.
  intros Hu Hk Hm Hnet Hok.
  apply env_configured in Hu as [Eu Tu]. apply env_configured in Hk as [Ek Tk].
  unfold run, manage_seller. rewrite Tu, Tk, Eu, Ek, Hm.
  cbn [String.eqb Ascii.eqb Bool.eqb negb orb].
  unfold bind at 1. unfold lift at 1. cbn [template rbind ToString].
  unfold bind at 1. unfold lift at 1. cbn [template rbind ToString].
  rewrite !append_empty_r.
  unfold bind at 1.
  unfold profiles_request, supabase_headers in Hnet |- *.
  rewrite (requestSupabase_answered _ _ _ _ _ _ _ Hnet).
  cbn [Answer.ok Answer.data Answer.status app]. rewrite Hok. reflexivity.
Qed.

(** X15: when the profile query is answered with a success whose body
    cannot be iterated (JSON other than an array or a string), the loop
    throws and the handler answers nothing; no account is looked up. *)
Theorem manage_seller_list_not_iterable host pe ev url key profilesRes e :
  configured pe "SUPABASE_URL" url ->
  configured pe "SUPABASE_SERVICE_ROLE_KEY" key ->
  Event.httpMethod ev = "GET" ->
  network host [] (profiles_request url key) = Some profilesRes ->
  Fetch.ok profilesRes = true ->
  iterate (answer_data profilesRes) = Throw e ->
  run (manage_seller host pe ev) = (Throw e, [profiles_request url key]).
Proof.
  intros Hu Hk Hm Hnet Hok Hit.
  apply env_configured in Hu as [Eu Tu]. apply env_configured in Hk as [Ek Tk].
  unfold run, manage_seller. rewrite Tu, Tk, Eu, Ek, Hm.
  cbn [String.eqb Ascii.eqb Bool.eqb negb orb].
  unfold bind at 1. unfold lift at 1. cbn [template rbind ToString].
  unfold bind at 1. unfold lift at 1. cbn [template rbind ToString].
  rewrite !append_empty_r.
  unfold bind at 1.
  unfold profiles_request, supabase_headers in Hnet |- *.
  rewrite (requestSupabase_answered _ _ _ _ _ _ _ Hnet).
  cbn [Answer.ok Answer.data Answer.status app]. rewrite Hok. cbn [negb].
  unfold bind, lift. rewrite Hit. reflexivity.
Qed.

(** ** The insight generator, live *)

Lemma user_text_run host parsed tr :
  (if ToBoolean (GetOpt parsed "prompt") then ret (GetOpt parsed "prompt")
   else
     t <- lift (templated_prompt host (GetOpt parsed "name")
                  (GetOpt parsed "category") (GetOpt parsed "description")
                  (GetOpt parsed "salesSummary")) ;;
     ret (VStr t)) tr
  = lift (user_text host parsed) tr.
Proof.
  unfold user_text, bind, lift, ret.
  destruct (ToBoolean (GetOpt parsed "prompt")); [reflexivity |].
  destruct (templated_prompt _ _ _ _ _); reflexivity.
Qed.

(** With a key, a request other than OPTIONS whose body parses and whose
    prompt can be built makes exactly the live request, and what follows
    depends on its answer alone. *)
Lemma insight_live_run host pe ev key parsed userText :
  configured pe "GEMINI_API_KEY" key ->
  Event.httpMethod ev <> "OPTIONS" ->
  JSON_parse (body_or ev "{}") = Ok parsed ->
  is_nullish parsed = false ->
  user_text host parsed = Ok userText ->
  run (generate_insight host pe ev)
  = match network host [] (gemini_request host key userText) with
    | None =>
        (Ok (Reply.make 500 (Some cors_headers)
               (stringify host
                  (VObj [("error", VStr (message host TypeError_fetch))]))),
         [gemini_request host key userText])
    | Some resp =>
        (Ok (if negb (Fetch.ok resp) then
               Reply.make (Fetch.status resp) (Some cors_headers)
                 (stringify host (VObj [("error", VStr (Fetch.text resp))]))
             else
               match Fetch.json resp with
               | Ok data =>
                   Reply.make 200 (Some cors_headers)
                     (stringify host
                        (VObj [("analysis",
                                or_else (candidate_text data)
                                  (match JS.stringify (Number_toString host) data with
                                   | Some t => VStr t
                                   | None => VUndef
                                   end));
                               ("mode", VStr "gemini")]))
               | Throw e =>
                   Reply.make 500 (Some cors_headers)
                     (stringify host (VObj [("error", VStr (message host e))]))
               end),
         [gemini_request host key userText])
    end.
Proof.
  intros Hk Hm Hp Hn Hu.
  apply env_configured in Hk as [Ek Tk]. apply String.eqb_neq in Hm.
  unfold run, generate_insight. rewrite Hm. unfold try_catch.
  unfold bind at 1. unfold lift at 1. rewrite Hp.
  do 5 (unfold bind at 1; unfold lift at 1; rewrite (Get_not_nullish _ _ Hn)).
  cbv zeta. rewrite Tk, Ek. cbn [negb].
  unfold bind at 1. unfold lift at 1. cbn [template rbind ToString].
  rewrite !append_empty_r.
  unfold bind at 1. rewrite user_text_run, Hu. unfold lift at 1.
  unfold bind at 1. unfold fetch. unfold gemini_request.
  destruct (network host [] _) as [resp |]; [| reflexivity].
  cbn [app]. destruct (negb (Fetch.ok resp)); [reflexivity |].
  unfold bind, lift, ret, candidate_text.
  destruct (Fetch.json resp); reflexivity.
Qed.

(** X16: when the generative API answers with a failure status, the
    reply relays that status, with the text of the answer as error. *)
Theorem insight_relays_upstream_failure host pe ev key parsed userText resp :
  configured pe "GEMINI_API_KEY" key ->
  Event.httpMethod ev <> "OPTIONS" ->
  JSON_parse (body_or ev "{}") = Ok parsed ->
  is_nullish parsed = false ->
  user_text host parsed = Ok userText ->
  network host [] (gemini_request host key userText) = Some resp ->
  Fetch.ok resp = false ->
  run (generate_insight host pe ev)
  = (Ok (Reply.make (Fetch.status resp) (Some cors_headers)
           (stringify host (VObj [("error", VStr (Fetch.text resp))]))),
     [gemini_request host key userText]).
Proof.
  intros Hk Hm Hp Hn Hu Hnet Hok.
  rewrite (insight_live_run host pe ev key parsed userText Hk Hm Hp Hn Hu).
  rewrite Hnet, Hok. reflexivity.
Qed.

(** X17: when the answer holds a text in the first part of its first
    candidate, that text is the analysis, in mode "gemini". *)
Theorem insight_first_candidate host pe ev key parsed userText resp data :
  configured pe "GEMINI_API_KEY" key ->
  Event.httpMethod ev <> "OPTIONS" ->
  JSON_parse (body_or ev "{}") = Ok parsed ->
  is_nullish parsed = false ->
  user_text host parsed = Ok userText ->
  network host [] (gemini_request host key userText) = Some resp ->
  Fetch.ok resp = true ->
  Fetch.json resp = Ok data ->
  ToBoolean (candidate_text data) = true ->
  run (generate_insight host pe ev)
  = (Ok (Reply.make 200 (Some cors_headers)
           (stringify host (VObj [("analysis", candidate_text data);
                                  ("mode", VStr "gemini")]))),
     [gemini_request host key userText]).
Proof.
  intros Hk Hm Hp Hn Hu Hnet Hok Hj Ht.
  rewrite (insight_live_run host pe ev key parsed userText Hk Hm Hp Hn Hu).
  rewrite Hnet, Hok, Hj. unfold or_else. rewrite Ht. reflexivity.
Qed.

(** X18: when the answer holds no such text, the analysis is the whole
    answer, serialised again. *)
Theorem insight_raw_fallback host pe ev key parsed userText resp data raw :
  configured pe "GEMINI_API_KEY" key ->
  Event.httpMethod ev <> "OPTIONS" ->
  JSON_parse (body_or ev "{}") = Ok parsed ->
  is_nullish parsed = false ->
  user_text host parsed = Ok userText ->
  network host [] (gemini_request host key userText) = Some resp ->
  Fetch.ok resp = true ->
  Fetch.json resp = Ok data ->
  ToBoolean (candidate_text data) = false ->
  JS.stringify (Number_toString host) data = Some raw ->
  run (generate_insight host pe ev)
  = (Ok (Reply.make 200 (Some cors_headers)
           (stringify host (VObj [("analysis", VStr raw);
                                  ("mode", VStr "gemini")]))),
     [gemini_request host key userText]).
Proof.
  intros Hk Hm Hp Hn Hu Hnet Hok Hj Ht Hraw.
  rewrite (insight_live_run host pe ev key parsed userText Hk Hm Hp Hn Hu).
  rewrite Hnet, Hok, Hj. unfold or_else. rewrite Ht, Hraw. reflexivity.
Qed.

(** X19: a truthy prompt of the caller is forwarded as it is, in the one
    request of the run; name, category, description and sales summary
    are not looked at, printable or not. *)
Theorem insight_prompt_forwarded host pe ev key parsed :
  configured pe "GEMINI_API_KEY" key ->
  Event.httpMethod ev <> "OPTIONS" ->
  JSON_parse (body_or ev "{}") = Ok parsed ->
  is_nullish parsed = false ->
  ToBoolean (GetOpt parsed "prompt") = true ->
  snd (run (generate_insight host pe ev))
  = [gemini_request host key (GetOpt parsed "prompt")].
Proof.
  intros Hk Hm Hp Hn Ht.
  assert (user_text host parsed = Ok (GetOpt parsed "prompt")) as Hu
    by (unfold user_text; now rewrite Ht).
  rewrite (insight_live_run host pe ev key parsed _ Hk Hm Hp Hn Hu).
  destruct (network host [] _); reflexivity.
Qed.

(** X20: when the generative API gives no response, or answers a success
    with a body that is not JSON, the reply is the 500 of the catch-all
    with the message of the exception. *)
Theorem insight_unreadable_upstream host pe ev key parsed userText :
  configured pe "GEMINI_API_KEY" key ->
  Event.httpMethod ev <> "OPTIONS" ->
  JSON_parse (body_or ev "{}") = Ok parsed ->
  is_nullish parsed = false ->
  user_text host parsed = Ok userText ->
  forall e,
    match network host [] (gemini_request host key userText) with
    | Some resp => Fetch.ok resp = true /\ Fetch.json resp = Throw e
    | None => e = TypeError_fetch
    end ->
    run (generate_insight host pe ev)
    = (Ok (Reply.make 500 (Some cors_headers)
             (stringify host (VObj [("error", VStr (message host e))]))),
       [gemini_request host key userText]).
Proof.
  intros Hk Hm Hp Hn Hu e He.
  rewrite (insight_live_run host pe ev key parsed userText Hk Hm Hp Hn Hu).
  destruct (network host [] _) as [resp |].
  - destruct He as [Hok Hj]. rewrite Hok, Hj. reflexivity.
  - subst e. reflexivity.
Qed.

(** X21: the insight generator attempts at most one request, whatever the
    request and the environment. *)
Theorem insight_at_most_one host pe ev :
  (length (snd (run (generate_insight host pe ev))) <= 1)%nat.
Proof.
  assert (attempts 1 (generate_insight host pe ev)) as H.
  { unfold generate_insight. apply attempts_if; [spend |].
    apply (attempts_try_catch 1 0); [| intros; apply attempts_ret].
    do 6 (apply (attempts_weaken (0 + 1)); [lia |];
          apply attempts_bind; [apply attempts_lift | intros]).
    cbv zeta. apply attempts_if; [spend |].
    apply (attempts_weaken (0 + 1)); [lia |].
    apply attempts_bind; [apply attempts_lift | intros url].
    apply (attempts_bind 0 1); [apply attempts_if; spend | intros userText].
    spend. }
  destruct (H []) as (more & E & L). unfold run. rewrite E. exact L.
Qed.

(** * The offline cache script *)

Section OfflineCache.
Import ServiceWorker.

Lemma delete_filter name (st : CacheStorage) :
  delete name st
  = List.filter (fun kc => negb (String.eqb (fst kc) name)) st.
Proof.
  induction st as [| [k c] rest IH]; [reflexivity |].
  simpl. destruct (String.eqb k name); simpl; now rewrite IH.
Qed.

Lemma filter_filter {A} (f g : A -> bool) (l : list A) :
  List.filter f (List.filter g l) = List.filter (fun x => g x && f x) l.
Proof.
  induction l as [| x l IH]; [reflexivity |].
  simpl. destruct (g x); simpl; [destruct (f x) |]; now rewrite IH.
Qed.

Lemma filter_ext_in {A} (f g : A -> bool) (l : list A) :
  (forall x, In x l -> f x = g x) -> List.filter f l = List.filter g l.
Proof.
  induction l as [| x l IH]; intros H; [reflexivity |].
  simpl. rewrite (H x (or_introl eq_refl)), IH; [reflexivity |].
  intros y Hy. apply H. now right.
Qed.

Lemma activate_fold ks : forall acc : CacheStorage,
  fold_left
    (fun acc k => if negb (String.eqb k CACHE_NAME) then delete k acc else acc)
    ks acc
  = List.filter (kept ks) acc.
Proof.
  induction ks as [| k ks IH]; intros acc.
  - simpl. symmetry. rewrite (filter_ext_in _ (fun _ => true)).
    + induction acc as [| x l IHl]; simpl; [reflexivity | now rewrite IHl].
    + intros x _. unfold kept. simpl. apply orb_true_r.
  - cbn [fold_left]. rewrite IH.
    destruct (String.eqb_spec k CACHE_NAME) as [-> | Hk]; cbn [negb].
    + apply filter_ext_in. intros [k' c] _. unfold kept. simpl.
      destruct (String.eqb k' CACHE_NAME); reflexivity.
    + rewrite delete_filter, filter_filter.
      apply filter_ext_in. intros [k' c] _. unfold kept. simpl.
      destruct (String.eqb_spec k' k) as [-> | Hkk]; simpl.
      * now rewrite (proj2 (String.eqb_neq k CACHE_NAME) Hk).
      * destruct (String.eqb k' CACHE_NAME); reflexivity.
Qed.

Lemma activate_filter (st : CacheStorage) :
  activate st = List.filter (fun kc => String.eqb (fst kc) CACHE_NAME) st.
Proof.
  unfold activate. rewrite activate_fold.
  apply filter_ext_in. intros [k c] Hin. unfold kept. simpl.
  assert (existsb (String.eqb k) (keys st) = true) as ->.
  { apply existsb_exists. exists k. split; [| apply String.eqb_refl].
    unfold keys. apply in_map_iff. exists (k, c). auto. }
  apply orb_false_r.
Qed.

(** X22: activation deletes every cache whose name is not the current one
    and leaves the caches of the current name as they are. *)
Theorem activate_keeps_current_only (st : CacheStorage) name c :
  In (name, c) (activate st) <-> In (name, c) st /\ name = CACHE_NAME.
Proof.
  rewrite activate_filter, filter_In. simpl.
  split; intros [H E]; (split; [exact H |]).
  - now apply String.eqb_eq.
  - now apply String.eqb_eq.
Qed.

Lemma filter_absent name (st : CacheStorage) :
  ~ In name (keys st) ->
  List.filter (fun kc => String.eqb (fst kc) name) st = [].
Proof.
  induction st as [| [k c] rest IH]; intros H; [reflexivity |].
  simpl in *. destruct (String.eqb_spec k name) as [-> | _].
  - exfalso. apply H. now left.
  - apply IH. intros Hin. apply H. now right.
Qed.

Lemma caches_match_current (st : CacheStorage) req :
  well_formed st ->
  caches_match (List.filter (fun kc => String.eqb (fst kc) CACHE_NAME) st) req
  = match cache_of CACHE_NAME st with
    | Some c => cache_match c req
    | None => None
    end.
Proof.
  unfold well_formed.
  induction st as [| [k c] rest IH]; intros Hwf; [reflexivity |].
  simpl in Hwf. apply List.NoDup_cons_iff in Hwf as [Hk Hwf].
  simpl. destruct (String.eqb_spec k CACHE_NAME) as [-> | _].
  - rewrite (filter_absent _ _ Hk). simpl.
    destruct (cache_match c req); reflexivity.
  - apply IH, Hwf.
Qed.

Lemma eqb_append_l s a b :
  String.eqb (s +:+ a) (s +:+ b) = String.eqb a b.
Proof.
  induction s as [| c s IH]; [reflexivity |].
  change (String.eqb (String c (s +:+ a)) (String c (s +:+ b))
          = String.eqb a b).
  simpl. now rewrite Ascii.eqb_refl.
Qed.

Lemma existsb_append s x l :
  existsb (String.eqb (s +:+ x)) (map (String.append s) l)
  = existsb (String.eqb x) l.
Proof.
  induction l as [| y l IH]; [reflexivity |].
  cbn [map existsb]. now rewrite eqb_append_l, IH.
Qed.

Lemma distinct_append s l :
  distinct (map (String.append s) l) = distinct l.
Proof.
  induction l as [| x l IH]; [reflexivity |].
  cbn [map distinct]. now rewrite existsb_append, IH.
Qed.

Lemma assets_distinct scope :
  distinct (map (resolve scope) urlsToCache) = true.
Proof.
  change (map (resolve scope) urlsToCache)
    with (map (String.append scope) (map (Text.drop 2) urlsToCache)).
  rewrite distinct_append. reflexivity.
Qed.

Lemma fetch_all_keys net urls rs :
  fetch_all net urls = Some rs -> map fst rs = urls.
Proof.
  revert rs. induction urls as [| u rest IH]; intros rs H; simpl in H.
  - inversion H. reflexivity.
  - destruct (net (get u)) as [r |]; [| discriminate].
    destruct (storable r); [| discriminate].
    destruct (fetch_all net rest) as [rs' |]; [| discriminate].
    inversion H. simpl. now rewrite (IH rs').
Qed.

Lemma fold_insert_other (rs : list (string * Fetch.Response)) :
  forall (c : Cache) u,
    ~ In u (map fst rs) ->
    fold_left (fun acc ur => <[fst ur := snd ur]> acc) rs c !! u = c !! u.
Proof.
  induction rs as [| [u0 r0] rs IH]; intros c u H; [reflexivity |].
  simpl in *. rewrite IH by tauto.
  apply lookup_insert_ne. intros ->. apply H. now left.
Qed.

Lemma distinct_cons_not_in u rest :
  distinct (u :: rest) = true -> ~ In u rest /\ distinct rest = true.
Proof.
  simpl. intros H. apply andb_prop in H as [Hn Hd]. split; [| exact Hd].
  intros Hin. apply negb_true_iff in Hn.
  assert (existsb (String.eqb u) rest = true) as E.
  { apply existsb_exists. exists u. split; [exact Hin | apply String.eqb_refl]. }
  congruence.
Qed.

Lemma fetch_all_stored net urls :
  forall rs (c : Cache) u,
    fetch_all net urls = Some rs ->
    distinct urls = true ->
    In u urls ->
    fold_left (fun acc ur => <[fst ur := snd ur]> acc) rs c !! u
    = net (get u).
Proof.
  induction urls as [| u0 rest IH]; intros rs c u H Hd Hin; [contradiction |].
  apply distinct_cons_not_in in Hd as [Hn Hd].
  simpl in H.
  destruct (net (get u0)) as [r0 |] eqn:N; [| discriminate].
  destruct (storable r0); [| discriminate].
  destruct (fetch_all net rest) as [rs' |] eqn:F; [| discriminate].
  inversion H; subst rs. simpl.
  destruct (String.eqb_spec u0 u) as [-> | Hne].
  - rewrite fold_insert_other.
    + rewrite N. apply lookup_insert_eq.
    + rewrite (fetch_all_keys _ _ _ F). exact Hn.
  - destruct Hin as [-> | Hin]; [contradiction |].
    apply (IH rs' _ u eq_refl Hd Hin).
Qed.

Lemma fetch_all_available net urls :
  (forall u, In u urls ->
     exists r, net (get u) = Some r /\ storable r = true) ->
  exists rs, fetch_all net urls = Some rs.
Proof.
  induction urls as [| u rest IH]; intros H; [eexists; reflexivity |].
  destruct (H u (or_introl eq_refl)) as (r & N & S).
  destruct IH as [rs F]; [intros v Hv; apply H; now right |].
  simpl. rewrite N, S, F. eexists. reflexivity.
Qed.

Lemma fetch_all_unavailable net urls u :
  In u urls ->
  match net (get u) with
  | Some r => storable r = false
  | None => True
  end ->
  fetch_all net urls = None.
Proof.
  induction urls as [| u0 rest IH]; intros Hin Hu; [contradiction |].
  simpl. destruct Hin as [-> | Hin].
  - destruct (net (get u)) as [r |]; [now rewrite Hu | reflexivity].
  - destruct (net (get u0)) as [r0 |]; [| reflexivity].
    destruct (storable r0); [| reflexivity].
    now rewrite (IH Hin Hu).
Qed.

Lemma cache_of_open name (st : CacheStorage) :
  exists c, cache_of name (open name st) = Some c
            /\ (cache_of name st = Some c
                \/ cache_of name st = None /\ c = empty).
Proof.
  unfold open. destruct (cache_of name st) as [c |] eqn:E.
  - exists c. split; [exact E | now left].
  - exists empty. split; [| now right].
    induction st as [| [k c] rest IH]; simpl in *.
    + now rewrite String.eqb_refl.
    + destruct (String.eqb k name); [discriminate | now apply IH].
Qed.

Lemma cache_of_store name c (st : CacheStorage) c0 :
  cache_of name st = Some c0 -> cache_of name (store name c st) = Some c.
Proof.
  induction st as [| [k c'] rest IH]; simpl; [discriminate |].
  destruct (String.eqb k name) eqn:E; simpl; rewrite E; [reflexivity | exact IH].
Qed.

Lemma keys_store name c (st : CacheStorage) : keys (store name c st) = keys st.
Proof.
  induction st as [| [k c'] rest IH]; [reflexivity |].
  simpl. destruct (String.eqb k name); simpl; [reflexivity | now rewrite IH].
Qed.

Lemma cache_of_None name (st : CacheStorage) :
  cache_of name st = None -> ~ In name (keys st).
Proof.
  induction st as [| [k c] rest IH]; simpl; [tauto |].
  destruct (String.eqb_spec k name) as [-> | Hne]; [discriminate |].
  intros H [E | Hin]; [contradiction | now apply IH].
Qed.

Lemma well_formed_open name (st : CacheStorage) :
  well_formed st -> well_formed (open name st).
Proof.
  unfold well_formed, open, keys. intros H.
  destruct (cache_of name st) eqn:E; [exact H |].
  rewrite map_app. simpl. apply List.NoDup_app. repeat split.
  - exact H.
  - apply List.NoDup_cons; [intros [] | apply List.NoDup_nil].
  - intros x Hx [<- | []]. exact (cache_of_None _ _ E Hx).
Qed.

(** Installing keeps the names unique, and so does activating. *)
Lemma well_formed_install scope net (st : CacheStorage) :
  well_formed st -> well_formed (install scope net st).
Proof.
  intros H. apply (well_formed_open CACHE_NAME) in H. unfold install.
  cbv zeta. destruct (cache_of CACHE_NAME (open CACHE_NAME st)); [| exact H].
  destruct (addAll _ _ _); [| exact H].
  unfold well_formed. now rewrite keys_store.
Qed.

Lemma install_stores scope net (st : CacheStorage) :
  available scope net ->
  exists c',
    cache_of CACHE_NAME (install scope net st) = Some c'
    /\ forall u, In u urlsToCache ->
                 c' !! resolve scope u = net (get (resolve scope u)).
Proof.
  intros Hav. unfold install. cbv zeta.
  destruct (cache_of_open CACHE_NAME st) as (c & Hc & _). rewrite Hc.
  destruct (fetch_all_available net (map (resolve scope) urlsToCache))
    as [rs F].
  { intros v Hv. apply in_map_iff in Hv as (u & <- & Hu). exact (Hav u Hu). }
  unfold addAll. rewrite assets_distinct, F.
  eexists. split; [exact (cache_of_store _ _ _ _ Hc) |].
  intros u Hu.
  apply (fetch_all_stored net (map (resolve scope) urlsToCache) rs c _ F
           (assets_distinct scope)).
  apply in_map. exact Hu.
Qed.

Lemma caches_match_found (st : CacheStorage) name c req r :
  cache_of name st = Some c -> cache_match c req = Some r ->
  exists r', caches_match st req = Some r'.
Proof.
  induction st as [| [k c0] rest IH]; simpl; [discriminate |].
  destruct (String.eqb k name).
  - intros E Hr. inversion E; subst c0. rewrite Hr. eauto.
  - intros E Hr. destruct (cache_match c0 req); [eauto | exact (IH E Hr)].
Qed.

Lemma caches_match_open name (st : CacheStorage) req :
  caches_match (open name st) req = caches_match st req.
Proof.
  unfold open. destruct (cache_of name st); [reflexivity |].
  induction st as [| [k c] rest IH]; simpl.
  - unfold cache_match. destruct (String.eqb (method req) "GET"); reflexivity.
  - destruct (cache_match c req); [reflexivity | exact IH].
Qed.

(** X23: after activation a request is answered from the cache exactly
    when the cache of the current name holds it; what older caches held
    is served no more. *)
Theorem activation_serves_current_only (st : CacheStorage) req :
  well_formed st ->
  caches_match (activate st) req
  = match cache_of CACHE_NAME st with
    | Some c => cache_match c req
    | None => None
    end.
Proof.
  intros Hwf. rewrite activate_filter.
  apply caches_match_current. exact Hwf.
Qed.

(** X24: after an install that found every asset, and activation, each
    asset is served from the cache as it was fetched at install time,
    whatever the network would answer now, and without asking it. *)
Theorem precached_asset_served scope net net' (st : CacheStorage) u r :
  well_formed st ->
  available scope net ->
  In u urlsToCache ->
  net (get (resolve scope u)) = Some r ->
  on_fetch scope net' (activate (install scope net st)) (get (resolve scope u))
  = (Some r, []).
Proof.
  intros Hwf Hav Hu Hr.
  destruct (install_stores scope net st Hav) as (c' & Hc & Hall).
  unfold on_fetch.
  rewrite activate_filter,
    (caches_match_current _ _ (well_formed_install scope net st Hwf)), Hc.
  unfold cache_match. cbn [method url get String.eqb Ascii.eqb Bool.eqb].
  now rewrite (Hall u Hu), Hr.
Qed.

(** X25: after an install that found every asset, the listener answers
    every request, whatever the network does: with the cached response
    and no network request when the cache holds one, else with what the
    network answers, else with a cached copy of the main document.
    Before activation that copy may be the one of an older cache; after
    it, it is the document fetched at install time.  Stated on URLs
    without fragment. *)
Theorem installed_always_responds scope net net' (st : CacheStorage) req
  index :
  well_formed st ->
  available scope net ->
  fragment_free scope = true ->
  fragment_free (url req) = true ->
  net (get (resolve scope "./index.html")) = Some index ->
  (exists document,
     caches_match (install scope net st) (get (resolve scope "./index.html"))
     = Some document
     /\ on_fetch scope net' (install scope net st) req
        = match caches_match (install scope net st) req with
          | Some cached => (Some cached, [])
          | None =>
              match net' req with
              | Some r => (Some r, [req])
              | None => (Some document, [req])
              end
          end)
  /\ on_fetch scope net' (activate (install scope net st)) req
     = match caches_match (activate (install scope net st)) req with
       | Some cached => (Some cached, [])
       | None =>
           match net' req with
           | Some r => (Some r, [req])
           | None => (Some index, [req])
           end
       end.
Proof.
  intros Hwf Hav _ _ Hr.
  destruct (install_stores scope net st Hav) as (c' & Hc & Hall).
  assert (cache_match c' (get (resolve scope "./index.html")) = Some index)
    as Hi.
  { unfold cache_match. cbn [method url get String.eqb Ascii.eqb Bool.eqb].
    rewrite Hall; [exact Hr | simpl; auto]. }
  split.
  - destruct (caches_match_found _ _ _ _ _ Hc Hi) as (document & Hd).
    exists document. split; [exact Hd |].
    unfold on_fetch. rewrite Hd. reflexivity.
  - unfold on_fetch.
    assert (caches_match (activate (install scope net st))
              (get (resolve scope "./index.html")) = Some index) as ->.
    { rewrite activate_filter,
        (caches_match_current _ _ (well_formed_install scope net st Hwf)), Hc.
      exact Hi. }
    reflexivity.
Qed.

(** X26: an install that misses one asset, unanswered or answered with a
    status that cannot be stored, stores none: every request is matched
    as before the install. *)
Theorem failed_install_changes_nothing scope net (st : CacheStorage) u req :
  In u urlsToCache ->
  match net (get (resolve scope u)) with
  | Some r => storable r = false
  | None => True
  end ->
  caches_match (install scope net st) req = caches_match st req.
Proof.
  intros Hu Hbad. unfold install. cbv zeta.
  destruct (cache_of CACHE_NAME (open CACHE_NAME st)) as [c |];
    [| apply caches_match_open].
  unfold addAll.
  rewrite (fetch_all_unavailable net (map (resolve scope) urlsToCache)
             (resolve scope u) (in_map _ _ _ Hu) Hbad).
  destruct (distinct _); apply caches_match_open.
Qed.
End OfflineCache.

(** * The further statements at work *)

(** ** create-seller *)

(** A new account: creation, upsert, 200 with the identifier. *)
Lemma create_seller_new_account_witness :
  run (create_seller Demo.fresh Sample.backend Sample.registration)
  = (Ok (Reply.make 200 None
           (Text.lit "{'message':'Vendedor creado','userId':'u9'}")),
     [create_request Demo.fresh Sample.base Sample.service_key
        (VStr "a@b.com") (VStr "x12345");
      upsert_request Demo.fresh Sample.base Sample.service_key (VStr "u9")]).
Proof.
  rewrite (create_seller_new_account Demo.fresh Sample.backend
             Sample.registration
             (VObj [("email", VStr "a@b.com"); ("password", VStr "x12345")])
             (VStr "a@b.com") (VStr "x12345")
             Sample.base Sample.service_key
             (Fetch.response 200 (Text.lit "{'id':'u9','email':'a@b.com'}"))).
  - reflexivity.
  - reflexivity.
  - reflexivity.
  - split; reflexivity.
  - split; reflexivity.
  - split; [reflexivity | discriminate].
  - split; [reflexivity | discriminate].
  - reflexivity.
  - simpl. lia.
  - reflexivity.
Defined.

(** An account that exists: creation, lookup, upsert of the identifier
    the lookup found. *)
Lemma create_seller_existing_account_witness :
  run (create_seller Demo.existing Sample.backend Sample.registration)
  = (Ok (Reply.make 200 None
           (Text.lit "{'message':'Vendedor creado','userId':'u7'}")),
     [create_request Demo.existing Sample.base Sample.service_key
        (VStr "a@b.com") (VStr "x12345");
      lookup_request Sample.base Sample.service_key "a%40b.com";
      upsert_request Demo.existing Sample.base Sample.service_key (VStr "u7")]).
Proof.
  rewrite (create_seller_existing_account Demo.existing Sample.backend
             Sample.registration
             (VObj [("email", VStr "a@b.com"); ("password", VStr "x12345")])
             (VStr "a@b.com") (VStr "x12345")
             Sample.base Sample.service_key
             (Fetch.response 422
                (Text.lit "{'code':422,'msg':'User already registered'}"))
             "a%40b.com"
             (Fetch.response 200 (Text.lit "[{'id':'u7','email':'a@b.com'}]"))
             (VArr [VObj [("id", VStr "u7"); ("email", VStr "a@b.com")]])).
  - reflexivity.
  - reflexivity.
  - reflexivity.
  - split; reflexivity.
  - split; reflexivity.
  - split; [reflexivity | discriminate].
  - split; [reflexivity | discriminate].
  - reflexivity.
  - left. reflexivity.
  - reflexivity.
  - reflexivity.
  - reflexivity.
  - reflexivity.
Defined.

(** The 200 of the new account, read backwards: the run ends with an
    upsert that was answered with a success. *)
Lemma create_seller_success_witness :
  exists url key userId hist res,
    [create_request Demo.fresh Sample.base Sample.service_key
       (VStr "a@b.com") (VStr "x12345");
     upsert_request Demo.fresh Sample.base Sample.service_key (VStr "u9")]
    = hist ++ [upsert_request Demo.fresh url key userId]
    /\ network Demo.fresh hist (upsert_request Demo.fresh url key userId)
       = Some res
    /\ Fetch.ok res = true.
Proof.
  destruct (create_seller_success Demo.fresh Sample.backend
              Sample.registration
              (Reply.make 200 None
                 (Text.lit "{'message':'Vendedor creado','userId':'u9'}"))
              [create_request Demo.fresh Sample.base Sample.service_key
                 (VStr "a@b.com") (VStr "x12345");
               upsert_request Demo.fresh Sample.base Sample.service_key
                 (VStr "u9")])
    as (url & key & email & password & userId & hist & res
        & _ & _ & _ & _ & Htr & Hres & Hok & _).
  - reflexivity.
  - reflexivity.
  - exists url, key, userId, hist, res. split; [exact Htr |].
    split; [exact Hres | exact Hok].
Defined.

(** The backend is unreachable: one attempt, then the 500 of the catch-all. *)
Lemma create_seller_backend_unreachable_witness :
  run (create_seller Sample.offline Sample.backend Sample.registration)
  = (Ok (Reply.make 500 None (Text.lit "{'error':'fetch failed'}")),
     [create_request Sample.offline Sample.base Sample.service_key
        (VStr "a@b.com") (VStr "x12345")]).
Proof.
  apply (create_seller_backend_unreachable Sample.offline Sample.backend
           Sample.registration
           (VObj [("email", VStr "a@b.com"); ("password", VStr "x12345")])
           (VStr "a@b.com") (VStr "x12345")
           Sample.base Sample.service_key).
  - reflexivity.
  - reflexivity.
  - split; reflexivity.
  - split; reflexivity.
  - split; [reflexivity | discriminate].
  - split; [reflexivity | discriminate].
  - reflexivity.
Defined.

(** ** manage-seller *)

(** A POST is not a method of manage-seller. *)
Lemma manage_seller_method_not_allowed_witness :
  run (manage_seller Sample.offline Sample.backend Sample.registration)
  = (Ok (Reply.make 405 None (Text.lit "{'message':'Método no permitido'}")),
     []).
Proof.
  apply (manage_seller_method_not_allowed Sample.offline Sample.backend
           Sample.registration Sample.base Sample.service_key).
  - split; [reflexivity | discriminate].
  - split; [reflexivity | discriminate].
  - simpl. intros [H | [H | [H | [H | []]]]]; discriminate H.
Defined.

Lemma manage_seller_update_missing_fields_witness :
  run (manage_seller Sample.offline Sample.backend (Demo.put "{'id':'u1'}"))
  = (Ok (Reply.make 400 None
           (Text.lit "{'message':'id y password son obligatorios'}")),
     []).
Proof.
  apply (manage_seller_update_missing_fields Sample.offline Sample.backend
           (Demo.put "{'id':'u1'}") Sample.base Sample.service_key).
  - split; [reflexivity | discriminate].
  - split; [reflexivity | discriminate].
  - left. reflexivity.
  - right. exists VUndef. split; reflexivity.
Defined.

Lemma manage_seller_update_malformed_body_witness :
  run (manage_seller Sample.offline Sample.backend (Demo.put "{'id':"))
  = (Ok (Reply.make 400 None
           (Text.lit "{'message':'id y password son obligatorios'}")),
     []).
Proof.
  apply (manage_seller_update_malformed_body Sample.offline Sample.backend
           (Demo.put "{'id':") Sample.base Sample.service_key
           (Text.lit "{'id':") (SyntaxError (Text.lit "{'id':"))).
  - split; [reflexivity | discriminate].
  - split; [reflexivity | discriminate].
  - left. reflexivity.
  - reflexivity.
  - reflexivity.
Defined.

Lemma manage_seller_update_null_body_witness :
  run (manage_seller Sample.offline Sample.backend
         (Event.make "PATCH" None None))
  = (Throw (TypeError_nullish "id"), []).
Proof.
  apply (manage_seller_update_null_body Sample.offline Sample.backend
           (Event.make "PATCH" None None) Sample.base Sample.service_key).
  - split; [reflexivity | discriminate].
  - split; [reflexivity | discriminate].
  - right. reflexivity.
  - left. reflexivity.
Defined.

(** A PUT becomes a PATCH of the account, with the password alone; an id
    that cannot be printed ends the run before any request. *)
Lemma manage_seller_update_witness :
  run (manage_seller Demo.admin Sample.backend
         (Demo.put "{'id':'u1','password':'nueva123','role':'admin'}"))
  = (Ok (Reply.make 200 None (Text.lit "{'message':'Contraseña actualizada'}")),
     [Fetch.request "https://demo.supabase.co/auth/v1/admin/users/u1"
        (Some "PATCH") (supabase_headers Sample.service_key)
        (Some (Text.lit "{'password':'nueva123'}"))])
  /\ run (manage_seller Demo.admin Sample.backend
            (Demo.put "{'id':{'toString':1},'password':'nueva123'}"))
     = (Throw TypeError_primitive, []).
Proof.
  split.
  - rewrite (manage_seller_update Demo.admin Sample.backend
               (Demo.put "{'id':'u1','password':'nueva123','role':'admin'}")
               Sample.base Sample.service_key
               (VStr "u1") (VStr "nueva123")).
    + reflexivity.
    + split; [reflexivity | discriminate].
    + split; [reflexivity | discriminate].
    + left. reflexivity.
    + split; reflexivity.
    + split; reflexivity.
  - rewrite (manage_seller_update Demo.admin Sample.backend
               (Demo.put "{'id':{'toString':1},'password':'nueva123'}")
               Sample.base Sample.service_key
               (VObj [("toString", VNum (Num 1 0))]) (VStr "nueva123")).
    + reflexivity.
    + split; [reflexivity | discriminate].
    + split; [reflexivity | discriminate].
    + left. reflexivity.
    + split; reflexivity.
    + split; reflexivity.
Defined.

(** The account of u2 is unknown: the 404 of the backend is relayed. *)
Lemma manage_seller_delete_witness :
  run (manage_seller Demo.admin Sample.backend (Demo.delete "u2"))
  = (Ok (Reply.make 404 None
           (Text.lit "{'message':'Error eliminando usuario','detail':{'code':404,'msg':'User not found'}}")),
     [delete_request Sample.base Sample.service_key "u2"]).
Proof.
  apply (manage_seller_delete Demo.admin Sample.backend (Demo.delete "u2")
           Sample.base Sample.service_key "u2"
           (Fetch.response 404 (Text.lit "{'code':404,'msg':'User not found'}"))).
  - split; [reflexivity | discriminate].
  - split; [reflexivity | discriminate].
  - reflexivity.
  - reflexivity.
  - discriminate.
  - reflexivity.
Defined.

Lemma manage_seller_delete_unanswered_witness :
  run (manage_seller Sample.offline Sample.backend (Demo.delete "u1"))
  = (Throw TypeError_fetch,
     [delete_request Sample.base Sample.service_key "u1"]).
Proof.
  apply (manage_seller_delete_unanswered Sample.offline Sample.backend
           (Demo.delete "u1") Sample.base Sample.service_key "u1").
  - split; [reflexivity | discriminate].
  - split; [reflexivity | discriminate].
  - reflexivity.
  - reflexivity.
  - discriminate.
  - reflexivity.
Defined.

(** During an outage the listing relays the 503, with the text of the
    answer as detail. *)
Lemma manage_seller_list_upstream_failure_witness :
  run (manage_seller Demo.outage Sample.backend (Event.make "GET" None None))
  = (Ok (Reply.make 503 None
           (Text.lit "{'message':'Error obteniendo perfiles','detail':'Service Unavailable'}")),
     [profiles_request Sample.base Sample.service_key]).
Proof.
  apply (manage_seller_list_upstream_failure Demo.outage Sample.backend
           (Event.make "GET" None None) Sample.base Sample.service_key
           (Fetch.response 503 (Text.lit "Service Unavailable"))).
  - split; [reflexivity | discriminate].
  - split; [reflexivity | discriminate].
  - reflexivity.
  - reflexivity.
  - reflexivity.
Defined.

(** The backend answers the profile query with an object. *)
Lemma manage_seller_list_not_iterable_witness :
  run (manage_seller Demo.misrouted Sample.backend
         (Event.make "GET" None None))
  = (Throw TypeError_not_iterable,
     [profiles_request Sample.base Sample.service_key]).
Proof.
  apply (manage_seller_list_not_iterable Demo.misrouted Sample.backend
           (Event.make "GET" None None) Sample.base Sample.service_key
           (Fetch.response 200
              (Text.lit "{'message':'ok'}"))).
  - split; [reflexivity | discriminate].
  - split; [reflexivity | discriminate].
  - reflexivity.
  - reflexivity.
  - reflexivity.
  - reflexivity.
Defined.

(** ** The insight generator *)

Lemma insight_relays_upstream_failure_witness :
  run (generate_insight Demo.outage Demo.with_key
         (Sample.post "{'prompt':'Hola'}"))
  = (Ok (Reply.make 503 (Some cors_headers)
           (Text.lit "{'error':'Service Unavailable'}")),
     [gemini_request Demo.outage "k-123" (VStr "Hola")]).
Proof.
  apply (insight_relays_upstream_failure Demo.outage Demo.with_key
           (Sample.post "{'prompt':'Hola'}") "k-123"
           (VObj [("prompt", VStr "Hola")]) (VStr "Hola")
           (Fetch.response 503 (Text.lit "Service Unavailable"))).
  - split; [reflexivity | discriminate].
  - discriminate.
  - reflexivity.
  - reflexivity.
  - reflexivity.
  - reflexivity.
  - reflexivity.
Defined.

Lemma insight_first_candidate_witness :
  run (generate_insight Demo.gemini Demo.with_key
         (Sample.post "{'prompt':'Hola'}"))
  = (Ok (Reply.make 200 (Some cors_headers)
           (Text.lit "{'analysis':'Sube el precio.','mode':'gemini'}")),
     [gemini_request Demo.gemini "k-123" (VStr "Hola")]).
Proof.
  apply (insight_first_candidate Demo.gemini Demo.with_key
           (Sample.post "{'prompt':'Hola'}") "k-123"
           (VObj [("prompt", VStr "Hola")]) (VStr "Hola")
           (Fetch.response 200
              (Text.lit "{'candidates':[{'content':{'parts':[{'text':'Sube el precio.'}]}}]}"))
           (VObj [("candidates",
                   VArr [VObj [("content",
                                VObj [("parts",
                                       VArr [VObj [("text",
                                                    VStr "Sube el precio.")]])])]])])).
  - split; [reflexivity | discriminate].
  - discriminate.
  - reflexivity.
  - reflexivity.
  - reflexivity.
  - reflexivity.
  - reflexivity.
  - reflexivity.
  - reflexivity.
Defined.

(** No candidate in the answer: the analysis is the answer itself, as
    text inside the text. *)
Lemma insight_raw_fallback_witness :
  run (generate_insight Demo.gemini_blocked Demo.with_key
         (Sample.post "{'prompt':'Hola'}"))
  = (Ok (Reply.make 200 (Some cors_headers)
           (stringify Demo.gemini_blocked
              (VObj [("analysis",
                      VStr (Text.lit "{'promptFeedback':{'blockReason':'SAFETY'}}"));
                     ("mode", VStr "gemini")]))),
     [gemini_request Demo.gemini_blocked "k-123" (VStr "Hola")]).
Proof.
  apply (insight_raw_fallback Demo.gemini_blocked Demo.with_key
           (Sample.post "{'prompt':'Hola'}") "k-123"
           (VObj [("prompt", VStr "Hola")]) (VStr "Hola")
           (Fetch.response 200
              (Text.lit "{'promptFeedback':{'blockReason':'SAFETY'}}"))
           (VObj [("promptFeedback", VObj [("blockReason", VStr "SAFETY")])])
           (Text.lit "{'promptFeedback':{'blockReason':'SAFETY'}}")).
  - split; [reflexivity | discriminate].
  - discriminate.
  - reflexivity.
  - reflexivity.
  - reflexivity.
  - reflexivity.
  - reflexivity.
  - reflexivity.
  - reflexivity.
  - reflexivity.
Defined.

(** The name is an object that cannot be printed; with a prompt it is
    never printed. *)
Lemma insight_prompt_forwarded_witness :
  snd (run (generate_insight Demo.gemini Demo.with_key
              (Sample.post "{'prompt':'Hola','name':{'toString':1}}")))
  = [gemini_request Demo.gemini "k-123" (VStr "Hola")].
Proof.
  apply (insight_prompt_forwarded Demo.gemini Demo.with_key
           (Sample.post "{'prompt':'Hola','name':{'toString':1}}") "k-123"
           (VObj [("prompt", VStr "Hola");
                  ("name", VObj [("toString", VNum (Num 1 0))])])).
  - split; [reflexivity | discriminate].
  - discriminate.
  - reflexivity.
  - reflexivity.
  - reflexivity.
Defined.

Lemma insight_unreadable_upstream_witness :
  run (generate_insight Sample.offline Demo.with_key
         (Sample.post "{'prompt':'Hola'}"))
  = (Ok (Reply.make 500 (Some cors_headers)
           (Text.lit "{'error':'fetch failed'}")),
     [gemini_request Sample.offline "k-123" (VStr "Hola")]).
Proof.
  apply (insight_unreadable_upstream Sample.offline Demo.with_key
           (Sample.post "{'prompt':'Hola'}") "k-123"
           (VObj [("prompt", VStr "Hola")]) (VStr "Hola")
           ltac:(split; [reflexivity | discriminate]) ltac:(discriminate)
           eq_refl eq_refl eq_refl TypeError_fetch).
  reflexivity.
Defined.

(** ** The offline cache *)

Section OfflineCacheAtWork.
Import ServiceWorker.

Lemma site_available : available Demo.scope Demo.site.
Proof.
  intros u Hu. simpl in Hu.
  destruct Hu as [<- | [<- | [<- | [<- | [<- | [<- | []]]]]]];
    eexists; split; reflexivity.
Qed.

Lemma old_storage_well_formed : well_formed Demo.old_storage.
Proof.
  unfold well_formed. simpl.
  apply List.NoDup_cons; [intros [] | apply List.NoDup_nil].
Qed.

(** The page of the older version is served no more after activation. *)
Lemma activation_serves_current_only_witness :
  caches_match Demo.old_storage
    (get "https://pos.example/index.html")
  = Some (Fetch.response 200 "old page")
  /\ caches_match (activate Demo.old_storage)
       (get "https://pos.example/index.html")
     = None.
Proof.
  split; [reflexivity |].
  apply (activation_serves_current_only Demo.old_storage
           (get "https://pos.example/index.html")).
  exact old_storage_well_formed.
Defined.

(** Installed while online, the main document is served offline, and as
    it was fetched. *)
Lemma precached_asset_served_witness :
  on_fetch Demo.scope offline
    (activate (install Demo.scope Demo.site Demo.old_storage))
    (get "https://pos.example/index.html")
  = (Some (Fetch.response 200 "https://pos.example/index.html"), []).
Proof.
  apply (precached_asset_served Demo.scope Demo.site offline Demo.old_storage
           "./index.html"
           (Fetch.response 200 "https://pos.example/index.html")).
  - exact old_storage_well_formed.
  - exact site_available.
  - simpl. auto.
  - reflexivity.
Defined.

(** Offline, a sale posted to the backend is answered with the main
    document: the one of the older cache before activation, the one
    installed after it. *)
Lemma installed_always_responds_witness :
  on_fetch Demo.scope offline
    (install Demo.scope Demo.site Demo.old_storage)
    (request "https://demo.supabase.co/rest/v1/ventas" "POST")
  = (Some (Fetch.response 200 "old page"),
     [request "https://demo.supabase.co/rest/v1/ventas" "POST"])
  /\ on_fetch Demo.scope offline
       (activate (install Demo.scope Demo.site Demo.old_storage))
       (request "https://demo.supabase.co/rest/v1/ventas" "POST")
     = (Some (Fetch.response 200 "https://pos.example/index.html"),
        [request "https://demo.supabase.co/rest/v1/ventas" "POST"]).
Proof.
  destruct (installed_always_responds Demo.scope Demo.site offline
              Demo.old_storage
              (request "https://demo.supabase.co/rest/v1/ventas" "POST")
              (Fetch.response 200 "https://pos.example/index.html"))
    as [(document & Hd & E1) E2].
  - exact old_storage_well_formed.
  - exact site_available.
  - reflexivity.
  - reflexivity.
  - reflexivity.
  - vm_compute in Hd. injection Hd as <-.
    rewrite E1, E2. split; reflexivity.
Defined.

(** Installed while offline, the script caches nothing, and what the
    older version cached is still what is served. *)
Lemma failed_install_changes_nothing_witness :
  caches_match (install Demo.scope offline Demo.old_storage)
    (get "https://pos.example/index.html")
  = Some (Fetch.response 200 "old page").
Proof.
  rewrite (failed_install_changes_nothing Demo.scope offline Demo.old_storage
             "./logo.png" (get "https://pos.example/index.html")).
  - reflexivity.
  - simpl. auto 6.
  - exact I.
Defined.

End OfflineCacheAtWork.
